(** * School attendance backend (src/index.js)

    A shallow embedding of the attendance server: the MySQL tables and the
    statements the server issues against them, the in-memory [timerManager]
    with the runtime's timeouts, the consecutive-absence evaluator, the
    routes that write to the store, the dashboard and today's attendance
    list.

    Conventions of the model.
    - A DATE is a day number in [Z] (days since 1970-01-01), and so is a
      date string "YYYY-MM-DD".  A [Date] object of the process is its time
      value, milliseconds since the epoch; the process's time zone is the
      [LocalTZA] of the environment.  The store compares DATE values as day
      numbers; the process compares them after the conversions it makes.
    - Strings compare by equality (binary collation); column widths are not
      modelled.
    - [generateUUID()], [getCurrentDate()], [getCurrentTime()], [CURDATE()] and
      [NOW()] read the environment: every handler takes an [Env] with the
      values it will read.  A handler reads one date for its whole run.
    - A handler runs to completion as one step: its [await] points do not
      interleave with other handlers.
    - The runtime and the driver behave as their defaults say: a rejected
      promise that nothing handles ends the process; a DATE column is read as
      a [Date] at local midnight; a statement parameter that is [undefined]
      is refused with a TypeError.
    - A call to [pool.execute] can fail because the store is unreachable; the
      [faults] schedule of the environment says which calls of a handler do. *)

From Stdlib Require Import ZArith Lia.
From Stdlib Require Floats.
From stdpp Require Import base option list gmap fin_maps strings pretty sorting.

(** ** Rows of the four tables (lines 47-99) *)

Inductive Status := present | absent.
Inductive NotificationStatus := pending | sent.

#[global] Instance Status_eq_dec : EqDecision Status.
Proof. solve_decision. Defined.
#[global] Instance NotificationStatus_eq_dec : EqDecision NotificationStatus.
Proof. solve_decision. Defined.

Record StudentRow := {
  s_id : string;
  s_name : string;
  s_card_id : string;
  s_parent_phone : option string;
  s_parent_email : option string;
  s_class : option string
}.

Record AttendanceRow := {
  a_id : string;
  a_student_id : string;
  a_student_name : string;
  a_card_id : string;
  a_date : Z;
  a_timestamp : Z;
  a_status : Status;
  a_auto_marked : bool
}.

Record NotificationRow := {
  n_id : string;
  n_student_id : string;
  n_student_name : string;
  n_type : string;
  n_message : string;
  n_status : NotificationStatus;
  n_consecutive_absent_days : Z;
  n_sent_date : option Z
}.

Record ReportRow := {
  r_id : string;
  r_date : Z;
  r_day_number : Z;
  r_total_students : Z;
  r_present_count : Z;
  r_absent_count : Z;
  r_attendance_rate : Z
}.

Record DB := {
  students : list StudentRow;
  attendance : list AttendanceRow;
  notifications : list NotificationRow;
  daily_reports : list ReportRow
}.

Definition set_students (l : list StudentRow) (d : DB) : DB :=
  {| students := l; attendance := attendance d;
     notifications := notifications d; daily_reports := daily_reports d |}.
Definition set_attendance (l : list AttendanceRow) (d : DB) : DB :=
  {| students := students d; attendance := l;
     notifications := notifications d; daily_reports := daily_reports d |}.
Definition set_notifications (l : list NotificationRow) (d : DB) : DB :=
  {| students := students d; attendance := attendance d;
     notifications := l; daily_reports := daily_reports d |}.
Definition set_daily_reports (l : list ReportRow) (d : DB) : DB :=
  {| students := students d; attendance := attendance d;
     notifications := notifications d; daily_reports := l |}.

(** ** Errors and results *)

Inductive Error :=
  | ER_DUP_ENTRY            (* PRIMARY KEY or UNIQUE violated *)
  | ER_NO_REFERENCED_ROW_2  (* FOREIGN KEY violated *)
  | ER_BAD_NULL_ERROR       (* NULL into a NOT NULL column *)
  | ECONNREFUSED            (* the store cannot be reached *)
  | TypeError.              (* property read on undefined; undefined bound
                               as a statement parameter *)

Inductive Res (A : Type) :=
  | Ok (a : A)
  | Throw (e : Error).
Arguments Ok {A} a.
Arguments Throw {A} e.

(** ** The statements the server issues *)

Module SQL.

Definition student_ids (d : DB) : list string := s_id <$> students d.

(** [SELECT * FROM students WHERE card_id = ?] *)
Definition students_by_card (card : string) (d : DB) : list StudentRow :=
  filter (λ s, s_card_id s = card) (students d).

(** [SELECT * FROM students WHERE id = ?] *)
Definition students_by_id (id : string) (d : DB) : list StudentRow :=
  filter (λ s, s_id s = id) (students d).

(** [SELECT id FROM students WHERE card_id = ? AND id != ?] *)
Definition students_card_conflict (card id : string) (d : DB) : list StudentRow :=
  filter (λ s, s_card_id s = card ∧ s_id s ≠ id) (students d).

(** [SELECT id FROM attendance WHERE student_id = ? AND date = ?] *)
Definition attendance_of (sid : string) (date : Z) (d : DB) : list AttendanceRow :=
  filter (λ a, a_student_id a = sid ∧ a_date a = date) (attendance d).

(** [INSERT INTO students]: [id] is the primary key, [card_id] is UNIQUE. *)
Definition insert_student (s : StudentRow) (d : DB) : Res DB :=
  if bool_decide (s_id s ∈ student_ids d) then Throw ER_DUP_ENTRY
  else if bool_decide (s_card_id s ∈ (s_card_id <$> students d)) then Throw ER_DUP_ENTRY
  else Ok (set_students (students d ++ [s]) d).

(** [INSERT INTO attendance]: [id] is the primary key and [student_id]
    references [students(id)].  The index on [(student_id, date)] is a plain
    INDEX (line 71), so it constrains nothing. *)
Definition insert_attendance (a : AttendanceRow) (d : DB) : Res DB :=
  if bool_decide (a_id a ∈ (a_id <$> attendance d)) then Throw ER_DUP_ENTRY
  else if bool_decide (a_student_id a ∈ student_ids d)
  then Ok (set_attendance (attendance d ++ [a]) d)
  else Throw ER_NO_REFERENCED_ROW_2.

(** [INSERT INTO notifications]: primary key [id], foreign key [student_id]. *)
Definition insert_notification (n : NotificationRow) (d : DB) : Res DB :=
  if bool_decide (n_id n ∈ (n_id <$> notifications d)) then Throw ER_DUP_ENTRY
  else if bool_decide (n_student_id n ∈ student_ids d)
  then Ok (set_notifications (notifications d ++ [n]) d)
  else Throw ER_NO_REFERENCED_ROW_2.

(** [INSERT INTO daily_reports]: primary key [id], UNIQUE KEY on [date]. *)
Definition insert_report (r : ReportRow) (d : DB) : Res DB :=
  if bool_decide (r_id r ∈ (r_id <$> daily_reports d)) then Throw ER_DUP_ENTRY
  else if bool_decide (r_date r ∈ (r_date <$> daily_reports d)) then Throw ER_DUP_ENTRY
  else Ok (set_daily_reports (daily_reports d ++ [r]) d).

(** [DELETE FROM students WHERE id = ?], with the two ON DELETE CASCADE
    foreign keys (lines 69 and 85).  Returns [affectedRows]. *)
Definition delete_student (id : string) (d : DB) : Z * DB :=
  (Z.of_nat (length (students_by_id id d)),
   {| students := filter (λ s, s_id s ≠ id) (students d);
      attendance := filter (λ a, a_student_id a ≠ id) (attendance d);
      notifications := filter (λ n, n_student_id n ≠ id) (notifications d);
      daily_reports := daily_reports d |}).

(** [UPDATE students SET name = ?, card_id = ?, parent_phone = ?,
    parent_email = ?, class = ? WHERE id = ?].  [name] and [card_id] are
    NOT NULL, [card_id] is UNIQUE. *)
Definition update_student (name card : option string)
    (phone email class : option string) (id : string) (d : DB) : Res DB :=
  match students_by_id id d with
  | [] => Ok d
  | _ :: _ =>
    match name, card with
    | Some name, Some card =>
      if bool_decide (students_card_conflict card id d = [])
      then Ok (set_students
                 ((λ s, if bool_decide (s_id s = id)
                        then {| s_id := id; s_name := name; s_card_id := card;
                                s_parent_phone := phone; s_parent_email := email;
                                s_class := class |}
                        else s) <$> students d) d)
      else Throw ER_DUP_ENTRY
    | _, _ => Throw ER_BAD_NULL_ERROR
    end
  end.

(** [ORDER BY date DESC] on (date, status) rows: a stable insertion sort,
    a later date first. *)
Fixpoint insert_desc (r : Z * Status) (l : list (Z * Status)) : list (Z * Status) :=
  match l with
  | [] => [r]
  | x :: l' => if (x.1 <? r.1)%Z then r :: l else x :: insert_desc r l'
  end.

Definition order_by_date_desc (l : list (Z * Status)) : list (Z * Status) :=
  foldr insert_desc [] l.

(** [SELECT date, status FROM attendance WHERE student_id = ?
     AND date >= DATE_SUB(CURDATE(), INTERVAL 5 DAY) ORDER BY date DESC] *)
Definition recent_marks (sid : string) (curdate : Z) (d : DB) : list (Z * Status) :=
  order_by_date_desc
    ((λ a, (a_date a, a_status a)) <$>
       filter (λ a, a_student_id a = sid ∧ (curdate - 5 ≤ a_date a)%Z) (attendance d)).

(** [SELECT status, COUNT( * ) as count FROM attendance WHERE date = ?
     GROUP BY status]: one row per status that occurs on that date. *)
Definition count_status (st : Status) (date : Z) (d : DB) : Z :=
  Z.of_nat (length (filter (λ a, a_date a = date ∧ a_status a = st) (attendance d))).

Definition attendance_by_status (date : Z) (d : DB) : list (Status * Z) :=
  filter (λ r, (0 <? r.2)%Z = true)
    [(present, count_status present date d); (absent, count_status absent date d)].

(** [SELECT COUNT( * ) as count FROM students] *)
Definition count_students (d : DB) : Z := Z.of_nat (length (students d)).

(** [SELECT COUNT( * ) as count FROM attendance WHERE date = ?] *)
Definition count_attendance (date : Z) (d : DB) : Z :=
  Z.of_nat (length (filter (λ a, a_date a = date) (attendance d))).

(** [SELECT id FROM daily_reports WHERE date = ?] *)
Definition reports_of (date : Z) (d : DB) : list ReportRow :=
  filter (λ r, r_date r = date) (daily_reports d).

(** [MAX(day_number)] over [daily_reports], NULL when the table is empty. *)
Definition max_day_number (d : DB) : option Z :=
  match r_day_number <$> daily_reports d with
  | [] => None
  | x :: l => Some (foldr Z.max x l)
  end.

(** [UPDATE notifications SET status = "sent", sent_date = NOW() WHERE id = ?];
    returns [affectedRows]. *)
Definition send_notification (id : string) (now : Z) (d : DB) : Z * DB :=
  (Z.of_nat (length (filter (λ n, n_id n = id) (notifications d))),
   set_notifications
     ((λ n, if bool_decide (n_id n = id)
            then {| n_id := n_id n; n_student_id := n_student_id n;
                    n_student_name := n_student_name n; n_type := n_type n;
                    n_message := n_message n; n_status := sent;
                    n_consecutive_absent_days := n_consecutive_absent_days n;
                    n_sent_date := Some now |}
            else n) <$> notifications d) d).

End SQL.


(** ** The process state *)

(** What a timeout does when the runtime fires it: the closure of
    [startAbsenceTimer] holds the student row it was armed with; the closure
    of [startNewDay] restarts the day. *)
Inductive Callback :=
  | AbsenceExpiry (student : StudentRow)
  | DayRollover.

Record World := {
  db : DB;                        (* the MySQL store *)
  timers : gmap string nat;       (* timerManager.timers: student id -> handle *)
  dayTimer : option nat;          (* timerManager.dayTimer *)
  timeouts : gmap nat Callback;   (* the runtime's armed timeouts, by handle *)
  next_handle : nat;              (* the handle the next setTimeout returns *)
  outages : list bool;            (* which coming pool.execute calls fail *)
  console_error : list Error;     (* what console.error has printed *)
  exited : bool                   (* the process has ended *)
}.

Definition set_db (x : DB) (w : World) : World :=
  {| db := x; timers := timers w; dayTimer := dayTimer w; timeouts := timeouts w;
     next_handle := next_handle w; outages := outages w;
     console_error := console_error w; exited := exited w |}.
Definition set_timers (x : gmap string nat) (w : World) : World :=
  {| db := db w; timers := x; dayTimer := dayTimer w; timeouts := timeouts w;
     next_handle := next_handle w; outages := outages w;
     console_error := console_error w; exited := exited w |}.
Definition set_dayTimer (x : option nat) (w : World) : World :=
  {| db := db w; timers := timers w; dayTimer := x; timeouts := timeouts w;
     next_handle := next_handle w; outages := outages w;
     console_error := console_error w; exited := exited w |}.
Definition set_timeouts (x : gmap nat Callback) (w : World) : World :=
  {| db := db w; timers := timers w; dayTimer := dayTimer w; timeouts := x;
     next_handle := next_handle w; outages := outages w;
     console_error := console_error w; exited := exited w |}.
Definition set_next_handle (x : nat) (w : World) : World :=
  {| db := db w; timers := timers w; dayTimer := dayTimer w; timeouts := timeouts w;
     next_handle := x; outages := outages w;
     console_error := console_error w; exited := exited w |}.
Definition set_outages (x : list bool) (w : World) : World :=
  {| db := db w; timers := timers w; dayTimer := dayTimer w; timeouts := timeouts w;
     next_handle := next_handle w; outages := x;
     console_error := console_error w; exited := exited w |}.
Definition set_console_error (x : list Error) (w : World) : World :=
  {| db := db w; timers := timers w; dayTimer := dayTimer w; timeouts := timeouts w;
     next_handle := next_handle w; outages := outages w;
     console_error := x; exited := exited w |}.
Definition set_exited (x : bool) (w : World) : World :=
  {| db := db w; timers := timers w; dayTimer := dayTimer w; timeouts := timeouts w;
     next_handle := next_handle w; outages := outages w;
     console_error := console_error w; exited := x |}.

(** What a handler reads from its environment. *)
Record Env := {
  today : Z;           (* getCurrentDate() *)
  curdate : Z;         (* CURDATE() of the store's session *)
  now : Z;             (* getCurrentTime() / NOW() *)
  uuid1 : string;      (* first generateUUID() / UUID() of the handler *)
  uuid2 : string;      (* second generateUUID() of the handler *)
  faults : list bool;  (* the outage schedule while the handler runs *)
  LocalTZA : Z → bool → Z
    (* the process's time zone: the offset of local time from UTC, in
       milliseconds, at the UTC time (true) or local time (false) given *)
}.

(** ** Computations: state and exceptions

    A thrown error keeps the state reached so far: nothing is rolled back. *)

Definition M (A : Type) : Type := World → Res A * World.

Definition ret {A} (a : A) : M A := λ w, (Ok a, w).

Definition bind {A B} (m : M A) (f : A → M B) : M B :=
  λ w, match m w with
       | (Ok a, w') => f a w'
       | (Throw e, w') => (Throw e, w')
       end.

Definition throw {A} (e : Error) : M A := λ w, (Throw e, w).

Notation "'let*' x ':=' m 'in' k" := (bind m (λ x, k))
  (at level 10, x name, m at level 100, k at level 200).
Notation "m ';;;' k" := (bind m (λ _, k))
  (at level 100, k at level 200, right associativity).

(** [try { body } catch (error) { handler(error) }] *)
Definition try_catch {A} (body : M A) (handler : Error → M A) : M A :=
  λ w, match body w with
       | (Ok a, w') => (Ok a, w')
       | (Throw e, w') => handler e w'
       end.

(** [for (const x of l) f(x)] *)
Fixpoint forEach {A} (f : A → M unit) (l : list A) : M unit :=
  match l with
  | [] => ret tt
  | x :: l' => f x ;;; forEach f l'
  end.

Definition get {A} (f : World → A) : M A := λ w, (Ok (f w), w).
Definition modify (f : World → World) : M unit := λ w, (Ok tt, f w).

(** [await pool.execute(...)]: the call fails when the head of the outage
    schedule says so, and otherwise runs the statement, which can fail on a
    constraint of the store. *)
Definition pool_execute {A} (stmt : DB → Res (A * DB)) : M A :=
  λ w, match outages w with
       | true :: rest => (Throw ECONNREFUSED, set_outages rest w)
       | o =>
         let w1 := set_outages (tail o) w in
         match stmt (db w1) with
         | Ok (a, d) => (Ok a, set_db d w1)
         | Throw e => (Throw e, w1)
         end
       end.

Definition select {A} (q : DB → A) : M A := pool_execute (λ d, Ok (q d, d)).

Definition insert (stmt : DB → Res DB) : M unit :=
  pool_execute (λ d, match stmt d with Ok d' => Ok (tt, d') | Throw e => Throw e end).

Definition update {A} (stmt : DB → A * DB) : M A := pool_execute (λ d, Ok (stmt d)).

Definition console_error_log (e : Error) : M unit :=
  modify (λ w, set_console_error (console_error w ++ [e]) w).

(** ** The runtime's timeouts *)

Definition setTimeout (cb : Callback) : M nat :=
  λ w, let h := next_handle w in
       (Ok h, set_next_handle (S h) (set_timeouts (<[h := cb]> (timeouts w)) w)).

Definition clearTimeout (h : nat) : M unit :=
  modify (λ w, set_timeouts (delete h (timeouts w)) w).

(** ** Dates in the process

    ECMAScript time values: a [Date] holds milliseconds since the epoch, in
    UTC.  [tza] is the process's time zone, [LocalTZA(t, isUTC)]. *)

Module JSDate.

Definition msPerDay : Z := 86400000.

Definition Day (t : Z) : Z := t / msPerDay.
Definition TimeWithinDay (t : Z) : Z := t mod msPerDay.
Definition MakeDate (day time : Z) : Z := day * msPerDay + time.

Definition LocalTime (tza : Z → bool → Z) (t : Z) : Z := t + tza t true.
Definition UTC (tza : Z → bool → Z) (t : Z) : Z := t - tza t false.

(** [new Date("YYYY-MM-DD")]: a date-only string is UTC midnight. *)
Definition parse_date_only (date : Z) : Z := MakeDate date 0.

(** [d.toISOString().split("T")[0]]: the UTC calendar day. *)
Definition toISODate (t : Z) : Z := Day t.

(** [d.setDate(d.getDate() - 1)]: the day before in local time, at the same
    local time of day. *)
Definition setDate_prev (tza : Z → bool → Z) (t : Z) : Z :=
  let local := LocalTime tza t in
  UTC tza (MakeDate (Day local - 1) (TimeWithinDay local)).

(** [new Date(year, month, day)], which is what the driver makes of a DATE
    column under the options of lines 14-22: local midnight of that day. *)
Definition local_midnight (tza : Z → bool → Z) (date : Z) : Z :=
  UTC tza (MakeDate date 0).

End JSDate.

(** ** timerManager (lines 160-288) *)

(** Lines 253-283.  [currentDate] starts at UTC midnight of [today] and is
    stepped back a day in local time; a row matches when the UTC day of its
    date, a [Date] at local midnight, is the UTC day of [currentDate].
    [rows.find] returns the first such row of the query result. *)
Fixpoint streak_loop (tza : Z → bool → Z) (rows : list (Z * Status)) (i : nat)
    (currentDate : Z) (consecutiveAbsences : Z) : Z :=
  match i with
  | O => consecutiveAbsences
  | S i' =>
    let dateStr := JSDate.toISODate currentDate in
    match find (λ r, bool_decide
                       (JSDate.toISODate (JSDate.local_midnight tza r.1) = dateStr))
               rows with
    | Some (_, absent) =>
        streak_loop tza rows i' (JSDate.setDate_prev tza currentDate)
          (consecutiveAbsences + 1)
    | Some (_, present) => consecutiveAbsences
    | None =>
        streak_loop tza rows i' (JSDate.setDate_prev tza currentDate)
          (consecutiveAbsences + 1)
    end
  end.

Definition checkConsecutiveAbsences (e : Env) (studentId : string) : M Z :=
  let* rows := select (SQL.recent_marks studentId (curdate e)) in
  ret (streak_loop (LocalTZA e) rows 5 (JSDate.parse_date_only (today e)) 0).

(** Lines 237-242. *)
Definition clearStudentTimer (studentId : string) : M unit :=
  let* t := get timers in
  match t !! studentId with
  | Some h =>
      clearTimeout h ;;;
      modify (λ w, set_timers (delete studentId (timers w)) w)
  | None => ret tt
  end.

(** [this.timers.forEach((timer) => clearTimeout(timer))] on the armed set. *)
Definition clear_handles (t : gmap string nat) (armed : gmap nat Callback)
    : gmap nat Callback :=
  map_fold (λ _ h acc, delete h acc) armed t.

(** Lines 244-251. *)
Definition clearAllTimers : M unit :=
  let* t := get timers in
  modify (λ w, set_timeouts (clear_handles t (timeouts w)) w) ;;;
  modify (set_timers ∅) ;;;
  let* dt := get dayTimer in
  match dt with
  | Some h => clearTimeout h ;;; modify (set_dayTimer None)
  | None => ret tt
  end.

(** Lines 191-235: arm the absence timer of a student. *)
Definition startAbsenceTimer (student : StudentRow) : M unit :=
  let* t := get timers in
  match t !! s_id student with
  | Some h => clearTimeout h
  | None => ret tt
  end ;;;
  let* timer := setTimeout (AbsenceExpiry student) in
  modify (λ w, set_timers (<[s_id student := timer]> (timers w)) w).

Definition absent_mark (e : Env) (student : StudentRow) : AttendanceRow :=
  {| a_id := uuid1 e; a_student_id := s_id student;
     a_student_name := s_name student; a_card_id := s_card_id student;
     a_date := today e; a_timestamp := now e;
     a_status := absent; a_auto_marked := true |}.

Definition absence_alert (e : Env) (student : StudentRow) (n : Z) : NotificationRow :=
  {| n_id := uuid2 e; n_student_id := s_id student;
     n_student_name := s_name student; n_type := "consecutive_absence";
     n_message := "Alert: Your child " +:+ s_name student +:+
                  " has been absent for " +:+ pretty n +:+ " consecutive days.";
     n_status := pending; n_consecutive_absent_days := n;
     n_sent_date := None |}.

(** Lines 196-232: the callback of the absence timer. *)
Definition absence_expired (e : Env) (student : StudentRow) : M unit :=
  try_catch
    (let* existing := select (SQL.attendance_of (s_id student) (today e)) in
     match existing with
     | [] =>
         insert (SQL.insert_attendance (absent_mark e student)) ;;;
         let* consecutiveAbsences := checkConsecutiveAbsences e (s_id student) in
         if (3 <=? consecutiveAbsences)%Z
         then insert (SQL.insert_notification
                        (absence_alert e student consecutiveAbsences))
         else ret tt
     | _ :: _ => ret tt
     end ;;;
     modify (λ w, set_timers (delete (s_id student) (timers w)) w))
    (λ error, console_error_log error).

(** Lines 171-189. *)
Definition startNewDay : M unit :=
  clearAllTimers ;;;
  let* students := select students in
  forEach startAbsenceTimer students ;;;
  let* h := setTimeout DayRollover in
  modify (set_dayTimer (Some h)).

(** Lines 285-287. *)
Definition getActiveTimersCount (w : World) : nat := size (timers w).

(** ** The number operations of the report route *)

Module JS.

(** A count as a JavaScript number (a binary64 float; exact below 2^53). *)
Definition number (n : Z) : PrimFloat.float :=
  PrimFloat.of_uint63 (Uint63.of_Z n).

(** [Math.round]: the integer nearest to the argument, a tie going up.  A
    finite float is [m * 2^e] exactly, so its rounding is computed in [Z]. *)
Definition Math_round (x : PrimFloat.float) : Z :=
  match FloatOps.Prim2SF x with
  | SpecFloat.S754_finite s m e =>
      let mz := if s then Z.neg m else Z.pos m in
      if (0 <=? e)%Z then (mz * 2 ^ e)%Z
      else ((2 * mz + 2 ^ (- e)) / 2 ^ (- e + 1))%Z
  | _ => 0%Z
  end.

(** [Math.round((presentCount / total) * 100)] *)
Definition percentage (presentCount total : Z) : Z :=
  Math_round (PrimFloat.mul (PrimFloat.div (number presentCount) (number total))
                            (number 100)).

End JS.

(** ** Routes (lines 290-750) *)

Inductive Response :=
  | Success                       (* 200, success: true *)
  | SuccessStudent (s : StudentRow) (* 200, success: true, with the student *)
  | Rejected                      (* 200, success: false *)
  | BadRequest                    (* 400 *)
  | NotFound                      (* 404 *)
  | ServerError (e : Error).      (* 500 *)

(** The [try { ... } catch (error) { res.status(500) ... }] of every route. *)
Definition route (body : M Response) : World → Response * World :=
  λ w, match body w with
       | (Ok r, w') => (r, w')
       | (Throw e, w') => (ServerError e, w')
       end.

(** A field of a JSON body as a route reads it: [undefined] when the key is
    left out, null, or a string. *)
Inductive Field := undefined | null | text (s : string).

#[global] Instance Field_eq_dec : EqDecision Field.
Proof. solve_decision. Defined.

Record StudentBody := {
  b_name : Field;
  b_cardId : Field;
  b_parentPhone : Field;
  b_parentEmail : Field;
  b_class : Field
}.

(** [!x] on a string or null. *)
Definition falsy (x : option string) : bool :=
  match x with
  | None => true
  | Some s => bool_decide (s = "")
  end.

(** What the store receives for a bound parameter: null is NULL. *)
Definition sql_value (x : Field) : option string :=
  match x with
  | text s => Some s
  | _ => None
  end.

(** [!x] on a field. *)
Definition falsy_field (x : Field) : bool := falsy (sql_value x).

(** [pool.execute(sql, params)] for a statement that writes: once it has a
    connection the driver refuses a parameter that is [undefined] with a
    TypeError, and nothing is sent to the store. *)
Definition insert_with (params : list Field) (stmt : DB → Res DB) : M unit :=
  insert (λ d, if bool_decide (undefined ∈ params) then Throw TypeError else stmt d).

(** POST /api/students (lines 302-345) *)
Definition post_students (e : Env) (b : StudentBody) : World → Response * World :=
  route
    (match b_name b, b_cardId b with
     | text name, text cardId =>
       if falsy_field (b_name b) || falsy_field (b_cardId b) || falsy_field (b_class b)
       then ret BadRequest
       else
         let* existing := select (SQL.students_by_card cardId) in
         match existing with
         | _ :: _ => ret BadRequest
         | [] =>
           insert_with [text (uuid1 e); b_name b; b_cardId b; b_parentPhone b;
                        b_parentEmail b; b_class b]
             (SQL.insert_student
                {| s_id := uuid1 e; s_name := name; s_card_id := cardId;
                   s_parent_phone := sql_value (b_parentPhone b);
                   s_parent_email := sql_value (b_parentEmail b);
                   s_class := sql_value (b_class b) |}) ;;;
           let* newStudent := select (SQL.students_by_id (uuid1 e)) in
           match newStudent with
           | s :: _ => startAbsenceTimer s ;;; ret Success
           | [] => throw TypeError
           end
         end
     | _, _ => ret BadRequest
     end).

(** PUT /api/students/:id (lines 347-387) *)
Definition put_students (id : string) (b : StudentBody) : World → Response * World :=
  route
    (let* existingStudent := select (SQL.students_by_id id) in
     match existingStudent with
     | [] => ret NotFound
     | s0 :: _ =>
       let* conflict :=
         match b_cardId b with
         | text cardId =>
           if negb (falsy_field (b_cardId b)) &&
              negb (bool_decide (cardId = s_card_id s0))
           then select (SQL.students_card_conflict cardId id)
           else ret []
         | _ => ret []
         end in
       match conflict with
       | _ :: _ => ret BadRequest
       | [] =>
         insert_with [b_name b; b_cardId b; b_parentPhone b; b_parentEmail b;
                      b_class b; text id]
           (SQL.update_student (sql_value (b_name b)) (sql_value (b_cardId b))
              (sql_value (b_parentPhone b)) (sql_value (b_parentEmail b))
              (sql_value (b_class b)) id) ;;;
         ret Success
       end
     end).

(** DELETE /api/students/:id (lines 389-409) *)
Definition delete_students (id : string) : World → Response * World :=
  route
    (let* affectedRows := update (SQL.delete_student id) in
     if (affectedRows =? 0)%Z then ret NotFound
     else clearStudentTimer id ;;; ret Success).

Definition present_mark (e : Env) (student : StudentRow) : AttendanceRow :=
  {| a_id := uuid1 e; a_student_id := s_id student;
     a_student_name := s_name student; a_card_id := s_card_id student;
     a_date := today e; a_timestamp := now e;
     a_status := present; a_auto_marked := false |}.

(** POST /api/attendance/record (lines 412-468) *)
Definition post_attendance_record (e : Env) (cardId : option string)
    : World → Response * World :=
  route
    (match cardId with
     | Some card =>
       if falsy cardId then ret BadRequest
       else
         let* students := select (SQL.students_by_card card) in
         match students with
         | [] => ret NotFound
         | student :: _ =>
           let* existing := select (SQL.attendance_of (s_id student) (today e)) in
           match existing with
           | _ :: _ => ret Rejected
           | [] =>
             insert (SQL.insert_attendance (present_mark e student)) ;;;
             clearStudentTimer (s_id student) ;;;
             let* consecutiveAbsences := checkConsecutiveAbsences e (s_id student) in
             ret (SuccessStudent student)
           end
         end
     | None => ret BadRequest
     end).

Definition manual_absent_mark (e : Env) (student : StudentRow) : AttendanceRow :=
  {| a_id := uuid1 e; a_student_id := s_id student;
     a_student_name := s_name student; a_card_id := s_card_id student;
     a_date := today e; a_timestamp := now e;
     a_status := absent; a_auto_marked := false |}.

(** POST /api/attendance/manual-absent/:studentId (lines 672-714) *)
Definition post_manual_absent (e : Env) (studentId : string)
    : World → Response * World :=
  route
    (let* students := select (SQL.students_by_id studentId) in
     match students with
     | [] => ret NotFound
     | student :: _ =>
       let* existing := select (SQL.attendance_of (s_id student) (today e)) in
       match existing with
       | _ :: _ => ret Rejected
       | [] =>
         insert (SQL.insert_attendance (manual_absent_mark e student)) ;;;
         clearStudentTimer (s_id student) ;;;
         ret Success
       end
     end).

(** POST /api/notifications/:id/send (lines 558-579) *)
Definition post_notifications_send (e : Env) (id : string) : World → Response * World :=
  route
    (let* affectedRows := update (SQL.send_notification id (now e)) in
     if (affectedRows =? 0)%Z then ret NotFound else ret Success).

(** [attendanceData.find(r => r.status === st)?.count || 0] *)
Definition count_or_zero (st : Status) (attendanceData : list (Status * Z)) : Z :=
  match find (λ r, bool_decide (r.1 = st)) attendanceData with
  | Some r => if (r.2 =? 0)%Z then 0%Z else r.2
  | None => 0%Z
  end.

(** Lines 620-621. *)
Definition attendanceRate (presentCount totalStudents : Z) : Z :=
  if (0 <? totalStudents)%Z then JS.percentage presentCount totalStudents else 0%Z.

(** POST /api/reports/generate (lines 593-635) *)
Definition post_reports_generate (e : Env) : World → Response * World :=
  route
    (let* existing := select (SQL.reports_of (today e)) in
     match existing with
     | _ :: _ => ret Rejected
     | [] =>
       let* attendanceData := select (SQL.attendance_by_status (today e)) in
       let* totalStudents := select SQL.count_students in
       let* lastReport := select SQL.max_day_number in
       let presentCount := count_or_zero present attendanceData in
       let absentCount := count_or_zero absent attendanceData in
       let dayNumber := match lastReport with Some n => (n + 1)%Z | None => 1%Z end in
       insert (SQL.insert_report
                 {| r_id := uuid1 e; r_date := today e; r_day_number := dayNumber;
                    r_total_students := totalStudents;
                    r_present_count := presentCount;
                    r_absent_count := absentCount;
                    r_attendance_rate := attendanceRate presentCount totalStudents |}) ;;;
       ret Success
     end).

(** [ROUND(present / total * 100)] as the store computes it (lines 655-656):
    the quotient of two integers is a DECIMAL rounded to four places, NULL on
    a zero divisor; INSERT IGNORE stores a NULL in a NOT NULL INT as 0. *)
Definition sql_round_rate (presentCount total : Z) : Z :=
  if (total =? 0)%Z then 0%Z
  else
    let quotient4 := ((2 * presentCount * 10000 + total) / (2 * total))%Z in
    ((quotient4 * 100 + 5000) / 10000)%Z.

(** [INSERT IGNORE INTO daily_reports ... SELECT ... FROM daily_reports]
    (lines 649-659): one row, dropped when a key is taken. *)
Definition insert_ignore_report (e : Env) (d : DB) : Res (unit * DB) :=
  let r := {| r_id := uuid1 e; r_date := today e;
              r_day_number := (default 0 (SQL.max_day_number d) + 1)%Z;
              r_total_students := SQL.count_students d;
              r_present_count := SQL.count_status present (today e) d;
              r_absent_count := SQL.count_status absent (today e) d;
              r_attendance_rate :=
                sql_round_rate (SQL.count_status present (today e) d)
                               (SQL.count_students d) |} in
  match SQL.insert_report r d with
  | Ok d' => Ok (tt, d')
  | Throw _ => Ok (tt, d)
  end.

(** POST /api/system/new-day (lines 638-669) *)
Definition post_system_new_day (e : Env) : World → Response * World :=
  route
    (let* count := select (SQL.count_attendance (today e)) in
     (if (0 <? count)%Z then pool_execute (insert_ignore_report e) else ret tt) ;;;
     startNewDay ;;;
     ret Success).

(** ** The server as a transition system *)

(** A promise that nobody awaits or catches: when it is rejected the
    runtime ends the process (an unhandled rejection), in the state reached. *)
Definition unhandled (r : Res unit * World) : World :=
  match r with
  | (Ok _, w) => w
  | (Throw _, w) => set_exited true w
  end.

(** The runtime fires the timeout [h]: it leaves the armed set and its
    callback runs.  The expiry callback catches its errors; the day callback
    calls [startNewDay] (line 187) and drops the promise. *)
Definition fire (e : Env) (h : nat) : World → World :=
  λ w, match timeouts w !! h with
       | None => w
       | Some cb =>
         let w1 := set_timeouts (delete h (timeouts w)) w in
         match cb with
         | AbsenceExpiry student => (absence_expired e student w1).2
         | DayRollover => unhandled (startNewDay w1)
         end
       end.

Inductive Event :=
  | Fire (h : nat)
  | PostStudents (b : StudentBody)
  | PutStudents (id : string) (b : StudentBody)
  | DeleteStudents (id : string)
  | PostAttendanceRecord (cardId : option string)
  | PostManualAbsent (studentId : string)
  | PostNotificationsSend (id : string)
  | PostReportsGenerate
  | PostSystemNewDay.

(** One handler run of the running process, under the outage schedule of
    its environment. *)
Definition step (w : World) (ev : Env * Event) : World :=
  let e := ev.1 in
  let w0 := set_outages (faults e) w in
  match ev.2 with
  | Fire h => fire e h w0
  | PostStudents b => (post_students e b w0).2
  | PutStudents id b => (put_students id b w0).2
  | DeleteStudents id => (delete_students id w0).2
  | PostAttendanceRecord cardId => (post_attendance_record e cardId w0).2
  | PostManualAbsent studentId => (post_manual_absent e studentId w0).2
  | PostNotificationsSend id => (post_notifications_send e id w0).2
  | PostReportsGenerate => (post_reports_generate e w0).2
  | PostSystemNewDay => (post_system_new_day e w0).2
  end.

(** A run of handlers, one at a time; once the process has ended nothing
    runs any more. *)
Definition run (w : World) (trace : list (Env * Event)) : World :=
  foldl (λ w ev, if exited w then w else step w ev) w trace.

(** The student id a handler run generates, if it adds a student. *)
Definition new_student_id (ev : Env * Event) : option string :=
  match ev.2 with
  | PostStudents _ => Some (uuid1 ev.1)
  | _ => None
  end.

(** The process right after [initializeDatabase]: no timer yet. *)
Definition boot (d : DB) : World :=
  {| db := d; timers := ∅; dayTimer := None; timeouts := ∅; next_handle := 0;
     outages := []; console_error := []; exited := false |}.

(** [startServer] (lines 753-762, called on line 774 with no handler), after
    the tables are there. *)
Definition startDaySystem (e : Env) (d : DB) : World :=
  unhandled (startNewDay (set_outages (faults e) (boot d))).

(** ** Concrete data for the examples *)

Module Ex.

Definition alice : StudentRow :=
  {| s_id := "s-alice"; s_name := "Alice"; s_card_id := "C1";
     s_parent_phone := None; s_parent_email := None; s_class := Some "5A" |}.
Definition bob : StudentRow :=
  {| s_id := "s-bob"; s_name := "Bob"; s_card_id := "C2";
     s_parent_phone := None; s_parent_email := None; s_class := Some "5B" |}.

Definition mark (id : string) (s : StudentRow) (date : Z) (st : Status)
    (auto : bool) : AttendanceRow :=
  {| a_id := id; a_student_id := s_id s; a_student_name := s_name s;
     a_card_id := s_card_id s; a_date := date; a_timestamp := 0;
     a_status := st; a_auto_marked := auto |}.

Definition roster : DB :=
  {| students := [alice; bob]; attendance := []; notifications := [];
     daily_reports := [] |}.

(** A process in UTC. *)
Definition utc : Z → bool → Z := λ _ _, 0%Z.

(** A process in Africa/Kigali: two hours east of UTC all year. *)
Definition kigali : Z → bool → Z := λ _ _, 7200000%Z.

(** A process in America/New_York in the autumn of 2026: four hours west of
    UTC until 2026-11-01 06:00 UTC (02:00 local), five hours from then on.
    Day 20758 is 2026-11-01. *)
Definition new_york_2026 : Z → bool → Z :=
  λ t isUTC,
    if isUTC
    then (if t <? 20758 * 86400000 + 21600000 then -14400000 else -18000000)%Z
    else (if t <? 20758 * 86400000 + 7200000 then -14400000 else -18000000)%Z.

Definition env_in (tza : Z → bool → Z) (date : Z) (u1 u2 : string)
    (f : list bool) : Env :=
  {| today := date; curdate := date; now := 0; uuid1 := u1; uuid2 := u2;
     faults := f; LocalTZA := tza |}.

Definition env (date : Z) (u1 u2 : string) (f : list bool) : Env :=
  env_in utc date u1 u2 f.

(** Alice absent on days 7, 8 and 9, nothing else on record. *)
Definition three_absences : DB :=
  set_attendance [mark "m1" alice 9 absent true; mark "m2" alice 8 absent true;
                  mark "m3" alice 7 absent true] roster.

(** Alice absent on day 9 and present on day 8. *)
Definition present_two_days_ago : DB :=
  set_attendance [mark "m1" alice 9 absent true; mark "m2" alice 8 present false;
                  mark "m3" alice 7 absent true] roster.

(** Alice checked in on day 10. *)
Definition checked_in : DB :=
  set_attendance [mark "m1" alice 10 present false] roster.

(** Alice present on day 8, absent on days 9 and 10. *)
Definition absent_since_present : DB :=
  set_attendance [mark "m1" alice 8 present false; mark "m2" alice 9 absent true;
                  mark "m3" alice 10 absent true] roster.

(** Alice present on 2026-11-01 (day 20758), nothing else on record. *)
Definition present_on_nov_1 : DB :=
  set_attendance [mark "m1" alice 20758 present false] roster.

(** The body of a roster-add request for a third student. *)
Definition carol : StudentBody :=
  {| b_name := text "Carol"; b_cardId := text "C3"; b_parentPhone := null;
     b_parentEmail := null; b_class := text "5A" |}.

(** The server right after start on day 10: both absence timers armed
    (handles 0 and 1) and the day timer (handle 2). *)
Definition day10 : World := startDaySystem (env 10 "" "" []) roster.

(** Alice present on day 8 and absent on day 9. *)
Definition present_then_absent : DB :=
  set_attendance [mark "m1" alice 8 present false; mark "m2" alice 9 absent true]
    roster.

(** The server in Kigali right after start on day 10, on that store. *)
Definition day10_after_one_absence : World :=
  startDaySystem (env_in kigali 10 "" "" []) present_then_absent.

End Ex.

(** ** Predicates on states *)

(** The key of an attendance mark: whose it is and for which day. *)
Definition mark_key (a : AttendanceRow) : string * Z := (a_student_id a, a_date a).

(** At most one attendance mark per (student, date). *)
Definition unique_marks (d : DB) : Prop := NoDup (mark_key <$> attendance d).

(** The statuses of the marks a student has on a day. *)
Definition statuses_on (d : DB) (sid : string) (day : Z) : list Status :=
  a_status <$> SQL.attendance_of sid day d.

(** The streak in the words of the specification: walk back from a day, one
    day at a time, for at most [days] days; a day with an absent mark or with
    no mark counts, a day with a present mark stops the walk. *)
Fixpoint walk_back (d : DB) (sid : string) (day : Z) (days : nat) : Z :=
  match days with
  | O => 0
  | S k =>
    if bool_decide (absent ∈ statuses_on d sid day ∨ statuses_on d sid day = [])
    then (1 + walk_back d sid (day - 1) k)%Z
    else 0%Z
  end.

Definition streak_spec (d : DB) (sid : string) (asOfDate : Z) : Z :=
  walk_back d sid asOfDate 5.

(** The process keeps one offset [c] from UTC all year. *)
Definition fixed_zone (c : Z) (e : Env) : Prop :=
  ∀ t isUTC, LocalTZA e t isUTC = c.

(** The process runs in UTC or at a fixed offset west of it. *)
Definition utc_or_west (e : Env) : Prop :=
  ∃ c, (- JSDate.msPerDay < c ≤ 0)%Z ∧ fixed_zone c e.

(** The process runs at a fixed offset east of UTC. *)
Definition east_of_utc (e : Env) : Prop :=
  ∃ c, (0 < c < JSDate.msPerDay)%Z ∧ fixed_zone c e.

(** By how many days the process reads a DATE early at the offset [c]. *)
Definition read_early (c : Z) : Z := if (0 <? c)%Z then 1%Z else 0%Z.

(** What the store guarantees by its keys: student ids are distinct, and
    every mark and notification belongs to a student of the roster. *)
Definition db_ok (d : DB) : Prop :=
  NoDup (SQL.student_ids d) ∧
  Forall (λ a, a_student_id a ∈ SQL.student_ids d) (attendance d) ∧
  Forall (λ n, n_student_id n ∈ SQL.student_ids d) (notifications d).

(** Every armed timeout has a handle the runtime has already given out, and
    an armed absence timer belongs to a student of the roster, is the one
    [timerManager.timers] holds for that student, and is not the timer of
    [flying] (the student whose expiry is running, if any). *)
Definition armed_ok (flying : option string) (w : World) : Prop :=
  map_Forall
    (λ h cb, h < next_handle w ∧
       match cb with
       | AbsenceExpiry s =>
           timers w !! s_id s = Some h ∧ s_id s ∈ SQL.student_ids (db w) ∧
           Some (s_id s) ≠ flying
       | DayRollover => True
       end)
    (timeouts w).

Definition wf_during (flying : option string) (w : World) : Prop :=
  db_ok (db w) ∧ armed_ok flying w.

Definition wf (w : World) : Prop := wf_during None w.

(** The student [id] has left the system: no row, no mark, no notification,
    no entry in [timerManager.timers], no armed absence timer. *)
Definition gone (id : string) (w : World) : Prop :=
  (id ∉ SQL.student_ids (db w)) ∧
  Forall (λ a, a_student_id a ≠ id) (attendance (db w)) ∧
  Forall (λ n, n_student_id n ≠ id) (notifications (db w)) ∧
  timers w !! id = None ∧
  map_Forall (λ _ cb, match cb with
                      | AbsenceExpiry s => s_id s ≠ id
                      | DayRollover => True
                      end) (timeouts w).

Definition is_absence (cb : Callback) : bool :=
  match cb with AbsenceExpiry _ => true | DayRollover => false end.

(** The armed absence timers. *)
Definition absence_timeouts (w : World) : gmap nat Callback :=
  filter (λ p, is_absence p.2 = true) (timeouts w).

(** Weakest precondition of a computation, for a postcondition on a normal
    return and one on a thrown error. *)
Definition wp {A} (m : M A) (Q : A → World → Prop) (E : World → Prop)
    (w : World) : Prop :=
  match m w with
  | (Ok a, w') => Q a w'
  | (Throw _, w') => E w'
  end.

(** What a property of states needs in order to hold after every handler
    run: [I None] is the property between handlers, [I (Some id)] the one
    that holds while the expiry of student [id] runs; [fresh] says which
    generated student ids the property allows. *)
Class Preserved (fresh : string → Prop) (I : option string → World → Prop) := {
  pres_outages x o w : I x w → I x (set_outages o w);
  pres_console x c w : I x w → I x (set_console_error c w);
  pres_insert_attendance x a d w :
    I x w → SQL.attendance_of (a_student_id a) (a_date a) (db w) = [] →
    SQL.insert_attendance a (db w) = Ok d → I x (set_db d w);
  pres_insert_notification x n d w :
    I x w → SQL.insert_notification n (db w) = Ok d → I x (set_db d w);
  pres_insert_report r d w :
    I None w → SQL.insert_report r (db w) = Ok d → I None (set_db d w);
  pres_insert_student s d w :
    I None w → fresh (s_id s) →
    SQL.insert_student s (db w) = Ok d → I None (set_db d w);
  pres_update_student name card phone email class id d w :
    I None w → SQL.update_student name card phone email class id (db w) = Ok d →
    I None (set_db d w);
  pres_send_notification id t w :
    I None w → I None (set_db (SQL.send_notification id t (db w)).2 w);
  pres_delete_student id w :
    I None w →
    I None (if ((SQL.delete_student id (db w)).1 =? 0)%Z
            then set_db (SQL.delete_student id (db w)).2 w
            else (clearStudentTimer id (set_db (SQL.delete_student id (db w)).2 w)).2);
  pres_clearStudentTimer id w : I None w → I None (clearStudentTimer id w).2;
  pres_clearAllTimers w : I None w → I None (clearAllTimers w).2;
  pres_startAbsenceTimer s w :
    I None w → s ∈ students (db w) → I None (startAbsenceTimer s w).2;
  pres_day_timer w :
    I None w →
    I None (set_dayTimer (Some (next_handle w))
              (set_next_handle (S (next_handle w))
                 (set_timeouts (<[next_handle w := DayRollover]> (timeouts w)) w)));
  pres_fire h w : I None w → I None (set_timeouts (delete h (timeouts w)) w);
  pres_takeoff h s w :
    I None w → timeouts w !! h = Some (AbsenceExpiry s) →
    I (Some (s_id s)) (set_timeouts (delete h (timeouts w)) w);
  pres_landed id w :
    I (Some id) w → I None (set_timers (delete id (timers w)) w);
  pres_crashed id w : I (Some id) w → I None w;
  pres_exited b w : I None w → I None (set_exited b w)
}.

(** What the failing expiry leaves behind when the store fails on the
    schedule [f]: Alice's timer (handle 0) has fired, yet her entry is still
    in [timerManager.timers] and is still counted. *)
Definition stale_after (f : list bool) : Prop :=
  let w1 := step Ex.day10 (Ex.env 10 "a1" "n1" f, Fire 0) in
  timers w1 !! "s-alice" = Some 0 ∧ timeouts w1 !! 0 = None ∧
  console_error w1 = [ECONNREFUSED] ∧
  getActiveTimersCount w1 = 2 ∧ size (absence_timeouts w1) = 1.

#[global] Instance db_ok_dec d : Decision (db_ok d).
Proof. unfold db_ok. apply _. Defined.

#[global] Instance unique_marks_dec d : Decision (unique_marks d).
Proof. unfold unique_marks. apply _. Defined.

(** Close a decidable goal on concrete data by evaluation. *)
Ltac by_decide :=
  match goal with |- ?P => apply (bool_decide_unpack P); vm_compute; exact I end.

(** ** Further handlers and predicates *)

(** [SELECT COUNT( * ) as count FROM notifications WHERE status = "pending"] *)
Definition count_pending_notifications (d : DB) : Z :=
  Z.of_nat (length (filter (λ n, n_status n = pending) (notifications d))).

Record DashboardStats := {
  totalStudents : Z;
  presentToday : Z;
  absentToday : Z;
  pendingNotifications : Z;
  pendingAbsenceTimers : nat
}.

(** The [todayAttendance.forEach] of lines 529-535, on (presentToday,
    absentToday). *)
Definition tally (todayAttendance : list (Status * Z)) : Z * Z :=
  foldl (λ stats record,
           match record.1 with
           | present => (record.2, stats.2)
           | absent => (stats.1, record.2)
           end) (0%Z, 0%Z) todayAttendance.

(** GET /api/dashboard/stats (lines 505-541); a thrown error is the 500. *)
Definition get_dashboard_stats (e : Env) : M DashboardStats :=
  let* total := select SQL.count_students in
  let* todayAttendance := select (SQL.attendance_by_status (today e)) in
  let* pendingCount := select count_pending_notifications in
  let* activeTimers := get getActiveTimersCount in
  ret {| totalStudents := total;
         presentToday := (tally todayAttendance).1;
         absentToday := (tally todayAttendance).2;
         pendingNotifications := pendingCount;
         pendingAbsenceTimers := activeTimers |}.

(** The SIGINT handler (lines 765-772): the timers are cleared, the pool is
    closed and the process ends. *)
Definition shutdown (w : World) : World := set_exited true (clearAllTimers w).2.

(** The keys of the roster: distinct student ids and distinct card ids. *)
Definition roster_keys_ok (d : DB) : Prop :=
  NoDup (SQL.student_ids d) ∧ NoDup (s_card_id <$> students d).

(** At most one daily report per date. *)
Definition report_dates_ok (d : DB) : Prop := NoDup (r_date <$> daily_reports d).

(** Every handle in [timerManager.timers] has been given out by the runtime,
    and if it is armed it is armed with the expiry of that very student; every
    armed handle has been given out. *)
Definition handles_own (w : World) : Prop :=
  map_Forall
    (λ id h, h < next_handle w ∧
       ∀ cb, timeouts w !! h = Some cb → ∃ s, cb = AbsenceExpiry s ∧ s_id s = id)
    (timers w) ∧
  map_Forall (λ h _, h < next_handle w) (timeouts w).

#[global] Instance roster_keys_ok_dec d : Decision (roster_keys_ok d).
Proof. unfold roster_keys_ok. apply _. Defined.

#[global] Instance report_dates_ok_dec d : Decision (report_dates_ok d).
Proof. unfold report_dates_ok. apply _. Defined.

(** What an update leaves alone. *)
Definition same_but_roster (w w' : World) : Prop :=
  timers w' = timers w ∧ timeouts w' = timeouts w ∧ dayTimer w' = dayTimer w ∧
  next_handle w' = next_handle w ∧
  SQL.student_ids (db w') = SQL.student_ids (db w) ∧
  attendance (db w') = attendance (db w) ∧
  notifications (db w') = notifications (db w) ∧
  daily_reports (db w') = daily_reports (db w).

(** The store after the report step of the new-day route. *)
Definition new_day_db (e : Env) (d : DB) : DB :=
  if (0 <? SQL.count_attendance (today e) d)%Z
  then match insert_ignore_report e d with
       | Ok (_, d') => d'
       | Throw _ => d
       end
  else d.

(** ** Today's marks with the class of their student (lines 470-485) *)

(** [ORDER BY key DESC]: insertion from the right, rows of equal key keeping
    the order they had. *)
Fixpoint insert_by_desc {A} (key : A → Z) (r : A) (l : list A) : list A :=
  match l with
  | [] => [r]
  | x :: l' => if (key x <? key r)%Z then r :: l else x :: insert_by_desc key r l'
  end.

Definition order_by_desc {A} (key : A → Z) (l : list A) : list A :=
  foldr (insert_by_desc key) [] l.

(** [SELECT a.*, s.class FROM attendance a JOIN students s
     ON a.student_id = s.id WHERE a.date = ? ORDER BY a.timestamp DESC] *)
Definition attendance_join_class (date : Z) (d : DB)
  : list (AttendanceRow * option string) :=
  order_by_desc (λ row, a_timestamp row.1)
    (a ← filter (λ a, a_date a = date) (attendance d);
     s ← SQL.students_by_id (a_student_id a) d;
     [(a, s_class s)]).

(** GET /api/attendance/today (lines 470-485), the body of the [try] *)
Definition get_attendance_today (e : Env)
  : M (list (AttendanceRow * option string)) :=
  select (attendance_join_class (today e)).

(** ** More concrete data *)

Module Ex2.

(** Carol as a roster row. *)
Definition carol_row : StudentRow :=
  {| s_id := "s-carol"; s_name := "Carol"; s_card_id := "C3";
     s_parent_phone := None; s_parent_email := None; s_class := Some "5A" |}.

(** Alice's three absences, together with an older present mark of hers and
    a present mark of Bob. *)
Definition three_absences_and_more : DB :=
  set_attendance [Ex.mark "m0" Ex.alice 5 present false;
                  Ex.mark "m1" Ex.alice 9 absent true;
                  Ex.mark "m2" Ex.alice 8 absent true;
                  Ex.mark "m3" Ex.alice 7 absent true;
                  Ex.mark "m4" Ex.bob 10 present false] Ex.roster.


(** A request to give Alice the card Bob holds. *)
Definition take_bobs_card : StudentBody :=
  {| b_name := text "Alice"; b_cardId := text "C2"; b_parentPhone := null;
     b_parentEmail := null; b_class := text "5A" |}.

(** A morning with an outage, a roster change and both reports. *)
Definition busy_day : list (Env * Event) :=
  [(Ex.env 10 "a1" "" [false; true], PostAttendanceRecord (Some "C1"));
   (Ex.env 10 "s-carol" "" [], PostStudents Ex.carol);
   (Ex.env 10 "" "" [], PutStudents "s-alice" take_bobs_card);
   (Ex.env 10 "a2" "n2" [true], Fire 1);
   (Ex.env 10 "a3" "" [], PostManualAbsent "s-bob");
   (Ex.env 10 "r1" "" [], PostReportsGenerate);
   (Ex.env 10 "r2" "" [], PostReportsGenerate);
   (Ex.env 10 "r3" "" [], PostSystemNewDay);
   (Ex.env 10 "" "" [], DeleteStudents "s-bob")].

(** The state after Alice's timer fired on day 10: one queued notification. *)
Definition alerted : World := step Ex.day10 (Ex.env 10 "a1" "n1" [], Fire 0).

End Ex2.

(** * Proofs *)

(** ** The evaluator *)

Lemma insert_desc_perm r l : SQL.insert_desc r l ≡ₚ r :: l.
Proof.
  induction l as [|x l IH]; simpl; [done|].
  case_match; [done|]. rewrite IH. apply Permutation_swap.
Qed.

Lemma order_by_date_desc_perm l : SQL.order_by_date_desc l ≡ₚ l.
Proof.
  induction l as [|x l IH]; simpl; [done|].
  rewrite insert_desc_perm. by rewrite IH.
Qed.

Lemma recent_marks_elem sid cd d day st :
  (day, st) ∈ SQL.recent_marks sid cd d ↔
  ∃ a, a ∈ attendance d ∧ a_student_id a = sid ∧ (cd - 5 ≤ a_date a)%Z ∧
       a_date a = day ∧ a_status a = st.
Proof.
  unfold SQL.recent_marks. rewrite order_by_date_desc_perm.
  rewrite list_elem_of_fmap. split.
  - intros (a & Heq & Ha). apply list_elem_of_filter in Ha as [[? ?] ?].
    inversion Heq; subst. eauto 10.
  - intros (a & Ha & ? & ? & ? & ?). exists a. split; [by subst|].
    apply list_elem_of_filter. done.
Qed.

Lemma statuses_on_elem d sid day st :
  st ∈ statuses_on d sid day ↔
  ∃ a, a ∈ attendance d ∧ a_student_id a = sid ∧ a_date a = day ∧ a_status a = st.
Proof.
  unfold statuses_on, SQL.attendance_of. rewrite list_elem_of_fmap. split.
  - intros (a & -> & Ha). apply list_elem_of_filter in Ha as [[? ?] ?]. eauto 10.
  - intros (a & Ha & ? & ? & ?). exists a. split; [done|].
    apply list_elem_of_filter. done.
Qed.

(** What [rows.find] sees on a day of the query window. *)
Lemma find_day sid cd d day :
  (cd - 5 ≤ day)%Z →
  match find (λ r, bool_decide (r.1 = day)) (SQL.recent_marks sid cd d) with
  | Some (_, st) => st ∈ statuses_on d sid day
  | None => statuses_on d sid day = []
  end.
Proof.
  intros Hwin.
  destruct (find _ _) as [[d' st]|] eqn:Hf.
  - apply find_some in Hf as [Hin Hd].
    apply bool_decide_eq_true in Hd. simpl in Hd. subst d'.
    apply list_elem_of_In, recent_marks_elem in Hin as (a & ? & ? & ? & ? & ?).
    apply statuses_on_elem. eauto 10.
  - destruct (statuses_on d sid day) as [|st l] eqn:Hs; [done|].
    assert (st ∈ statuses_on d sid day) as Hst by (rewrite Hs; left).
    apply statuses_on_elem in Hst as (a & Ha & Hsid & Hday & Hstat).
    assert ((day, st) ∈ SQL.recent_marks sid cd d) as Hin.
    { apply recent_marks_elem. exists a. repeat split; try done. lia. }
    apply list_elem_of_In in Hin.
    pose proof (find_none _ _ Hf _ Hin) as Hx. simpl in Hx.
    by apply bool_decide_eq_false in Hx.
Qed.

Lemma unique_marks_statuses d sid day :
  unique_marks d → length (statuses_on d sid day) ≤ 1.
Proof.
  unfold unique_marks, statuses_on, SQL.attendance_of.
  rewrite length_fmap.
  induction (attendance d) as [|a l IH]; simpl; [lia|].
  rewrite NoDup_cons. intros [Hnotin Hnd].
  rewrite filter_cons. case_decide as Hk; [|by apply IH].
  simpl. destruct Hk as [Hs Hd].
  destruct (filter _ l) as [|b l'] eqn:Hfl; [simpl; lia|].
  exfalso. apply Hnotin.
  assert (b ∈ filter (λ a, a_student_id a = sid ∧ a_date a = day) l) as Hb
    by (rewrite Hfl; left).
  apply list_elem_of_filter in Hb as [[? ?] Hb].
  apply list_elem_of_fmap. exists b. split; [|done].
  unfold mark_key. congruence.
Qed.

(** *** Dates at a fixed offset *)

Lemma Day_MakeDate day time :
  (0 ≤ time < JSDate.msPerDay)%Z → JSDate.Day (JSDate.MakeDate day time) = day.
Proof.
  intros Ht. unfold JSDate.Day, JSDate.MakeDate. symmetry.
  apply (Z.div_unique_pos _ _ day time); [done|]. lia.
Qed.

Lemma parse_date_only_day day :
  JSDate.toISODate (JSDate.parse_date_only day) = day.
Proof. apply Day_MakeDate. unfold JSDate.msPerDay. lia. Qed.

Lemma setDate_prev_fixed tza c day :
  (∀ t isUTC, tza t isUTC = c) →
  JSDate.setDate_prev tza (JSDate.parse_date_only day) =
  JSDate.parse_date_only (day - 1).
Proof.
  intros Hc. unfold JSDate.setDate_prev, JSDate.LocalTime, JSDate.UTC.
  cbn zeta. rewrite !Hc.
  unfold JSDate.parse_date_only, JSDate.MakeDate, JSDate.Day, JSDate.TimeWithinDay.
  pose proof (Z.div_mod (day * JSDate.msPerDay + 0 + c) JSDate.msPerDay) as Hdm.
  unfold JSDate.msPerDay in *. lia.
Qed.

Lemma local_midnight_fixed tza c date :
  (∀ t isUTC, tza t isUTC = c) → (- JSDate.msPerDay < c < JSDate.msPerDay)%Z →
  JSDate.toISODate (JSDate.local_midnight tza date) = (date - read_early c)%Z.
Proof.
  intros Hc Hb. unfold JSDate.toISODate, JSDate.local_midnight, JSDate.UTC.
  rewrite Hc. unfold read_early, JSDate.MakeDate, JSDate.Day. symmetry.
  destruct (Z.ltb_spec 0 c).
  - apply (Z.div_unique_pos _ _ _ (JSDate.msPerDay - c)); lia.
  - apply (Z.div_unique_pos _ _ _ (- c)); lia.
Qed.

(** At a fixed offset [rows.find] looks for the DATE [day + read_early c]. *)
Lemma find_fixed tza c (rows : list (Z * Status)) day :
  (∀ t isUTC, tza t isUTC = c) → (- JSDate.msPerDay < c < JSDate.msPerDay)%Z →
  find (λ r, bool_decide
               (JSDate.toISODate (JSDate.local_midnight tza r.1) =
                JSDate.toISODate (JSDate.parse_date_only day))) rows =
  find (λ r, bool_decide (r.1 = (day + read_early c)%Z)) rows.
Proof.
  intros Hc Hb. induction rows as [|r rows IH]; [done|]. simpl.
  rewrite IH, parse_date_only_day, (local_midnight_fixed tza c) by done.
  destruct (decide (r.1 = (day + read_early c)%Z)) as [Heq|Hne].
  - rewrite !bool_decide_eq_true_2; [done|done|lia].
  - rewrite !bool_decide_eq_false_2; [done|done|lia].
Qed.

(** The loop at a fixed offset, when each day it looks at has at most one
    mark: the walk of the specification, started [read_early c] days late. *)
Lemma streak_loop_walk_back tza c sid cd d i day acc :
  (∀ t isUTC, tza t isUTC = c) → (- JSDate.msPerDay < c < JSDate.msPerDay)%Z →
  unique_marks d → (cd - 5 ≤ day + read_early c - Z.of_nat i + 1)%Z →
  streak_loop tza (SQL.recent_marks sid cd d) i (JSDate.parse_date_only day) acc =
  (acc + walk_back d sid (day + read_early c) i)%Z.
Proof.
  intros Hc Hb Hu. revert day acc.
  induction i as [|i IH]; intros day acc Hwin; [simpl; lia|].
  cbn [streak_loop walk_back]. cbn zeta.
  rewrite (find_fixed tza c) by done.
  rewrite (setDate_prev_fixed tza c) by done.
  pose proof (find_day sid cd d (day + read_early c)) as Hf.
  pose proof (unique_marks_statuses d sid (day + read_early c) Hu) as Hlen.
  replace (day + read_early c - 1)%Z with (day - 1 + read_early c)%Z by lia.
  destruct (find _ _) as [[d' st]|].
  - assert (st ∈ statuses_on d sid (day + read_early c)) as Hst by (apply Hf; lia).
    destruct (statuses_on d sid (day + read_early c)) as [|st' [|? ?]] eqn:Hs;
      simpl in Hlen; [by apply elem_of_nil in Hst| |lia].
    apply list_elem_of_singleton in Hst. subst st'.
    destruct st.
    + rewrite bool_decide_eq_false_2; [lia|].
      intros [Habs|?]; [|done]. by apply list_elem_of_singleton in Habs.
    + rewrite bool_decide_eq_true_2 by (left; left).
      rewrite IH by lia. lia.
  - rewrite Hf by lia. rewrite bool_decide_eq_true_2 by by right.
    rewrite IH by lia. lia.
Qed.

Lemma streak_loop_bounds tza rows i t acc :
  (acc ≤ streak_loop tza rows i t acc ≤ acc + Z.of_nat i)%Z.
Proof.
  revert t acc. induction i as [|i IH]; intros t acc; [simpl; lia|].
  cbn [streak_loop]. cbn zeta.
  destruct (find _ _) as [[? [|]]|].
  - lia.
  - specialize (IH (JSDate.setDate_prev tza t) (acc + 1)%Z). lia.
  - specialize (IH (JSDate.setDate_prev tza t) (acc + 1)%Z). lia.
Qed.

Lemma set_db_db w : set_db (db w) w = w.
Proof. by destruct w. Qed.

Lemma checkConsecutiveAbsences_run e sid w :
  checkConsecutiveAbsences e sid w =
  (match outages w with
   | true :: _ => Throw ECONNREFUSED
   | _ => Ok (streak_loop (LocalTZA e) (SQL.recent_marks sid (curdate e) (db w)) 5
                (JSDate.parse_date_only (today e)) 0)
   end, set_outages (tail (outages w)) w).
Proof.
  unfold checkConsecutiveAbsences, bind, select, pool_execute, ret.
  destruct (outages w) as [|[|] o]; simpl; try done.
  all: by rewrite <- (set_db_db (set_outages _ w)) at 2.
Qed.

(** The evaluator at a fixed offset. *)
Lemma checkConsecutiveAbsences_fixed e c sid w :
  fixed_zone c e → (- JSDate.msPerDay < c < JSDate.msPerDay)%Z →
  unique_marks (db w) → (curdate e ≤ today e + 1)%Z →
  checkConsecutiveAbsences e sid w =
  (match outages w with
   | true :: _ => Throw ECONNREFUSED
   | _ => Ok (streak_spec (db w) sid (today e + read_early c))
   end, set_outages (tail (outages w)) w).
Proof.
  intros Hc Hb Hu Hcd. rewrite checkConsecutiveAbsences_run.
  rewrite (streak_loop_walk_back (LocalTZA e) c); try done.
  unfold read_early. destruct (0 <? c)%Z; simpl; lia.
Qed.

Lemma streak_step_counted tza c sid cd d i day acc :
  (∀ t isUTC, tza t isUTC = c) → (- JSDate.msPerDay < c < JSDate.msPerDay)%Z →
  (cd - 5 ≤ day + read_early c)%Z →
  statuses_on d sid (day + read_early c) = [absent] ∨
  statuses_on d sid (day + read_early c) = [] →
  streak_loop tza (SQL.recent_marks sid cd d) (S i) (JSDate.parse_date_only day) acc =
  streak_loop tza (SQL.recent_marks sid cd d) i (JSDate.parse_date_only (day - 1))
    (acc + 1).
Proof.
  intros Hc Hb Hwin Hs. cbn [streak_loop]. cbn zeta.
  rewrite (find_fixed tza c) by done.
  rewrite (setDate_prev_fixed tza c) by done.
  pose proof (find_day sid cd d (day + read_early c) Hwin) as Hf.
  destruct (find _ _) as [[d' st]|]; [|done].
  destruct Hs as [Hs|Hs]; rewrite Hs in Hf.
  - apply list_elem_of_singleton in Hf. by subst st.
  - by apply elem_of_nil in Hf.
Qed.

Lemma streak_step_present tza c sid cd d i day acc :
  (∀ t isUTC, tza t isUTC = c) → (- JSDate.msPerDay < c < JSDate.msPerDay)%Z →
  (cd - 5 ≤ day + read_early c)%Z →
  statuses_on d sid (day + read_early c) = [present] →
  streak_loop tza (SQL.recent_marks sid cd d) (S i) (JSDate.parse_date_only day) acc =
  acc.
Proof.
  intros Hc Hb Hwin Hs. cbn [streak_loop]. cbn zeta.
  rewrite (find_fixed tza c) by done.
  pose proof (find_day sid cd d (day + read_early c) Hwin) as Hf.
  destruct (find _ _) as [[d' st]|].
  - rewrite Hs in Hf. apply list_elem_of_singleton in Hf. by subst st.
  - by rewrite Hs in Hf.
Qed.

(** C9.  Whatever the history, the evaluator returns an integer between 0
    and 5; the only other outcome is the failure of its query when the store
    cannot be reached. *)
Theorem evaluator_bounded e sid w :
  match (checkConsecutiveAbsences e sid w).1 with
  | Ok n => (0 ≤ n ≤ 5)%Z
  | Throw err => err = ECONNREFUSED
  end.
Proof.
  rewrite checkConsecutiveAbsences_run. simpl.
  pose proof (streak_loop_bounds (LocalTZA e)
                (SQL.recent_marks sid (curdate e) (db w)) 5
                (JSDate.parse_date_only (today e)) 0).
  destruct (outages w) as [|[|] ?]; simpl; first [done | lia].
Qed.

(** X21.  With the process in UTC or at a fixed offset west of it, on a
    store with at most one mark per student and day, and a store session
    whose date is not more than a day ahead of the process, the evaluator
    returns the streak of the specification: the walk back from [today] over
    at most five days, counting a day with an absent mark or with no mark and
    stopping at a present mark.  It writes nothing: the state it leaves
    differs from the one it found only by the consumed outage schedule. *)
Theorem evaluator_is_streak_spec e sid w :
  utc_or_west e → unique_marks (db w) → (curdate e ≤ today e + 1)%Z →
  checkConsecutiveAbsences e sid w =
  (match outages w with
   | true :: _ => Throw ECONNREFUSED
   | _ => Ok (streak_spec (db w) sid (today e))
   end, set_outages (tail (outages w)) w).
Proof.
  intros (c & Hb & Hc) Hu Hcd.
  rewrite (checkConsecutiveAbsences_fixed e c) by (done || lia).
  unfold read_early. rewrite (proj2 (Z.ltb_ge 0 c)) by lia.
  by rewrite Z.add_0_r.
Qed.

(** X23.  With the process at a fixed offset east of UTC, on such a store,
    the evaluator reads every mark a day early: it returns the streak of the
    specification as of tomorrow, so that the mark of [today] is looked up
    under yesterday and today itself counts unless a mark dated tomorrow is
    present. *)
Theorem evaluator_east_of_utc e sid w :
  east_of_utc e → unique_marks (db w) → (curdate e ≤ today e + 1)%Z →
  outages w = [] →
  (checkConsecutiveAbsences e sid w).1 = Ok (streak_spec (db w) sid (today e + 1)).
Proof.
  intros (c & Hb & Hc) Hu Hcd Ho.
  rewrite (checkConsecutiveAbsences_fixed e c) by (done || lia).
  unfold read_early. rewrite (proj2 (Z.ltb_lt 0 c)) by lia.
  by rewrite Ho.
Qed.

(** C5, as amended.  The process is in UTC or at a fixed offset west of it.
    No mark on [today] and an absent mark the day before.  With absent marks
    also two and three days before, the streak is 4 when the fifth day of the
    walk ([today - 4]) has a present mark, and 5 when that day has an absent
    mark or no mark.  With a present mark two days before, the streak is 2. *)
Theorem streak_scenarios e sid w :
  utc_or_west e →
  outages w = [] → (curdate e ≤ today e + 1)%Z →
  statuses_on (db w) sid (today e) = [] →
  statuses_on (db w) sid (today e - 1) = [absent] →
  (statuses_on (db w) sid (today e - 2) = [absent] →
   statuses_on (db w) sid (today e - 3) = [absent] →
   (statuses_on (db w) sid (today e - 4) = [present] →
    (checkConsecutiveAbsences e sid w).1 = Ok 4%Z) ∧
   (statuses_on (db w) sid (today e - 4) = [absent] ∨
    statuses_on (db w) sid (today e - 4) = [] →
    (checkConsecutiveAbsences e sid w).1 = Ok 5%Z)) ∧
  (statuses_on (db w) sid (today e - 2) = [present] →
   (checkConsecutiveAbsences e sid w).1 = Ok 2%Z).
Proof.
  intros (c & Hb & Hc) Ho Hcd H0 H1.
  assert (read_early c = 0%Z) as Hre.
  { unfold read_early. by rewrite (proj2 (Z.ltb_ge 0 c)) by lia. }
  assert (- JSDate.msPerDay < c < JSDate.msPerDay)%Z as Hb' by lia.
  assert (∀ day, (day + read_early c)%Z = day) as Hday by (intros; lia).
  rewrite checkConsecutiveAbsences_run, Ho. cbn [fst].
  rewrite (streak_step_counted _ c) by (rewrite ?Hday; done || lia || auto).
  rewrite (streak_step_counted _ c) by (rewrite ?Hday; done || lia || auto).
  replace (today e - 1 - 1)%Z with (today e - 2)%Z by lia.
  split.
  - intros H2 H3.
    rewrite (streak_step_counted _ c) by (rewrite ?Hday; done || lia || auto).
    replace (today e - 2 - 1)%Z with (today e - 3)%Z by lia.
    rewrite (streak_step_counted _ c) by (rewrite ?Hday; done || lia || auto).
    replace (today e - 3 - 1)%Z with (today e - 4)%Z by lia.
    split; intros H4.
    + by rewrite (streak_step_present _ c) by (rewrite ?Hday; done || lia || auto).
    + by rewrite (streak_step_counted _ c) by (rewrite ?Hday; done || lia || auto).
  - intros H2.
    by rewrite (streak_step_present _ c) by (rewrite ?Hday; done || lia || auto).
Qed.

(** ** The wp calculus *)

Lemma wp_ret {A} (a : A) Q E w : Q a w → wp (ret a) Q E w.
Proof. done. Qed.

Lemma wp_throw {A} e (Q : A → World → Prop) E w : E w → wp (throw e) Q E w.
Proof. done. Qed.

Lemma wp_bind {A B} (m : M A) (f : A → M B) Q E w :
  wp m (λ a, wp (f a) Q E) E w → wp (bind m f) Q E w.
Proof. unfold wp, bind. by destruct (m w) as [[a|e] w']. Qed.

Lemma wp_get {A} (f : World → A) Q E w : Q (f w) w → wp (get f) Q E w.
Proof. done. Qed.

Lemma wp_modify f Q E w : Q tt (f w) → wp (modify f) Q E w.
Proof. done. Qed.

Lemma wp_mono {A} (m : M A) (Q Q' : A → World → Prop) (E E' : World → Prop) w :
  (∀ a w', Q a w' → Q' a w') → (∀ w', E w' → E' w') →
  wp m Q E w → wp m Q' E' w.
Proof. unfold wp. destruct (m w) as [[a|e] w']; auto. Qed.

Lemma wp_pool_execute {A} (stmt : DB → Res (A * DB)) Q E w :
  (∀ o, E (set_outages o w)) →
  (∀ o a d, stmt (db w) = Ok (a, d) → Q a (set_db d (set_outages o w))) →
  wp (pool_execute stmt) Q E w.
Proof.
  intros HE HQ. unfold wp, pool_execute.
  destruct (outages w) as [|[|] o]; simpl; [|done|].
  all: destruct (stmt (db w)) as [[a d]|e] eqn:Hs; [by apply HQ|done].
Qed.

Lemma wp_select {A} (q : DB → A) Q E w :
  (∀ o, E (set_outages o w)) →
  (∀ o, Q (q (db w)) (set_outages o w)) →
  wp (select q) Q E w.
Proof.
  intros HE HQ. apply wp_pool_execute; [done|].
  intros o a d [= <- <-]. rewrite <- (set_db_db (set_outages o w)). apply HQ.
Qed.

Lemma wp_insert (stmt : DB → Res DB) Q E w :
  (∀ o, E (set_outages o w)) →
  (∀ o d, stmt (db w) = Ok d → Q tt (set_db d (set_outages o w))) →
  wp (insert stmt) Q E w.
Proof.
  intros HE HQ. apply wp_pool_execute; [done|].
  intros o [] d Hs. apply HQ. by destruct (stmt (db w)); simplify_eq.
Qed.

Lemma wp_update {A} (stmt : DB → A * DB) Q E w :
  (∀ o, E (set_outages o w)) →
  (∀ o, Q (stmt (db w)).1 (set_db (stmt (db w)).2 (set_outages o w))) →
  wp (update stmt) Q E w.
Proof.
  intros HE HQ. apply wp_pool_execute; [done|].
  intros o a d Hs. specialize (HQ o). by destruct (stmt (db w)); simplify_eq.
Qed.

Lemma wp_try_catch {A} (body : M A) handler Q E w :
  wp body Q (λ w', ∀ e, wp (handler e) Q E w') w →
  wp (try_catch body handler) Q E w.
Proof. unfold wp, try_catch. destruct (body w) as [[a|e] w']; [done|]. intros H. apply H. Qed.

Lemma wp_forEach {A} (f : A → M unit) (l : list A) (P : World → Prop) E w :
  (∀ x w', x ∈ l → P w' → wp (f x) (λ _, P) E w') →
  P w → wp (forEach f l) (λ _, P) E w.
Proof.
  revert w. induction l as [|x l IH]; intros w Hf HP; simpl; [done|].
  apply wp_bind. eapply wp_mono; [| |apply Hf; [left|done]]; simpl; [|done].
  intros _ w' HP'. apply IH; [|done].
  intros y w'' Hy. apply Hf. by right.
Qed.

Lemma wp_total {A} (m : M A) a Q E w :
  (m w).1 = Ok a → Q a (m w).2 → wp m Q E w.
Proof. unfold wp. destruct (m w) as [r w']. simpl. by intros ->. Qed.

Lemma wp_route body (R : World → Prop) w :
  wp body (λ _, R) R w → R (route body w).2.
Proof. unfold wp, route. by destruct (body w) as [[a|e] w']. Qed.

(** The timer operations never throw. *)
Lemma clearStudentTimer_total id w : (clearStudentTimer id w).1 = Ok tt.
Proof.
  unfold clearStudentTimer, bind, get, clearTimeout, modify, ret.
  by destruct (timers w !! id).
Qed.

Lemma clearAllTimers_total w : (clearAllTimers w).1 = Ok tt.
Proof.
  unfold clearAllTimers, bind, get, clearTimeout, modify, ret. simpl.
  by destruct (dayTimer w).
Qed.

Lemma startAbsenceTimer_total s w : (startAbsenceTimer s w).1 = Ok tt.
Proof.
  unfold startAbsenceTimer, bind, get, clearTimeout, setTimeout, modify, ret.
  by destruct (timers w !! s_id s).
Qed.

Lemma startAbsenceTimer_db s w : db (startAbsenceTimer s w).2 = db w.
Proof.
  unfold startAbsenceTimer, bind, get, clearTimeout, setTimeout, modify, ret.
  by destruct (timers w !! s_id s).
Qed.

Section preserved.
Context {fresh : string → Prop} {I : option string → World → Prop}.
Context `{!Preserved fresh I}.

Lemma wp_checkConsecutiveAbsences x e sid w :
  I x w → wp (checkConsecutiveAbsences e sid) (λ _, I x) (I x) w.
Proof.
  intros HI. unfold wp. rewrite checkConsecutiveAbsences_run.
  destruct (outages w) as [|[|] ?]; by apply pres_outages.
Qed.

Lemma wp_clearStudentTimer id w :
  I None w → wp (clearStudentTimer id) (λ _, I None) (I None) w.
Proof.
  intros HI. eapply wp_total; [apply clearStudentTimer_total|].
  by apply pres_clearStudentTimer.
Qed.

Lemma wp_startNewDay w : I None w → wp startNewDay (λ _, I None) (I None) w.
Proof.
  intros HI. unfold startNewDay.
  apply wp_bind. eapply wp_total; [apply clearAllTimers_total|].
  apply pres_clearAllTimers in HI. revert HI.
  generalize ((clearAllTimers w).2). clear w. intros w HI.
  apply wp_bind, wp_select; intros o; [by apply pres_outages|].
  apply (pres_outages _ o) in HI.
  change (students (db w)) with (students (db (set_outages o w))).
  revert HI. generalize (set_outages o w). clear w. intros w HI.
  apply wp_bind.
  eapply wp_mono;
    [| |apply (wp_forEach _ _ (λ w', I None w' ∧ db w' = db w) (I None))]; simpl.
  - intros _ w' [HI' _]. by apply pres_day_timer.
  - done.
  - intros s w' Hs [HI' Hdb].
    eapply wp_total; [apply startAbsenceTimer_total|]. split.
    + apply pres_startAbsenceTimer; [done|]. by rewrite Hdb.
    + by rewrite startAbsenceTimer_db.
  - done.
Qed.

Lemma wp_absence_expired e s w :
  I (Some (s_id s)) w → wp (absence_expired e s) (λ _, I None) (I None) w.
Proof.
  intros HI. unfold absence_expired.
  apply wp_try_catch.
  assert (∀ w', I (Some (s_id s)) w' →
                ∀ err, wp (console_error_log err) (λ _, I None) (I None) w') as Hcatch.
  { intros w' HI' err. apply wp_modify. by apply (pres_crashed (s_id s)), pres_console. }
  apply wp_bind, wp_select; intros o; [by apply Hcatch, pres_outages|].
  apply (pres_outages _ o) in HI.
  change (db w) with (db (set_outages o w)).
  revert HI. generalize (set_outages o w). clear w. intros w HI.
  destruct (SQL.attendance_of _ _ _) eqn:Hex.
  - apply wp_bind, wp_bind, wp_insert; intros o'; [by apply Hcatch, pres_outages|].
    intros d Hins.
    assert (I (Some (s_id s)) (set_db d (set_outages o' w))) as HI1.
    { apply (pres_insert_attendance _ (absent_mark e s));
      [by apply pres_outages|exact Hex|exact Hins]. }
    revert HI1. generalize (set_db d (set_outages o' w)). clear w Hex Hins HI.
    intros w HI.
    apply wp_bind.
    eapply wp_mono; [| |by apply (wp_checkConsecutiveAbsences (Some (s_id s)))];
      simpl; [|apply Hcatch].
    intros n w' HI'. case_match.
    + apply wp_insert; intros o''; [by apply Hcatch, pres_outages|].
      intros d' Hins. apply wp_modify. simpl.
      apply (pres_landed (s_id s) (set_db d' (set_outages o'' w'))).
      eapply pres_insert_notification; [by apply pres_outages|done].
    + apply wp_ret, wp_modify. by apply pres_landed.
  - apply wp_bind, wp_ret, wp_modify. by apply pres_landed.
Qed.


Lemma wp_select_inv {A} x (q : DB → A) Q E w :
  I x w → (∀ w', I x w' → E w') →
  (∀ w', I x w' → db w' = db w → Q (q (db w')) w') →
  wp (select q) Q E w.
Proof.
  intros HI HE HQ. apply wp_select; intros o.
  - by apply HE, pres_outages.
  - apply (HQ (set_outages o w)); [by apply pres_outages|done].
Qed.

Lemma wp_insert_inv x (stmt : DB → Res DB) Q E w :
  I x w → (∀ w', I x w' → E w') →
  (∀ w' d, I x w' → db w' = db w → stmt (db w') = Ok d → Q tt (set_db d w')) →
  wp (insert stmt) Q E w.
Proof.
  intros HI HE HQ. apply wp_insert; intros o.
  - by apply HE, pres_outages.
  - intros d Hd. apply (HQ (set_outages o w)); [by apply pres_outages|done..].
Qed.

Lemma post_students_preserved e b w :
  fresh (uuid1 e) → I None w → I None (post_students e b w).2.
Proof.
  intros Hfresh HI. unfold post_students. apply wp_route.
  destruct (b_name b) as [| |name], (b_cardId b) as [| |cardId];
    try by apply wp_ret.
  case_match; [by apply wp_ret|].
  apply wp_bind, (wp_select_inv None); [done..|].
  intros w1 HI1 _. case_match; [|by apply wp_ret].
  apply wp_bind, (wp_insert_inv None); [done..|].
  intros w2 d HI2 _ Hins. case_bool_decide; [done|].
  apply pres_insert_student in Hins; [|done..].
  apply wp_bind, (wp_select_inv None); [done..|].
  intros w3 HI3 _. destruct (SQL.students_by_id _ _) as [|s l] eqn:Hsel.
  - by apply wp_throw.
  - apply wp_bind. eapply wp_total; [apply startAbsenceTimer_total|].
    apply wp_ret, pres_startAbsenceTimer; [done|].
    assert (s ∈ SQL.students_by_id (uuid1 e) (db w3)) as Hs by (rewrite Hsel; left).
    by apply list_elem_of_filter in Hs as [_ ?].
Qed.

Lemma put_students_preserved id b w :
  I None w → I None (put_students id b w).2.
Proof.
  intros HI. unfold put_students. apply wp_route.
  apply wp_bind, (wp_select_inv None); [done..|].
  intros w1 HI1 _. case_match; [by apply wp_ret|].
  apply wp_bind.
  assert (∀ Q : list StudentRow → World → Prop,
            (∀ l w', I None w' → Q l w') →
            wp (match b_cardId b with
                | text cardId =>
                    if negb (falsy_field (b_cardId b)) &&
                       negb (bool_decide (cardId = s_card_id s))
                    then select (SQL.students_card_conflict cardId id)
                    else ret []
                | _ => ret []
                end) Q (I None) w1) as Hconf.
  { intros Q HQ. destruct (b_cardId b); [by apply wp_ret, HQ..|].
    case_match; [|by apply wp_ret, HQ].
    apply (wp_select_inv None); [done..|]. intros w' HI' _. by apply HQ. }
  apply Hconf. intros conflict w2 HI2.
  destruct conflict; [|by apply wp_ret].
  apply wp_bind, (wp_insert_inv None); [done..|].
  intros w3 d HI3 _ Hupd. case_bool_decide; [done|].
  apply wp_ret. by eapply pres_update_student.
Qed.

Lemma delete_students_preserved id w :
  I None w → I None (delete_students id w).2.
Proof.
  intros HI. unfold delete_students. apply wp_route.
  apply wp_bind, wp_update; intros o; [by apply pres_outages|].
  apply (pres_outages _ o), (pres_delete_student id) in HI. simpl in HI.
  change (db w) with (db (set_outages o w)).
  destruct (_ =? _)%Z; [by apply wp_ret|].
  apply wp_bind. eapply wp_total; [apply clearStudentTimer_total|].
  by apply wp_ret.
Qed.

Lemma post_attendance_record_preserved e cardId w :
  I None w → I None (post_attendance_record e cardId w).2.
Proof.
  intros HI. unfold post_attendance_record. apply wp_route.
  destruct cardId as [card|]; [|by apply wp_ret].
  case_match; [by apply wp_ret|].
  apply wp_bind, (wp_select_inv None); [done..|].
  intros w1 HI1 _. destruct (SQL.students_by_card _ _) as [|student ?];
    [by apply wp_ret|].
  apply wp_bind, (wp_select_inv None); [done..|].
  intros w2 HI2 _. destruct (SQL.attendance_of _ _ _) eqn:Hex; [|by apply wp_ret].
  apply wp_bind, (wp_insert_inv None); [done..|].
  intros w3 d HI3 Hdb Hins.
  apply (pres_insert_attendance None (present_mark e student)) in Hins;
    [|done|by rewrite Hdb].
  apply wp_bind. eapply wp_mono; [| |by apply wp_clearStudentTimer]; simpl; [|done].
  intros _ w4 HI4. apply wp_bind.
  eapply wp_mono; [| |by apply (wp_checkConsecutiveAbsences None)]; simpl; [|done].
  intros n w5 HI5. by apply wp_ret.
Qed.

Lemma post_manual_absent_preserved e studentId w :
  I None w → I None (post_manual_absent e studentId w).2.
Proof.
  intros HI. unfold post_manual_absent. apply wp_route.
  apply wp_bind, (wp_select_inv None); [done..|].
  intros w1 HI1 _. destruct (SQL.students_by_id _ _) as [|student ?];
    [by apply wp_ret|].
  apply wp_bind, (wp_select_inv None); [done..|].
  intros w2 HI2 _. destruct (SQL.attendance_of _ _ _) eqn:Hex; [|by apply wp_ret].
  apply wp_bind, (wp_insert_inv None); [done..|].
  intros w3 d HI3 Hdb Hins.
  apply (pres_insert_attendance None (manual_absent_mark e student)) in Hins;
    [|done|by rewrite Hdb].
  apply wp_bind. eapply wp_mono; [| |by apply wp_clearStudentTimer]; simpl; [|done].
  intros _ w4 HI4. by apply wp_ret.
Qed.

Lemma post_notifications_send_preserved e id w :
  I None w → I None (post_notifications_send e id w).2.
Proof.
  intros HI. unfold post_notifications_send. apply wp_route.
  apply wp_bind, wp_update; intros o; [by apply pres_outages|].
  apply (pres_outages _ o), (pres_send_notification id (now e)) in HI.
  case_match; by apply wp_ret.
Qed.

Lemma post_reports_generate_preserved e w :
  I None w → I None (post_reports_generate e w).2.
Proof.
  intros HI. unfold post_reports_generate. apply wp_route.
  apply wp_bind, (wp_select_inv None); [done..|].
  intros w1 HI1 _. case_match; [|by apply wp_ret].
  apply wp_bind, (wp_select_inv None); [done..|]. intros w2 HI2 _.
  apply wp_bind, (wp_select_inv None); [done..|]. intros w3 HI3 _.
  apply wp_bind, (wp_select_inv None); [done..|]. intros w4 HI4 _.
  apply wp_bind, (wp_insert_inv None); [done..|].
  intros w5 d HI5 _ Hins. apply wp_ret. by eapply pres_insert_report.
Qed.

Lemma post_system_new_day_preserved e w :
  I None w → I None (post_system_new_day e w).2.
Proof.
  intros HI. unfold post_system_new_day. apply wp_route.
  apply wp_bind, (wp_select_inv None); [done..|].
  intros w1 HI1 _. apply wp_bind.
  assert (wp (if (0 <? SQL.count_attendance (today e) (db w1))%Z
              then pool_execute (insert_ignore_report e) else ret tt)
             (λ _, I None) (I None) w1) as Hrep.
  { case_match; [|by apply wp_ret].
    apply wp_pool_execute; intros o; [by apply pres_outages|].
    intros [] d. unfold insert_ignore_report.
    destruct (SQL.insert_report _ _) eqn:Hins; intros [= <-].
    - eapply pres_insert_report; [by apply pres_outages|done].
    - change (db w1) with (db (set_outages o w1)). rewrite set_db_db.
      by apply pres_outages. }
  eapply wp_mono; [| |exact Hrep]; simpl; [|done].
  intros _ w2 HI2. apply wp_bind.
  eapply wp_mono; [| |by apply wp_startNewDay]; simpl; [|done].
  intros _ w3 HI3. by apply wp_ret.
Qed.

Lemma fire_preserved e h w : I None w → I None (fire e h w).
Proof.
  intros HI. unfold fire. destruct (timeouts w !! h) as [[s|]|] eqn:Hh; [| |done].
  - apply (pres_takeoff h s) in HI; [|done].
    pose proof (wp_absence_expired e s _ HI) as Hwp. unfold wp in Hwp.
    by destruct (absence_expired e s _) as [[?|?] ?].
  - apply (pres_fire h) in HI.
    pose proof (wp_startNewDay _ HI) as Hwp. unfold wp in Hwp.
    destruct (startNewDay _) as [[?|?] ?]; [done|]. by apply pres_exited.
Qed.

Lemma step_preserved w ev :
  (∀ id, new_student_id ev = Some id → fresh id) →
  I None w → I None (step w ev).
Proof.
  intros Hfresh HI. destruct ev as [e ev]. unfold step. simpl fst; simpl snd.
  apply (pres_outages _ (faults e)) in HI.
  destruct ev.
  - by apply fire_preserved.
  - apply post_students_preserved; [|done]. by apply Hfresh.
  - by apply put_students_preserved.
  - by apply delete_students_preserved.
  - by apply post_attendance_record_preserved.
  - by apply post_manual_absent_preserved.
  - by apply post_notifications_send_preserved.
  - by apply post_reports_generate_preserved.
  - by apply post_system_new_day_preserved.
Qed.

Lemma run_preserved trace w :
  Forall (λ ev, ∀ id, new_student_id ev = Some id → fresh id) trace →
  I None w → I None (run w trace).
Proof.
  revert w. induction trace as [|ev trace IH]; intros w Hf HI; [done|].
  apply Forall_cons in Hf as [? ?]. simpl. apply IH; [done|].
  destruct (exited w); [done|]. by apply step_preserved.
Qed.

End preserved.

(** ** What the statements and the timer operations change *)

Lemma insert_attendance_Ok a d d' :
  SQL.insert_attendance a d = Ok d' →
  d' = set_attendance (attendance d ++ [a]) d ∧
  a_student_id a ∈ SQL.student_ids d ∧ a_id a ∉ (a_id <$> attendance d).
Proof.
  unfold SQL.insert_attendance. repeat case_bool_decide; naive_solver.
Qed.

Lemma insert_notification_Ok n d d' :
  SQL.insert_notification n d = Ok d' →
  d' = set_notifications (notifications d ++ [n]) d ∧
  n_student_id n ∈ SQL.student_ids d.
Proof.
  unfold SQL.insert_notification. repeat case_bool_decide; naive_solver.
Qed.

Lemma insert_report_Ok r d d' :
  SQL.insert_report r d = Ok d' →
  d' = set_daily_reports (daily_reports d ++ [r]) d.
Proof.
  unfold SQL.insert_report. repeat case_bool_decide; naive_solver.
Qed.

Lemma insert_student_Ok s d d' :
  SQL.insert_student s d = Ok d' →
  d' = set_students (students d ++ [s]) d ∧ s_id s ∉ SQL.student_ids d.
Proof.
  unfold SQL.insert_student. repeat case_bool_decide; naive_solver.
Qed.

Lemma update_student_Ok name card phone email class id d d' :
  SQL.update_student name card phone email class id d = Ok d' →
  SQL.student_ids d' = SQL.student_ids d ∧ attendance d' = attendance d ∧
  notifications d' = notifications d ∧ daily_reports d' = daily_reports d.
Proof.
  unfold SQL.update_student. intros Hu.
  destruct (SQL.students_by_id id d); [by simplify_eq|].
  destruct name, card; try done. case_bool_decide; [|done]. simplify_eq.
  split; [|done]. unfold SQL.student_ids. simpl.
  rewrite <- list_fmap_compose. apply list_fmap_ext.
  intros i x _. simpl. by case_bool_decide.
Qed.

Lemma send_notification_student_ids id t d :
  n_student_id <$> notifications (SQL.send_notification id t d).2 =
  n_student_id <$> notifications d.
Proof.
  simpl. rewrite <- list_fmap_compose. apply list_fmap_ext.
  intros i n _. simpl. by case_bool_decide.
Qed.

Lemma delete_student_ids id d sid :
  sid ∈ SQL.student_ids (SQL.delete_student id d).2 ↔
  sid ∈ SQL.student_ids d ∧ sid ≠ id.
Proof.
  unfold SQL.student_ids. simpl. rewrite !list_elem_of_fmap. split.
  - intros (s & -> & Hs). apply list_elem_of_filter in Hs as [? ?]. eauto.
  - intros [(s & -> & Hs) ?]. exists s. split; [done|].
    by apply list_elem_of_filter.
Qed.

Lemma delete_student_none id d :
  (SQL.delete_student id d).1 = 0%Z → id ∉ SQL.student_ids d.
Proof.
  simpl. intros Hlen Hin.
  apply list_elem_of_fmap in Hin as (s & -> & Hs).
  assert (s ∈ SQL.students_by_id (s_id s) d) as Hf by by apply list_elem_of_filter.
  destruct (SQL.students_by_id (s_id s) d); [by apply elem_of_nil in Hf|].
  simpl in Hlen. lia.
Qed.

Lemma delete_student_some id d :
  (SQL.delete_student id d).1 ≠ 0%Z → id ∈ SQL.student_ids d.
Proof.
  simpl. intros Hlen.
  destruct (SQL.students_by_id id d) as [|s l] eqn:Hsel; [done|].
  assert (s ∈ SQL.students_by_id id d) as Hs by (rewrite Hsel; left).
  apply list_elem_of_filter in Hs as [<- Hs].
  apply list_elem_of_fmap. eauto.
Qed.

Lemma clearStudentTimer_run id w :
  (clearStudentTimer id w).2 =
  match timers w !! id with
  | Some h => set_timers (delete id (timers w))
                (set_timeouts (delete h (timeouts w)) w)
  | None => w
  end.
Proof.
  unfold clearStudentTimer, bind, get, clearTimeout, modify, ret.
  by destruct (timers w !! id).
Qed.

Lemma startAbsenceTimer_run s w :
  (startAbsenceTimer s w).2 =
  {| db := db w;
     timers := <[s_id s := next_handle w]> (timers w);
     dayTimer := dayTimer w;
     timeouts := <[next_handle w := AbsenceExpiry s]>
                   (match timers w !! s_id s with
                    | Some h => delete h (timeouts w)
                    | None => timeouts w
                    end);
     next_handle := S (next_handle w);
     outages := outages w;
     console_error := console_error w;
     exited := exited w |}.
Proof.
  unfold startAbsenceTimer, bind, get, clearTimeout, setTimeout, modify, ret.
  by destruct (timers w !! s_id s).
Qed.

Lemma clearAllTimers_run w :
  (clearAllTimers w).2 =
  {| db := db w;
     timers := ∅;
     dayTimer := None;
     timeouts := match dayTimer w with
                 | Some h => delete h (clear_handles (timers w) (timeouts w))
                 | None => clear_handles (timers w) (timeouts w)
                 end;
     next_handle := next_handle w;
     outages := outages w;
     console_error := console_error w;
     exited := exited w |}.
Proof.
  unfold clearAllTimers, bind, get, clearTimeout, modify, ret. simpl.
  destruct w as [? ? [h|] ? ? ? ? ?]; reflexivity.
Qed.

Lemma clear_handles_lookup t T h cb :
  clear_handles t T !! h = Some cb →
  T !! h = Some cb ∧ ∀ id, t !! id ≠ Some h.
Proof.
  unfold clear_handles. revert h cb.
  apply (map_fold_weak_ind
           (λ acc t, ∀ h cb, acc !! h = Some cb →
                             T !! h = Some cb ∧ ∀ id, t !! id ≠ Some h)).
  - intros h cb Hh. split; [done|]. intros id. by rewrite lookup_empty.
  - intros i x m r Hi IH h cb Hh.
    apply lookup_delete_Some in Hh as [Hne Hh].
    destruct (IH _ _ Hh) as [HT Hm]. split; [done|].
    intros id. destruct (decide (i = id)) as [->|].
    + rewrite lookup_insert_eq. congruence.
    + by rewrite lookup_insert_ne.
Qed.

Lemma clearAllTimers_lookup w h cb :
  timeouts (clearAllTimers w).2 !! h = Some cb →
  timeouts w !! h = Some cb ∧ ∀ id, timers w !! id ≠ Some h.
Proof.
  rewrite clearAllTimers_run. simpl. intros Hh.
  apply clear_handles_lookup.
  destruct (dayTimer w); [|done]. by apply lookup_delete_Some in Hh as [_ ?].
Qed.

Lemma clearStudentTimer_db id w : db (clearStudentTimer id w).2 = db w.
Proof. rewrite clearStudentTimer_run. by destruct (timers w !! id). Qed.

Lemma clearAllTimers_db w : db (clearAllTimers w).2 = db w.
Proof. by rewrite clearAllTimers_run. Qed.

(** ** At most one mark per student and day is kept by every handler *)

Lemma attendance_of_nil_key sid date d :
  SQL.attendance_of sid date d = [] → (sid, date) ∉ (mark_key <$> attendance d).
Proof.
  intros Hnil Hin. apply list_elem_of_fmap in Hin as (a & Hk & Ha).
  assert (a ∈ SQL.attendance_of sid date d) as Hf.
  { apply list_elem_of_filter. split; [|done]. by inversion Hk. }
  rewrite Hnil in Hf. by apply elem_of_nil in Hf.
Qed.

Lemma NoDup_fmap_filter {A B} (f : A → B) (P : A → Prop) `{!∀ x, Decision (P x)}
    (l : list A) :
  NoDup (f <$> l) → NoDup (f <$> filter P l).
Proof.
  intros Hnd. apply (sublist_NoDup _ (f <$> l)); [done|].
  apply fmap_sublist, sublist_filter.
Qed.

#[global] Instance unique_marks_preserved :
  Preserved (λ _, True) (λ _ w, unique_marks (db w)).
Proof.
  split; try done.
  - intros _ a d w Hu Hnil Hins.
    apply insert_attendance_Ok in Hins as (-> & _ & _).
    unfold unique_marks in *. simpl. rewrite fmap_app. simpl.
    apply NoDup_app. split; [done|]. split; [|apply NoDup_singleton].
    intros k Hk Hk'. apply list_elem_of_singleton in Hk'. subst k.
    by eapply attendance_of_nil_key.
  - intros _ n d w Hu Hins. by apply insert_notification_Ok in Hins as (-> & _).
  - intros r d w Hu Hins. by apply insert_report_Ok in Hins as ->.
  - intros s d w Hu _ Hins. by apply insert_student_Ok in Hins as (-> & _).
  - intros name card phone email class id d w Hu Hupd.
    apply update_student_Ok in Hupd as (_ & Ha & _).
    unfold unique_marks in *. simpl. by rewrite Ha.
  - intros id w Hu.
    assert (unique_marks (SQL.delete_student id (db w)).2) as Hd.
    { unfold unique_marks in *. simpl. by apply NoDup_fmap_filter. }
    destruct (_ =? _)%Z; [done|]. by rewrite clearStudentTimer_db.
  - intros id w Hu. by rewrite clearStudentTimer_db.
  - intros w Hu. by rewrite clearAllTimers_db.
  - intros s w Hu _. by rewrite startAbsenceTimer_db.
Qed.

(** ** Well-formed states are kept by every handler *)

Lemma db_ok_delete_student id d : db_ok d → db_ok (SQL.delete_student id d).2.
Proof.
  intros (Hnd & Ha & Hn). split; [|split].
  - unfold SQL.student_ids. simpl. by apply NoDup_fmap_filter.
  - apply Forall_forall. intros a Hin.
    apply list_elem_of_filter in Hin as [Hne Hin].
    apply delete_student_ids. split; [|done].
    by apply (proj1 (Forall_forall _ _) Ha).
  - apply Forall_forall. intros n Hin.
    apply list_elem_of_filter in Hin as [Hne Hin].
    apply delete_student_ids. split; [|done].
    by apply (proj1 (Forall_forall _ _) Hn).
Qed.

Lemma armed_ok_lookup x w h cb :
  armed_ok x w → timeouts w !! h = Some cb →
  h < next_handle w ∧
  match cb with
  | AbsenceExpiry s =>
      timers w !! s_id s = Some h ∧ s_id s ∈ SQL.student_ids (db w) ∧
      Some (s_id s) ≠ x
  | DayRollover => True
  end.
Proof. intros Ha Hh. by apply (Ha h cb). Qed.

Lemma wf_clearStudentTimer_after_delete id d w :
  armed_ok None w →
  (∀ sid, sid ∈ SQL.student_ids (db w) → sid ≠ id → sid ∈ SQL.student_ids d) →
  armed_ok None (clearStudentTimer id (set_db d w)).2.
Proof.
  intros Harm Hids. rewrite clearStudentTimer_run. simpl.
  destruct (timers w !! id) as [h|] eqn:Hid.
  - intros h' cb Hh'. simpl in Hh'.
    apply lookup_delete_Some in Hh' as [Hne Hh'].
    destruct (armed_ok_lookup _ _ _ _ Harm Hh') as [Hlt Hcb].
    split; [done|]. destruct cb as [s|]; [|done]. simpl.
    destruct Hcb as (Ht & Hin & _).
    assert (s_id s ≠ id) as Hsid by (intros Heq; rewrite Heq in Ht; congruence).
    rewrite lookup_delete_ne by done. auto.
  - intros h' cb Hh'. simpl in Hh'.
    destruct (armed_ok_lookup _ _ _ _ Harm Hh') as [Hlt Hcb].
    split; [done|]. destruct cb as [s|]; [|done]. simpl.
    destruct Hcb as (Ht & Hin & _).
    assert (s_id s ≠ id) as Hsid by (intros Heq; rewrite Heq in Ht; congruence). auto.
Qed.

#[global] Instance wf_preserved : Preserved (λ _, True) wf_during.
Proof.
  split.
  - done.
  - done.
  - intros x a d w [Hdb Harm] _ Hins.
    apply insert_attendance_Ok in Hins as (-> & Hfk & _). split; [|done].
    destruct Hdb as (? & Ha & ?). split; [done|]. split; [|done].
    simpl. apply Forall_app. split; [done|]. by apply Forall_singleton.
  - intros x n d w [Hdb Harm] Hins.
    apply insert_notification_Ok in Hins as (-> & Hfk). split; [|done].
    destruct Hdb as (? & ? & Hn). split; [done|]. split; [done|].
    simpl. apply Forall_app. split; [done|]. by apply Forall_singleton.
  - intros r d w Hwf Hins. by apply insert_report_Ok in Hins as ->.
  - intros s d w [(Hnd & Ha & Hn) Harm] _ Hins.
    apply insert_student_Ok in Hins as (-> & Hnew).
    assert (∀ sid, sid ∈ SQL.student_ids (db w) →
                   sid ∈ s_id <$> (students (db w) ++ [s])) as Hsub.
    { intros sid Hsid. rewrite fmap_app. apply elem_of_app. by left. }
    split; [split; [|split]|].
    + unfold SQL.student_ids. simpl. rewrite fmap_app.
      apply NoDup_app. split; [done|]. split; [|apply NoDup_singleton].
      intros k Hk Hk'. apply list_elem_of_singleton in Hk'. by subst k.
    + eapply Forall_impl; [exact Ha|]. intros a. apply Hsub.
    + eapply Forall_impl; [exact Hn|]. intros n. apply Hsub.
    + intros h cb Hh. destruct (armed_ok_lookup _ _ _ _ Harm Hh) as [Hlt Hcb].
      split; [done|]. destruct cb; [|done]. destruct Hcb as (? & ? & ?).
      split; [done|]. split; [|done]. by apply Hsub.
  - intros name card phone email class id d w [(Hnd & Ha & Hn) Harm] Hupd.
    apply update_student_Ok in Hupd as (Hids & Hatt & Hnot & _).
    split; [split; [|split]|].
    + simpl. by rewrite Hids.
    + simpl. by rewrite Hids, Hatt.
    + simpl. by rewrite Hids, Hnot.
    + intros h cb Hh. destruct (armed_ok_lookup _ _ _ _ Harm Hh) as [Hlt Hcb].
      split; [done|]. destruct cb; [|done]. simpl. by rewrite Hids.
  - intros id t w [(Hnd & Ha & Hn) Harm]. split; [|done].
    split; [done|]. split; [done|].
    simpl. apply Forall_fmap. eapply Forall_impl; [exact Hn|].
    intros n Hin. simpl. by case_bool_decide.
  - intros id w [Hdb Harm].
    pose proof (db_ok_delete_student id _ Hdb) as Hdb'.
    destruct (_ =? _)%Z eqn:Hz.
    + split; [done|]. apply Z.eqb_eq, delete_student_none in Hz.
      intros h cb Hh. destruct (armed_ok_lookup _ _ _ _ Harm Hh) as [Hlt Hcb].
      split; [done|]. destruct cb; [|done]. destruct Hcb as (? & ? & ?).
      split; [done|]. split; [|done]. apply delete_student_ids.
      split; [done|]. intros Heq. apply Hz. by rewrite <- Heq.
    + split; [by rewrite clearStudentTimer_db|].
      apply wf_clearStudentTimer_after_delete; [done|].
      intros sid ? ?. by apply delete_student_ids.
  - intros id w [Hdb Harm]. split; [by rewrite clearStudentTimer_db|].
    rewrite <- (set_db_db w) at 1.
    by apply wf_clearStudentTimer_after_delete.
  - intros w [Hdb Harm]. split; [by rewrite clearAllTimers_db|].
    intros h cb Hh. pose proof Hh as Hh'.
    apply clearAllTimers_lookup in Hh' as [Hold Hreg].
    destruct (armed_ok_lookup _ _ _ _ Harm Hold) as [Hlt Hcb].
    rewrite clearAllTimers_run. simpl. split; [done|].
    destruct cb as [s|]; [|done]. destruct Hcb as (Ht & _). by destruct (Hreg (s_id s)).
  - intros s w [Hdb Harm] Hs. split; [by rewrite startAbsenceTimer_db|].
    rewrite startAbsenceTimer_run. intros h cb Hh. simpl in *.
    destruct (decide (h = next_handle w)) as [->|Hne].
    + rewrite lookup_insert_eq in Hh. simplify_eq. split; [lia|].
      rewrite lookup_insert_eq. split; [done|]. split; [|done].
      apply list_elem_of_fmap. eauto.
    + rewrite lookup_insert_ne in Hh by done.
      assert (timeouts w !! h = Some cb ∧ timers w !! s_id s ≠ Some h) as [Hold Hh0].
      { destruct (timers w !! s_id s) as [h0|]; [|done].
        apply lookup_delete_Some in Hh as [? ?]. split; [done|]. congruence. }
      destruct (armed_ok_lookup _ _ _ _ Harm Hold) as [Hlt Hcb].
      split; [lia|]. destruct cb as [s'|]; [|done]. destruct Hcb as (Ht & ? & ?).
      assert (s_id s' ≠ s_id s) as Hsid by (intros Heq; rewrite Heq in Ht; done).
      rewrite lookup_insert_ne by done. auto.
  - intros w [Hdb Harm]. split; [done|]. intros h cb Hh. simpl in *.
    destruct (decide (h = next_handle w)) as [->|Hne].
    + rewrite lookup_insert_eq in Hh. simplify_eq. split; [lia|done].
    + rewrite lookup_insert_ne in Hh by done.
      destruct (armed_ok_lookup _ _ _ _ Harm Hh) as [Hlt Hcb]. split; [lia|done].
  - intros h w [Hdb Harm]. split; [done|]. by apply map_Forall_delete.
  - intros h s w [Hdb Harm] Hs. split; [done|]. intros h' cb Hh'. simpl in *.
    apply lookup_delete_Some in Hh' as [Hne Hh'].
    destruct (armed_ok_lookup _ _ _ _ Harm Hh') as [Hlt Hcb].
    split; [done|]. destruct cb as [s'|]; [|done]. destruct Hcb as (Ht & ? & _).
    split; [done|]. split; [done|]. intros [= Heq].
    destruct (armed_ok_lookup _ _ _ _ Harm Hs) as [_ (Ht' & _)]. congruence.
  - intros id w [Hdb Harm]. split; [done|]. intros h cb Hh. simpl in *.
    destruct (armed_ok_lookup _ _ _ _ Harm Hh) as [Hlt Hcb].
    split; [done|]. destruct cb as [s|]; [|done]. destruct Hcb as (Ht & ? & Hx).
    rewrite lookup_delete_ne by congruence. done.
  - intros id w [Hdb Harm]. split; [done|]. intros h cb Hh.
    destruct (armed_ok_lookup _ _ _ _ Harm Hh) as [Hlt Hcb].
    split; [done|]. destruct cb as [s|]; [|done]. destruct Hcb as (Ht & ? & Hx). done.
  - intros b w Hwf. exact Hwf.
Qed.

(** ** A removed student stays removed *)

Lemma Forall_filter_keep {A} (P : A → Prop) (Q : A → Prop)
    `{!∀ x, Decision (Q x)} (l : list A) :
  Forall P l → Forall P (filter Q l).
Proof.
  rewrite !Forall_forall. intros HP x Hx.
  apply list_elem_of_filter in Hx as [_ Hx]. by apply HP.
Qed.

#[global] Instance gone_preserved id : Preserved (λ new, new ≠ id) (λ _, gone id).
Proof.
  split.
  - done.
  - done.
  - intros _ a d w (Hid & Ha & Hn & Ht & Harm) _ Hins.
    apply insert_attendance_Ok in Hins as (-> & Hfk & _).
    split; [done|]. split; [|done]. simpl.
    apply Forall_app. split; [done|]. apply Forall_singleton. by intros <-.
  - intros _ n d w (Hid & Ha & Hn & Ht & Harm) Hins.
    apply insert_notification_Ok in Hins as (-> & Hfk).
    split; [done|]. split; [done|]. split; [|done]. simpl.
    apply Forall_app. split; [done|]. apply Forall_singleton. by intros <-.
  - intros r d w Hg Hins. by apply insert_report_Ok in Hins as ->.
  - intros s d w (Hid & Ha & Hn & Ht & Harm) Hfresh Hins.
    apply insert_student_Ok in Hins as (-> & _).
    split; [|done]. unfold SQL.student_ids. simpl. rewrite fmap_app.
    intros [?|Hin%list_elem_of_singleton]%elem_of_app; [done|]. by apply Hfresh.
  - intros name card phone email class id' d w (Hid & Ha & Hn & Ht & Harm) Hupd.
    apply update_student_Ok in Hupd as (Hids & Hatt & Hnot & _).
    split; [by simpl; rewrite Hids|]. split; [by simpl; rewrite Hatt|].
    split; [by simpl; rewrite Hnot|]. done.
  - intros id' t w (Hid & Ha & Hn & Ht & Harm).
    split; [done|]. split; [done|]. split; [|done].
    simpl. apply Forall_fmap. eapply Forall_impl; [exact Hn|].
    intros n Hne. simpl. by case_bool_decide.
  - intros id' w (Hid & Ha & Hn & Ht & Harm).
    assert (gone id (set_db (SQL.delete_student id' (db w)).2 w)) as Hg.
    { split; [|split; [|split]].
      - intros Hin. by apply delete_student_ids in Hin as [? _].
      - simpl. by apply Forall_filter_keep.
      - simpl. by apply Forall_filter_keep.
      - done. }
    destruct (_ =? _)%Z; [done|].
    rewrite clearStudentTimer_run. simpl.
    destruct (timers w !! id') as [h|] eqn:Hid'; [|done].
    destruct Hg as (? & ? & ? & ? & ?).
    split; [done|]. split; [done|]. split; [done|]. split.
    + simpl. destruct (decide (id' = id)) as [->|];
        [by rewrite lookup_delete_eq|by rewrite lookup_delete_ne].
    + simpl. by apply map_Forall_delete.
  - intros id' w (Hid & Ha & Hn & Ht & Harm).
    rewrite clearStudentTimer_run.
    destruct (timers w !! id') as [h|] eqn:Hid'; [|done].
    split; [done|]. split; [done|]. split; [done|]. split.
    + simpl. destruct (decide (id' = id)) as [->|];
        [by rewrite lookup_delete_eq|by rewrite lookup_delete_ne].
    + simpl. by apply map_Forall_delete.
  - intros w (Hid & Ha & Hn & Ht & Harm).
    split; [by rewrite clearAllTimers_db|].
    split; [by rewrite clearAllTimers_db|].
    split; [by rewrite clearAllTimers_db|]. split.
    + rewrite clearAllTimers_run. simpl. apply lookup_empty.
    + intros h cb Hh. apply clearAllTimers_lookup in Hh as [Hh _].
      by apply (Harm h cb).
  - intros s w (Hid & Ha & Hn & Ht & Harm) Hs.
    assert (s_id s ≠ id) as Hne.
    { intros Heq. apply Hid. apply list_elem_of_fmap. eauto. }
    rewrite startAbsenceTimer_run.
    split; [done|]. split; [done|]. split; [done|]. split.
    + simpl. by rewrite lookup_insert_ne.
    + simpl. apply map_Forall_insert_2; [done|].
      destruct (timers w !! s_id s); [by apply map_Forall_delete|done].
  - intros w (Hid & Ha & Hn & Ht & Harm).
    split; [done|]. split; [done|]. split; [done|]. split; [done|].
    simpl. by apply map_Forall_insert_2.
  - intros h w (Hid & Ha & Hn & Ht & Harm).
    split; [done|]. split; [done|]. split; [done|]. split; [done|].
    simpl. by apply map_Forall_delete.
  - intros h s w (Hid & Ha & Hn & Ht & Harm) _.
    split; [done|]. split; [done|]. split; [done|]. split; [done|].
    simpl. by apply map_Forall_delete.
  - intros id' w (Hid & Ha & Hn & Ht & Harm).
    split; [done|]. split; [done|]. split; [done|]. split; [|done].
    simpl. destruct (decide (id' = id)) as [->|];
      [by rewrite lookup_delete_eq|by rewrite lookup_delete_ne].
  - done.
  - intros b w Hgone. exact Hgone.
Qed.

(** Removing a student of a well-formed state leaves no trace of it. *)
Lemma delete_students_gone id w :
  wf w → id ∈ SQL.student_ids (db w) → outages w = [] →
  (delete_students id w).1 = Success ∧ gone id (delete_students id w).2.
Proof.
  intros [Hdb Harm] Hin Ho.
  unfold delete_students, route, bind, update, pool_execute. rewrite Ho.
  cbn [tail]. 
  assert ((SQL.delete_student id (db w)).1 ≠ 0%Z) as Hz.
  { intros Hz. by apply delete_student_none in Hz. }
  destruct (SQL.delete_student id (db (set_outages [] w))) as [n d] eqn:Hdel.
  change (db (set_outages [] w)) with (db w) in Hdel. rewrite Hdel in Hz.
  simpl in Hz. apply Z.eqb_neq in Hz. rewrite Hz.
  pose proof (clearStudentTimer_total id (set_db d (set_outages [] w))) as Htot.
  pose proof (clearStudentTimer_run id (set_db d (set_outages [] w))) as Hrun.
  destruct (clearStudentTimer id _) as [r w']. simpl in Htot, Hrun. subst r.
  unfold ret. simpl. split; [done|]. subst w'.
  assert (d = (SQL.delete_student id (db w)).2) as -> by by rewrite Hdel.
  assert (id ∉ SQL.student_ids (SQL.delete_student id (db w)).2) as Hnotin.
  { intros Hx. by apply delete_student_ids in Hx as [_ ?]. }
  assert (Forall (λ a, a_student_id a ≠ id)
            (attendance (SQL.delete_student id (db w)).2)) as Hatt.
  { simpl. apply Forall_forall. intros a Ha.
    by apply list_elem_of_filter in Ha as [? _]. }
  assert (Forall (λ n, n_student_id n ≠ id)
            (notifications (SQL.delete_student id (db w)).2)) as Hnot.
  { simpl. apply Forall_forall. intros x Hx.
    by apply list_elem_of_filter in Hx as [? _]. }
  simpl timers. destruct (timers w !! id) as [h|] eqn:Hid.
  - split; [done|]. split; [done|]. split; [done|]. split.
    + simpl. apply lookup_delete_eq.
    + simpl. intros h' cb Hh'. apply lookup_delete_Some in Hh' as [Hne Hh'].
      destruct (armed_ok_lookup _ _ _ _ Harm Hh') as [_ Hcb].
      destruct cb as [s|]; [|done]. destruct Hcb as (Ht & _). congruence.
  - split; [done|]. split; [done|]. split; [done|]. split; [done|].
    simpl. intros h' cb Hh'.
    destruct (armed_ok_lookup _ _ _ _ Harm Hh') as [_ Hcb].
    destruct cb as [s|]; [|done]. destruct Hcb as (Ht & _). congruence.
Qed.

Lemma delete_students_missing id w :
  id ∉ SQL.student_ids (db w) → outages w = [] →
  (delete_students id w).1 = NotFound.
Proof.
  intros Hin Ho.
  unfold delete_students, route, bind, update, pool_execute. rewrite Ho.
  cbn [tail].
  destruct (SQL.delete_student id (db (set_outages [] w))) as [n d] eqn:Hdel.
  change (db (set_outages [] w)) with (db w) in Hdel.
  destruct (n =? 0)%Z eqn:Hz; [done|]. apply Z.eqb_neq in Hz.
  exfalso. apply Hin, delete_student_some. by rewrite Hdel.
Qed.

(** ** Running a handler while the store is reachable *)

Lemma set_outages_same w : outages w = [] → set_outages [] w = w.
Proof. destruct w. simpl. by intros ->. Qed.

Lemma pool_execute_up {A} (stmt : DB → Res (A * DB)) w :
  outages w = [] →
  pool_execute stmt w =
  match stmt (db w) with
  | Ok (a, d) => (Ok a, set_db d w)
  | Throw e => (Throw e, w)
  end.
Proof.
  intros Ho. unfold pool_execute. rewrite Ho. cbn [tail].
  by rewrite (set_outages_same w Ho).
Qed.

Lemma select_up {A} (q : DB → A) w :
  outages w = [] → select q w = (Ok (q (db w)), w).
Proof.
  intros Ho. unfold select. rewrite pool_execute_up by done. by rewrite set_db_db.
Qed.

Lemma insert_up (stmt : DB → Res DB) w :
  outages w = [] →
  insert stmt w =
  match stmt (db w) with
  | Ok d => (Ok tt, set_db d w)
  | Throw e => (Throw e, w)
  end.
Proof.
  intros Ho. unfold insert. rewrite pool_execute_up by done.
  by destruct (stmt (db w)).
Qed.

Lemma update_up {A} (stmt : DB → A * DB) w :
  outages w = [] →
  update stmt w = (Ok (stmt (db w)).1, set_db (stmt (db w)).2 w).
Proof.
  intros Ho. unfold update. rewrite pool_execute_up by done.
  by destruct (stmt (db w)).
Qed.

Lemma insert_attendance_fresh a d :
  a_id a ∉ (a_id <$> attendance d) → a_student_id a ∈ SQL.student_ids d →
  SQL.insert_attendance a d = Ok (set_attendance (attendance d ++ [a]) d).
Proof.
  intros Hid Hfk. unfold SQL.insert_attendance.
  rewrite bool_decide_eq_false_2 by done. by rewrite bool_decide_eq_true_2.
Qed.

Lemma insert_notification_fresh n d :
  n_id n ∉ (n_id <$> notifications d) → n_student_id n ∈ SQL.student_ids d →
  SQL.insert_notification n d = Ok (set_notifications (notifications d ++ [n]) d).
Proof.
  intros Hid Hfk. unfold SQL.insert_notification.
  rewrite bool_decide_eq_false_2 by done. by rewrite bool_decide_eq_true_2.
Qed.

(** X22.  The absence timer [h] of student [s] fires in a well-formed state
    with at most one mark per student and day, the process in UTC or at a
    fixed offset west of it, the store reachable and the generated ids
    unused.  If a mark for ([s], today) exists, the store is left as it was.
    Otherwise exactly one mark is appended, absent and auto-marked, and one
    pending notification is appended exactly when the streak of the
    specification, taken on the store that now has the mark, is at least 3;
    the notification carries that streak. *)
Theorem absence_expiry_writes e h s w :
  wf w → unique_marks (db w) → utc_or_west e → (curdate e ≤ today e + 1)%Z →
  timeouts w !! h = Some (AbsenceExpiry s) → faults e = [] →
  uuid1 e ∉ (a_id <$> attendance (db w)) →
  uuid2 e ∉ (n_id <$> notifications (db w)) →
  let w' := step w (e, Fire h) in
  let d1 := set_attendance (attendance (db w) ++ [absent_mark e s]) (db w) in
  let n := streak_spec d1 (s_id s) (today e) in
  match SQL.attendance_of (s_id s) (today e) (db w) with
  | _ :: _ => db w' = db w
  | [] =>
    a_status (absent_mark e s) = absent ∧ a_auto_marked (absent_mark e s) = true ∧
    n_status (absence_alert e s n) = pending ∧
    n_consecutive_absent_days (absence_alert e s n) = n ∧
    db w' = if (3 <=? n)%Z
            then set_notifications (notifications (db w) ++ [absence_alert e s n]) d1
            else d1
  end.
Proof.
  intros [Hdb Harm] Hu Hz Hcd Hh Hf Hu1 Hu2. simpl.
  destruct (armed_ok_lookup _ _ _ _ Harm Hh) as [_ (_ & Hin & _)].
  unfold step, fire. cbn [fst snd]. rewrite Hf. cbn [timeouts set_outages]. rewrite Hh.
  unfold absence_expired, try_catch, bind.
  rewrite select_up by done. cbn [db set_timeouts set_outages].
  destruct (SQL.attendance_of (s_id s) (today e) (db w)) eqn:Hex; [|done].
  split; [done|]. split; [done|]. split; [done|]. split; [done|].
  rewrite insert_up by done. cbn [db set_timeouts set_outages].
  rewrite (insert_attendance_fresh (absent_mark e s)) by done.
  destruct Hz as (c & Hb & Hc).
  rewrite (checkConsecutiveAbsences_fixed e c); [| done | lia | | done].
  2:{ unfold unique_marks in *. cbn [db set_db attendance set_attendance].
      rewrite fmap_app. apply NoDup_app. split; [done|].
      split; [|apply NoDup_singleton].
      intros k Hk Hk'. apply list_elem_of_singleton in Hk'. subst k.
      by eapply attendance_of_nil_key. }
  unfold read_early. rewrite (proj2 (Z.ltb_ge 0 c)) by lia. rewrite Z.add_0_r.
  cbn [outages set_db set_timeouts set_outages fst snd db tail].
  destruct (3 <=? _)%Z.
  - rewrite insert_up by done. cbn [db set_db set_timeouts set_outages].
    rewrite (insert_notification_fresh (absence_alert e s _)) by done.
    done.
  - done.
Qed.

(** ** The day tick *)

Lemma forEach_cons_run {A} (f : A → M unit) x l w :
  (f x w).1 = Ok tt → forEach f (x :: l) w = forEach f l (f x w).2.
Proof.
  simpl. unfold bind. destruct (f x w) as [r w1]. simpl. by intros ->.
Qed.

Lemma absence_timeouts_insert s (h : nat) (T : gmap nat Callback) :
  T !! h = None →
  size (filter (λ p : nat * Callback, is_absence p.2 = true) (<[h := AbsenceExpiry s]> T)) =
  S (size (filter (λ p : nat * Callback, is_absence p.2 = true) T)).
Proof.
  intros Hh. rewrite map_filter_insert_True by done.
  apply map_size_insert_None. apply map_lookup_filter_None. by left.
Qed.

(** Arming a list of students none of whom has a timer yet. *)
Lemma arm_all l w :
  NoDup (s_id <$> l) →
  (∀ s, s ∈ l → timers w !! s_id s = None) →
  (∀ h, is_Some (timeouts w !! h) → h < next_handle w) →
  let w' := (forEach startAbsenceTimer l w).2 in
  db w' = db w ∧
  next_handle w ≤ next_handle w' ∧
  (∀ h, is_Some (timeouts w' !! h) → h < next_handle w') ∧
  (∀ h, h < next_handle w → timeouts w' !! h = timeouts w !! h) ∧
  (∀ id, id ∉ (s_id <$> l) → timers w' !! id = timers w !! id) ∧
  (∀ s, s ∈ l → ∃ h, timers w' !! s_id s = Some h ∧
                     timeouts w' !! h = Some (AbsenceExpiry s)) ∧
  size (timers w') = size (timers w) + length l ∧
  size (absence_timeouts w') = size (absence_timeouts w) + length l.
Proof.
  revert w. induction l as [|s l IH]; intros w Hnd Hnone Hfresh.
  { simpl. repeat split; try done; try lia. intros s Hs. by apply elem_of_nil in Hs. }
  rewrite fmap_cons in Hnd. apply NoDup_cons in Hnd as [Hs Hnd].
  cbn zeta. rewrite forEach_cons_run by apply startAbsenceTimer_total.
  pose proof (startAbsenceTimer_run s w) as Hrun.
  rewrite (Hnone s) in Hrun by left.
  assert (timeouts w !! next_handle w = None) as Hnew.
  { apply eq_None_not_Some. intros Hsome%Hfresh. lia. }
  set (w1 := (startAbsenceTimer s w).2) in *.
  destruct (IH w1) as (Hdb & Hnext & Hlt & Hold & Hother & Hall & Hsz & Hsza).
  - done.
  - intros s' Hs'. rewrite Hrun. simpl.
    rewrite lookup_insert_ne; [apply Hnone; by right|].
    intros Heq. apply Hs. rewrite Heq. apply list_elem_of_fmap. eauto.
  - intros h. rewrite Hrun. simpl. intros Hsome.
    destruct (decide (h = next_handle w)) as [->|Hne]; [lia|].
    rewrite lookup_insert_ne in Hsome by done. apply Hfresh in Hsome. lia.
  - assert (next_handle w1 = S (next_handle w)) as Hn1 by by rewrite Hrun.
    split; [by rewrite Hdb, Hrun|]. split; [lia|]. split; [done|].
    split; [|split; [|split; [|split]]].
    + intros h Hh. rewrite Hold by lia. rewrite Hrun. simpl.
      rewrite lookup_insert_ne by lia. done.
    + intros id Hid. rewrite fmap_cons in Hid. apply not_elem_of_cons in Hid as [? ?].
      rewrite Hother by done. rewrite Hrun. simpl. by rewrite lookup_insert_ne.
    + intros s' [->|Hs']%elem_of_cons; [|by apply Hall].
      exists (next_handle w). split.
      * rewrite Hother by done. rewrite Hrun. simpl. apply lookup_insert_eq.
      * rewrite Hold by lia. rewrite Hrun. simpl. apply lookup_insert_eq.
    + rewrite Hsz. rewrite Hrun. simpl.
      rewrite map_size_insert_None by (apply Hnone; left). lia.
    + rewrite Hsza. unfold absence_timeouts. rewrite Hrun. simpl.
      rewrite absence_timeouts_insert by done. lia.
Qed.

Lemma forEach_startAbsenceTimer_total l w :
  (forEach startAbsenceTimer l w).1 = Ok tt.
Proof.
  revert w. induction l as [|s l IH]; intros w; [done|].
  rewrite forEach_cons_run by apply startAbsenceTimer_total. apply IH.
Qed.

Lemma forEach_startAbsenceTimer_frame l w :
  outages (forEach startAbsenceTimer l w).2 = outages w ∧
  dayTimer (forEach startAbsenceTimer l w).2 = dayTimer w.
Proof.
  revert w. induction l as [|s l IH]; intros w; [done|].
  rewrite forEach_cons_run by apply startAbsenceTimer_total.
  destruct (IH (startAbsenceTimer s w).2) as [-> ->].
  by rewrite startAbsenceTimer_run.
Qed.

Lemma clearAllTimers_outages w : outages (clearAllTimers w).2 = outages w.
Proof. by rewrite clearAllTimers_run. Qed.

Lemma startNewDay_run w :
  outages w = [] →
  startNewDay w =
  let wa := (clearAllTimers w).2 in
  let wb := (forEach startAbsenceTimer (students (db wa)) wa).2 in
  (Ok tt,
   set_dayTimer (Some (next_handle wb))
     (set_next_handle (S (next_handle wb))
        (set_timeouts (<[next_handle wb := DayRollover]> (timeouts wb)) wb))).
Proof.
  intros Ho. unfold startNewDay, bind.
  pose proof (clearAllTimers_total w) as Htot.
  pose proof (clearAllTimers_outages w) as Hoa. rewrite Ho in Hoa.
  destruct (clearAllTimers w) as [r wa]. simpl in *. subst r.
  rewrite select_up by done.
  pose proof (forEach_startAbsenceTimer_total (students (db wa)) wa) as Htot.
  destruct (forEach startAbsenceTimer (students (db wa)) wa) as [r wb].
  simpl in *. by subst r.
Qed.

(** With the store reachable the day restart is not rejected. *)
Lemma startNewDay_unhandled w :
  outages w = [] → unhandled (startNewDay w) = (startNewDay w).2.
Proof. intros Ho. by rewrite startNewDay_run. Qed.

(** A day restart from a well-formed state, the store being reachable. *)
Lemma startNewDay_rearms w :
  wf w → outages w = [] →
  let w' := (startNewDay w).2 in
  db w' = db w ∧
  (∀ h s, timeouts w !! h = Some (AbsenceExpiry s) → timeouts w' !! h = None) ∧
  size (timers w') = length (students (db w)) ∧
  size (absence_timeouts w') = length (students (db w)) ∧
  (∀ s, s ∈ students (db w) →
        ∃ h, timers w' !! s_id s = Some h ∧
             timeouts w' !! h = Some (AbsenceExpiry s)).
Proof.
  intros [Hdb Harm] Ho. rewrite startNewDay_run by done. cbn zeta.
  pose proof (clearAllTimers_lookup w) as Hlook.
  pose proof (clearAllTimers_run w) as Hrun.
  set (wa := (clearAllTimers w).2) in *.
  assert (db wa = db w) as Hdba by by rewrite Hrun.
  assert (timers wa = ∅) as Hta by by rewrite Hrun.
  assert (next_handle wa = next_handle w) as Hna by by rewrite Hrun.
  assert (∀ h cb, timeouts wa !! h = Some cb →
                  cb = DayRollover ∧ h < next_handle w ∧ timeouts w !! h = Some cb)
    as Hrest.
  { intros h cb Hh. apply Hlook in Hh as [Hh Hreg].
    destruct (armed_ok_lookup _ _ _ _ Harm Hh) as [Hlt Hcb]. split; [|done].
    destruct cb as [s|]; [|done]. destruct Hcb as (Ht & _). by destruct (Hreg (s_id s)). }
  clear Hlook Hrun.
  destruct (arm_all (students (db wa)) wa)
    as (Hdbb & Hnext & Hlt & Hold & Hother & Hall & Hsz & Hsza).
  { rewrite Hdba. by destruct Hdb. }
  { intros s _. rewrite Hta. apply lookup_empty. }
  { intros h [cb Hh]. rewrite Hna. by apply Hrest in Hh as (_ & ? & _). }
  set (wb := (forEach startAbsenceTimer (students (db wa)) wa).2) in *.
  simpl.
  assert (size (absence_timeouts wa) = 0) as Hz.
  { unfold absence_timeouts.
    replace (filter _ (timeouts wa)) with (∅ : gmap nat Callback);
      [apply map_size_empty|].
    symmetry. apply map_empty. intros h. apply map_lookup_filter_None.
    destruct (timeouts wa !! h) as [cb|] eqn:Hh; [right|by left].
    intros x [= <-]. apply Hrest in Hh as [-> _]. done. }
  assert (timeouts wb !! next_handle wb = None) as Hnew.
  { apply eq_None_not_Some. intros Hsome%Hlt. lia. }
  split; [congruence|]. split; [|split; [|split]].
  - intros h s Hh.
    destruct (armed_ok_lookup _ _ _ _ Harm Hh) as [Hhlt _].
    rewrite lookup_insert_ne by lia. rewrite Hold by lia.
    destruct (timeouts wa !! h) as [cb|] eqn:Hha; [|done].
    apply Hrest in Hha as (-> & _ & Hha). congruence.
  - rewrite Hsz, Hta, map_size_empty, Hdba. done.
  - unfold absence_timeouts in *. simpl.
    rewrite map_filter_insert_False by done. rewrite delete_id by done.
    rewrite Hsza, Hz, Hdba. done.
  - intros s Hs. rewrite <- Hdba in Hs. destruct (Hall s Hs) as (h & Ht & Hh).
    exists h. split; [done|]. rewrite lookup_insert_ne; [done|].
    intros <-. congruence.
Qed.

(** C6.  The day timer [h] fires in a well-formed state, the store being
    reachable.  Every absence timer that was armed before is no longer
    armed; [timerManager.timers] has as many entries as the roster has
    students, and so has the set of armed absence timers; every student of
    the roster has an entry whose handle is armed with that student's
    expiry. *)
Theorem day_tick e h w :
  wf w → timeouts w !! h = Some DayRollover → faults e = [] →
  let w' := step w (e, Fire h) in
  (∀ h' s, timeouts w !! h' = Some (AbsenceExpiry s) → timeouts w' !! h' = None) ∧
  getActiveTimersCount w' = length (students (db w)) ∧
  size (absence_timeouts w') = length (students (db w)) ∧
  (∀ s, s ∈ students (db w) →
        ∃ h', timers w' !! s_id s = Some h' ∧
              timeouts w' !! h' = Some (AbsenceExpiry s)).
Proof.
  intros Hwf Hh Hf. cbn zeta.
  unfold step, fire. cbn [fst snd]. rewrite Hf. cbn [timeouts set_outages]. rewrite Hh.
  set (w0 := set_timeouts (delete h (timeouts w)) (set_outages [] w)).
  assert (wf w0) as Hwf0.
  { unfold w0, wf. apply (pres_fire (I := wf_during) h (set_outages [] w)).
    apply (pres_outages (I := wf_during)). exact Hwf. }
  rewrite (startNewDay_unhandled w0 eq_refl).
  destruct (startNewDay_rearms w0 Hwf0 eq_refl) as (_ & Hold & Hsz & Hsza & Hall).
  split; [|done].
  intros h' s Hh'. apply (Hold h' s). simpl.
  rewrite lookup_delete_ne; [done|]. intros <-. congruence.
Qed.



(** ** The outcome of an expiry: either the entry goes or an error is logged. *)

(** X2.  The expiry callback of an absence timer, whatever the store does:
    either no error is logged and the student's entry is removed from
    [timerManager.timers], or exactly one error is logged and
    [timerManager.timers] is left as it was. *)
Lemma absence_expired_outcome e s w :
  let w' := (absence_expired e s w).2 in
  (console_error w' = console_error w ∧
   timers w' = delete (s_id s) (timers w)) ∨
  (∃ err, console_error w' = console_error w ++ [err] ∧ timers w' = timers w).
Proof.
  cbn zeta.
  set (K := λ w', console_error w' = console_error w ∧ timers w' = timers w).
  set (Good := λ w', console_error w' = console_error w ∧
                     timers w' = delete (s_id s) (timers w)).
  set (Bad := λ w', ∃ err, console_error w' = console_error w ++ [err] ∧
                           timers w' = timers w).
  assert (wp (absence_expired e s) (λ _ w', Good w' ∨ Bad w') (λ _, False) w) as Hwp.
  { unfold absence_expired. apply wp_try_catch.
    assert (∀ w', K w' → ∀ err, wp (console_error_log err)
                                   (λ _ w'', Good w'' ∨ Bad w'') (λ _, False) w')
      as Hcatch.
    { intros w' [Hc Ht] err. apply wp_modify. right. exists err. simpl.
      by rewrite Hc, Ht. }
    assert (∀ w' o, K w' → K (set_outages o w')) as Ko by done.
    assert (∀ w' d, K w' → K (set_db d w')) as Kd by done.
    assert (∀ w', K w' → wp (modify (λ w0, set_timers (delete (s_id s) (timers w0)) w0))
                            (λ _ w'', Good w'' ∨ Bad w'')
                            (λ w'', ∀ err, wp (console_error_log err)
                                   (λ _ w''', Good w''' ∨ Bad w''') (λ _, False) w'') w')
      as Hend.
    { intros w' [Hc Ht]. apply wp_modify. left. split; simpl; congruence. }
    assert (K w) as HK by done.
    apply wp_bind, wp_select; intros o; [by apply Hcatch, Ko|].
    destruct (SQL.attendance_of _ _ _).
    - apply wp_bind, wp_bind, wp_insert; intros o'; [by apply Hcatch, Ko, Ko|].
      intros d _. unfold checkConsecutiveAbsences.
      apply wp_bind, wp_bind, wp_select; intros o''; [by apply Hcatch, Ko, Kd, Ko, Ko|].
      apply wp_ret. case_match.
      + apply wp_insert; intros o'''; [by apply Hcatch, Ko, Ko, Kd, Ko, Ko|].
        intros d' _. by apply Hend, Kd, Ko, Ko, Kd, Ko, Ko.
      + apply wp_ret. by apply Hend, Ko, Kd, Ko, Ko.
    - apply wp_bind, wp_ret. by apply Hend, Ko. }
  unfold wp in Hwp. by destruct (absence_expired e s w) as [[?|?] ?].
Qed.

(** ** Removal *)

(** C8.  Removing a student from a well-formed state, the store being
    reachable: 404 when no student has the id; otherwise the removal
    succeeds, and after it and after any further run of handlers in which no
    added student is given the same id again, the student has no row, no mark, no
    notification, no entry in [timerManager.timers] and no armed absence
    timer.  In particular no absence mark is ever written for it. *)
Theorem remove_person e id w trace :
  wf w → faults e = [] → Forall (λ ev, new_student_id ev ≠ Some id) trace →
  let r := delete_students id (set_outages (faults e) w) in
  if bool_decide (id ∈ SQL.student_ids (db w))
  then r.1 = Success ∧ gone id (run (step w (e, DeleteStudents id)) trace)
  else r.1 = NotFound.
Proof.
  intros Hwf Hf Htrace. cbn zeta. rewrite Hf. case_bool_decide as Hin.
  - destruct (delete_students_gone id (set_outages [] w)) as [Hr Hg]; [done..|].
    split; [done|].
    apply (run_preserved (I := λ _, gone id)).
    + eapply Forall_impl; [exact Htrace|]. intros ev Hev id' Hid' ->. done.
    + unfold step. cbn [fst snd]. by rewrite Hf.
  - by apply delete_students_missing.
Qed.

(** C1, as amended.  The handlers keep at most one mark per (student, date):
    if the store has that property, it has it after any run of handlers,
    each running to completion.  Every writer reads before it inserts; the
    store itself only rejects a row id that is taken or a student id that is
    unknown ([insert_attendance_fresh]). *)
Theorem unique_marks_run w trace :
  unique_marks (db w) → unique_marks (db (run w trace)).
Proof.
  intros Hu.
  apply (run_preserved (I := λ _ w, unique_marks (db w)) trace w); [|done].
  by apply Forall_forall.
Qed.

(** Well-formedness is an invariant of the server. *)
Theorem wf_run w trace : wf w → wf (run w trace).
Proof.
  intros Hwf. apply (run_preserved (I := wf_during) trace w); [|done].
  by apply Forall_forall.
Qed.

Lemma wf_boot d : db_ok d → wf (boot d).
Proof. intros Hdb. split; [done|]. apply map_Forall_empty. Qed.

Lemma wf_startDaySystem e d : db_ok d → wf (startDaySystem e d).
Proof.
  intros Hdb. unfold startDaySystem.
  pose proof (wp_startNewDay (I := wf_during) (set_outages (faults e) (boot d))) as Hwp.
  unfold wp in Hwp. destruct (startNewDay _) as [[?|?] ?]; by apply Hwp, wf_boot.
Qed.

(** ** The daily report *)

Lemma count_or_zero_by_status st date d :
  count_or_zero st (SQL.attendance_by_status date d) = SQL.count_status st date d.
Proof.
  unfold count_or_zero, SQL.attendance_by_status.
  assert (∀ st', (0 ≤ SQL.count_status st' date d)%Z) as Hnn
    by (intros; unfold SQL.count_status; lia).
  pose proof (Hnn present). pose proof (Hnn absent).
  rewrite !filter_cons, filter_nil. simpl.
  destruct (SQL.count_status present date d) eqn:Hp;
    destruct (SQL.count_status absent date d) eqn:Ha;
    destruct st; simpl; try done; try lia.
Qed.

Lemma reports_of_nil_date date d :
  SQL.reports_of date d = [] → date ∉ (r_date <$> daily_reports d).
Proof.
  intros Hnil Hin. apply list_elem_of_fmap in Hin as (r & -> & Hr).
  assert (r ∈ SQL.reports_of (r_date r) d) as Hf by by apply list_elem_of_filter.
  rewrite Hnil in Hf. by apply elem_of_nil in Hf.
Qed.


(** ** Concrete runs *)

Lemma db_ok_roster : db_ok Ex.roster.
Proof. by_decide. Qed.

Lemma wf_day10 : wf Ex.day10.
Proof. apply wf_startDaySystem, db_ok_roster. Qed.

Lemma utc_or_west_env date u1 u2 f : utc_or_west (Ex.env date u1 u2 f).
Proof. exists 0%Z. split; [unfold JSDate.msPerDay; lia|done]. Qed.

Lemma east_of_utc_kigali date u1 u2 f :
  east_of_utc (Ex.env_in Ex.kigali date u1 u2 f).
Proof. exists 7200000%Z. split; [unfold JSDate.msPerDay; lia|done]. Qed.

(** X21 on Alice's three absences. *)
Lemma evaluator_is_streak_spec_witness :
  unique_marks (db (boot Ex.three_absences)) ∧
  (curdate (Ex.env 10 "" "" []) ≤ today (Ex.env 10 "" "" []) + 1)%Z ∧
  checkConsecutiveAbsences (Ex.env 10 "" "" []) "s-alice" (boot Ex.three_absences) =
  (Ok (streak_spec Ex.three_absences "s-alice" 10), boot Ex.three_absences).
Proof.
  assert (unique_marks (db (boot Ex.three_absences))) as H1
    by by_decide.
  assert (curdate (Ex.env 10 "" "" []) ≤ today (Ex.env 10 "" "" []) + 1)%Z as H2
    by (simpl; lia).
  exact (conj H1 (conj H2
    (evaluator_is_streak_spec (Ex.env 10 "" "" []) "s-alice"
       (boot Ex.three_absences) (utc_or_west_env 10 "" "" []) H1 H2))).
Defined.

(** X23 in Kigali: Alice checked in on day 10, and the evaluator, which
    reads her mark under day 9, counts day 10. *)
Lemma evaluator_east_of_utc_witness :
  (checkConsecutiveAbsences (Ex.env_in Ex.kigali 10 "" "" []) "s-alice"
     (boot Ex.checked_in)).1 = Ok (streak_spec Ex.checked_in "s-alice" 11) ∧
  streak_spec Ex.checked_in "s-alice" 11 = 1%Z.
Proof.
  assert (unique_marks (db (boot Ex.checked_in))) as H1 by by_decide.
  assert (curdate (Ex.env_in Ex.kigali 10 "" "" []) ≤
          today (Ex.env_in Ex.kigali 10 "" "" []) + 1)%Z as H2 by (simpl; lia).
  split; [|reflexivity].
  exact (evaluator_east_of_utc (Ex.env_in Ex.kigali 10 "" "" []) "s-alice"
           (boot Ex.checked_in) (east_of_utc_kigali 10 "" "" []) H1 H2 eq_refl).
Defined.

(** C4 fails on the code.  In a process east of UTC the DATE of a mark,
    read back as a [Date] at local midnight, falls on the UTC day before:
    Alice's present mark of day 10 is looked up under day 9, so day 10 counts
    as absent and the evaluator returns 1 where the streak is 0.  With a
    present mark on day 8 and absent marks on days 9 and 10 it returns 3
    where the streak is 2. *)
Theorem evaluator_reads_marks_a_day_early :
  statuses_on Ex.checked_in "s-alice" 10 = [present] ∧
  streak_spec Ex.checked_in "s-alice" 10 = 0%Z ∧
  (checkConsecutiveAbsences (Ex.env_in Ex.kigali 10 "" "" []) "s-alice"
     (boot Ex.checked_in)).1 = Ok 1%Z ∧
  streak_spec Ex.absent_since_present "s-alice" 10 = 2%Z ∧
  (checkConsecutiveAbsences (Ex.env_in Ex.kigali 10 "" "" []) "s-alice"
     (boot Ex.absent_since_present)).1 = Ok 3%Z.
Proof. repeat split; by vm_compute. Qed.

(** The same reading across a change of offset: in New York on 2026-11-02
    (day 20759) the step back from local 2026-11-01 19:00 lands on
    2026-10-31 23:00 UTC, so the walk visits days 20759, 20757, 20756, 20755
    and 20754 and never looks at 2026-11-01: with a present mark on that day
    the evaluator returns 5 where the streak is 1. *)
Lemma evaluator_skips_a_day_in_new_york :
  JSDate.toISODate
    (JSDate.setDate_prev Ex.new_york_2026 (JSDate.parse_date_only 20759)) = 20757%Z ∧
  streak_spec Ex.present_on_nov_1 "s-alice" 20759 = 1%Z ∧
  (checkConsecutiveAbsences (Ex.env_in Ex.new_york_2026 20759 "" "" []) "s-alice"
     (boot Ex.present_on_nov_1)).1 = Ok 5%Z.
Proof. repeat split; by vm_compute. Qed.

(** C5 as stated fails: with absent marks on the three days before day 10
    and nothing else on record, day 6 has no mark either and counts, so the
    streak is 5, not 4. *)
Lemma three_absences_give_five :
  statuses_on Ex.three_absences "s-alice" 10 = [] ∧
  statuses_on Ex.three_absences "s-alice" 9 = [absent] ∧
  statuses_on Ex.three_absences "s-alice" 8 = [absent] ∧
  statuses_on Ex.three_absences "s-alice" 7 = [absent] ∧
  (checkConsecutiveAbsences (Ex.env 10 "" "" []) "s-alice"
     (boot Ex.three_absences)).1 = Ok 5%Z ∧
  (checkConsecutiveAbsences (Ex.env 10 "" "" []) "s-alice"
     (boot Ex.three_absences)).1 ≠ Ok 4%Z.
Proof. repeat split; try by vm_compute. Qed.

(** C5, second scenario, on concrete data. *)
Lemma streak_scenarios_witness :
  outages (boot Ex.present_two_days_ago) = [] ∧
  (curdate (Ex.env 10 "" "" []) ≤ today (Ex.env 10 "" "" []) + 1)%Z ∧
  statuses_on Ex.present_two_days_ago "s-alice" 10 = [] ∧
  statuses_on Ex.present_two_days_ago "s-alice" 9 = [absent] ∧
  statuses_on Ex.present_two_days_ago "s-alice" 8 = [present] ∧
  (checkConsecutiveAbsences (Ex.env 10 "" "" []) "s-alice"
     (boot Ex.present_two_days_ago)).1 = Ok 2%Z.
Proof.
  assert (curdate (Ex.env 10 "" "" []) ≤ today (Ex.env 10 "" "" []) + 1)%Z as H2
    by (simpl; lia).
  assert (statuses_on Ex.present_two_days_ago "s-alice" 8 = [present]) as H5
    by reflexivity.
  exact (conj eq_refl (conj H2 (conj eq_refl (conj eq_refl (conj H5
    (proj2 (streak_scenarios (Ex.env 10 "" "" []) "s-alice"
              (boot Ex.present_two_days_ago) (utc_or_west_env 10 "" "" [])
              eq_refl H2 eq_refl eq_refl) H5)))))).
Defined.

(** C2 fails on the code.  Whichever of the four store calls of the expiry
    fails (existence check, mark insert, streak query, notification insert),
    the error is logged but [this.timers.delete(student.id)] (line 228, inside
    the [try]) is skipped: the entry of the fired timer stays in
    [timerManager.timers], which then counts 2 timers while 1 is armed. *)
Theorem expiry_error_leaves_timer_entry :
  stale_after [true] ∧ stale_after [false; true] ∧
  stale_after [false; false; true] ∧ stale_after [false; false; false; true].
Proof. repeat split; by vm_compute. Qed.

(** X22 on Alice's timer after start: no history, so the streak is 5 and a
    notification is queued. *)
Lemma absence_expiry_writes_witness :
  wf Ex.day10 ∧
  timeouts Ex.day10 !! 0 = Some (AbsenceExpiry Ex.alice) ∧
  db (step Ex.day10 (Ex.env 10 "a1" "n1" [], Fire 0)) =
    set_notifications [absence_alert (Ex.env 10 "a1" "n1" []) Ex.alice 5]
      (set_attendance [absent_mark (Ex.env 10 "a1" "n1" []) Ex.alice] Ex.roster).
Proof.
  assert (unique_marks (db Ex.day10)) as H1 by by_decide.
  assert (curdate (Ex.env 10 "a1" "n1" []) ≤ today (Ex.env 10 "a1" "n1" []) + 1)%Z
    as H3 by (simpl; lia).
  assert (timeouts Ex.day10 !! 0 = Some (AbsenceExpiry Ex.alice)) as H2
    by reflexivity.
  assert ("a1" ∉ a_id <$> attendance (db Ex.day10)) as H4
    by exact (not_elem_of_nil "a1").
  assert ("n1" ∉ n_id <$> notifications (db Ex.day10)) as H5
    by exact (not_elem_of_nil "n1").
  split; [exact wf_day10|]. split; [exact H2|].
  pose proof (absence_expiry_writes (Ex.env 10 "a1" "n1" []) 0 Ex.alice Ex.day10
                wf_day10 H1 (utc_or_west_env 10 "a1" "n1" []) H3 H2 eq_refl H4 H5)
    as H.
  cbn zeta in H.
  change (SQL.attendance_of (s_id Ex.alice) (today (Ex.env 10 "a1" "n1" []))
            (db Ex.day10)) with (@nil AttendanceRow) in H.
  destruct H as (_ & _ & _ & _ & Hdb).
  rewrite Hdb. reflexivity.
Defined.

(** C3 fails on the code, by the defect of the evaluator.  In Kigali, Alice
    was present on day 8 and absent on day 9, and her timer fires on day 10.
    The mark of day 10 is written, absent and auto-marked, and the streak on
    the store that has it is 2; the evaluator, reading each mark a day early,
    returns 3, and a notification carrying 3 is queued. *)
Theorem expiry_alerts_after_two_absences :
  timeouts Ex.day10_after_one_absence !! 0 = Some (AbsenceExpiry Ex.alice) ∧
  attendance (db (step Ex.day10_after_one_absence
                    (Ex.env_in Ex.kigali 10 "a1" "n1" [], Fire 0))) =
    attendance Ex.present_then_absent ++
      [absent_mark (Ex.env_in Ex.kigali 10 "a1" "n1" []) Ex.alice] ∧
  streak_spec (db (step Ex.day10_after_one_absence
                     (Ex.env_in Ex.kigali 10 "a1" "n1" [], Fire 0)))
    "s-alice" 10 = 2%Z ∧
  notifications (db (step Ex.day10_after_one_absence
                       (Ex.env_in Ex.kigali 10 "a1" "n1" [], Fire 0))) =
    [absence_alert (Ex.env_in Ex.kigali 10 "a1" "n1" []) Ex.alice 3].
Proof. repeat split; by vm_compute. Qed.

(** C6 on the first day tick of the two-student roster. *)
Lemma day_tick_witness :
  wf Ex.day10 ∧ timeouts Ex.day10 !! 2 = Some DayRollover ∧
  getActiveTimersCount (step Ex.day10 (Ex.env 11 "" "" [], Fire 2)) = 2 ∧
  size (absence_timeouts (step Ex.day10 (Ex.env 11 "" "" [], Fire 2))) = 2 ∧
  timeouts (step Ex.day10 (Ex.env 11 "" "" [], Fire 2)) !! 0 = None ∧
  timeouts (step Ex.day10 (Ex.env 11 "" "" [], Fire 2)) !! 1 = None.
Proof.
  assert (timeouts Ex.day10 !! 2 = Some DayRollover) as H2 by reflexivity.
  destruct (day_tick (Ex.env 11 "" "" []) 2 Ex.day10 wf_day10 H2 eq_refl)
    as (Hold & Hn & Hna & _).
  split; [exact wf_day10|]. split; [exact H2|].
  split; [exact Hn|]. split; [exact Hna|]. split.
  - exact (Hold 0 Ex.alice eq_refl).
  - exact (Hold 1 Ex.bob eq_refl).
Defined.



(** C8: Alice is removed while her timer is armed; both old handles fire,
    a third student is added, and the day tick and a timer of the next day
    fire. *)
Lemma remove_person_witness :
  wf Ex.day10 ∧
  (delete_students "s-alice" Ex.day10).1 = Success ∧
  gone "s-alice"
    (run (step Ex.day10 (Ex.env 10 "" "" [], DeleteStudents "s-alice"))
         [(Ex.env 10 "a1" "n1" [], Fire 0); (Ex.env 10 "a2" "n2" [], Fire 1);
          (Ex.env 10 "s-carol" "" [], PostStudents Ex.carol);
          (Ex.env 11 "" "" [], Fire 2); (Ex.env 11 "a3" "n3" [], Fire 3)]).
Proof.
  assert (Forall (λ ev : Env * Event, new_student_id ev ≠ Some "s-alice")
            [(Ex.env 10 "a1" "n1" [], Fire 0); (Ex.env 10 "a2" "n2" [], Fire 1);
             (Ex.env 10 "s-carol" "" [], PostStudents Ex.carol);
             (Ex.env 11 "" "" [], Fire 2); (Ex.env 11 "a3" "n3" [], Fire 3)]) as H3.
  { repeat constructor; by vm_compute. }
  pose proof (remove_person (Ex.env 10 "" "" []) "s-alice" Ex.day10 _
                wf_day10 eq_refl H3) as H.
  cbn zeta in H.
  change (bool_decide ("s-alice" ∈ SQL.student_ids (db Ex.day10))) with true in H.
  cbn iota in H. destruct H as [Hr Hg].
  split; [exact wf_day10|]. split; [exact Hr|exact Hg].
Defined.

(** C1 as stated fails: the store accepts a second mark for Alice on day 10
    (a different row id), and then holds two marks for that day. *)
Lemma store_accepts_second_mark :
  SQL.attendance_of "s-alice" 10 Ex.checked_in =
    [Ex.mark "m1" Ex.alice 10 present false] ∧
  SQL.insert_attendance (Ex.mark "m2" Ex.alice 10 absent true) Ex.checked_in =
    Ok (set_attendance [Ex.mark "m1" Ex.alice 10 present false;
                        Ex.mark "m2" Ex.alice 10 absent true] Ex.checked_in) ∧
  (insert (SQL.insert_attendance (Ex.mark "m2" Ex.alice 10 absent true))
     (boot Ex.checked_in)).1 = Ok tt ∧
  ¬ unique_marks
      (set_attendance [Ex.mark "m1" Ex.alice 10 present false;
                       Ex.mark "m2" Ex.alice 10 absent true] Ex.checked_in).
Proof.
  split; [reflexivity|]. split; [reflexivity|]. split; [reflexivity|].
  apply (bool_decide_unpack (¬ unique_marks _)). vm_compute. exact I.
Qed.

(** C1, as amended, on a run with two check-ins of the same card, both
    expiries and a manual absence. *)
Lemma unique_marks_run_witness :
  unique_marks (db Ex.day10) ∧
  unique_marks
    (db (run Ex.day10
           [(Ex.env 10 "a1" "" [], PostAttendanceRecord (Some "C1"));
            (Ex.env 10 "a2" "" [], PostAttendanceRecord (Some "C1"));
            (Ex.env 10 "a3" "n3" [], Fire 0);
            (Ex.env 10 "a4" "n4" [], Fire 1);
            (Ex.env 10 "a5" "" [], PostManualAbsent "s-bob")])).
Proof.
  assert (unique_marks (db Ex.day10)) as H1 by by_decide.
  exact (conj H1 (unique_marks_run Ex.day10 _ H1)).
Defined.


(** The rate is computed in binary64: 23 present of 40 is 57.49999999999999
    there, and rounds to 57. *)
Example rate_23_of_40 : attendanceRate 23 40 = 57%Z.
Proof. vm_compute. reflexivity. Qed.

Example rate_empty_roster : attendanceRate 0 0 = 0%Z.
Proof. reflexivity. Qed.

(** * Further properties *)


(** ** The keys of the roster are kept by every handler *)

Lemma insert_student_Ok_card s d d' :
  SQL.insert_student s d = Ok d' → s_card_id s ∉ (s_card_id <$> students d).
Proof.
  unfold SQL.insert_student. repeat case_bool_decide; naive_solver.
Qed.

Lemma update_student_cards name card phone email class id l :
  NoDup (s_id <$> l) → NoDup (s_card_id <$> l) →
  (∀ s, s ∈ l → s_card_id s = card → s_id s = id) →
  NoDup (s_card_id <$>
           ((λ s, if bool_decide (s_id s = id)
                  then {| s_id := id; s_name := name; s_card_id := card;
                          s_parent_phone := phone; s_parent_email := email;
                          s_class := class |}
                  else s) <$> l)).
Proof.
  induction l as [|x l IH]; intros Hids Hcards Hconf; [constructor|].
  rewrite !fmap_cons in *.
  apply NoDup_cons in Hids as [Hx Hids]. apply NoDup_cons in Hcards as [Hcx Hcards].
  apply NoDup_cons. split.
  - intros Hin. apply list_elem_of_fmap in Hin as (y' & Heq & Hy').
    apply list_elem_of_fmap in Hy' as (y & -> & Hy).
    case_bool_decide as Hxid; case_bool_decide as Hyid; simpl in Heq.
    + apply Hx. apply list_elem_of_fmap. exists y. split; [congruence|done].
    + apply Hyid. apply Hconf; [by right|done].
    + apply Hxid. apply Hconf; [by left|done].
    + apply Hcx. apply list_elem_of_fmap. eauto.
  - apply IH; [done..|]. intros s Hs. apply Hconf. by right.
Qed.

Lemma update_student_Ok_cards name card phone email class id d d' :
  roster_keys_ok d →
  SQL.update_student name card phone email class id d = Ok d' →
  roster_keys_ok d'.
Proof.
  intros [Hids Hcards] Hupd.
  pose proof (update_student_Ok _ _ _ _ _ _ _ _ Hupd) as (Hids' & _).
  split; [by rewrite Hids'|].
  unfold SQL.update_student in Hupd.
  destruct (SQL.students_by_id id d); [by simplify_eq|].
  destruct name as [name|], card as [card|]; try done.
  case_bool_decide as Hconf; [|done]. simplify_eq. simpl.
  apply update_student_cards; [done..|].
  intros x Hx Hcard. destruct (decide (s_id x = id)) as [|Hne]; [done|].
  assert (x ∈ SQL.students_card_conflict card id d) as Hin
    by by apply list_elem_of_filter.
  rewrite Hconf in Hin. by apply elem_of_nil in Hin.
Qed.

#[global] Instance roster_keys_preserved :
  Preserved (λ _, True) (λ _ w, roster_keys_ok (db w)).
Proof.
  split; try done.
  - intros _ a d w Hk _ Hins. by apply insert_attendance_Ok in Hins as (-> & _).
  - intros _ n d w Hk Hins. by apply insert_notification_Ok in Hins as (-> & _).
  - intros r d w Hk Hins. by apply insert_report_Ok in Hins as ->.
  - intros s d w [Hids Hcards] _ Hins.
    pose proof (insert_student_Ok_card _ _ _ Hins) as Hcard.
    apply insert_student_Ok in Hins as (-> & Hid).
    split; unfold SQL.student_ids; simpl; rewrite fmap_app; apply NoDup_app.
    + split; [done|]. split; [|apply NoDup_singleton].
      intros k Hk Hk'. apply list_elem_of_singleton in Hk'. by subst k.
    + split; [done|]. split; [|apply NoDup_singleton].
      intros k Hk Hk'. apply list_elem_of_singleton in Hk'. by subst k.
  - intros name card phone email class id d w Hk Hupd.
    by eapply update_student_Ok_cards.
  - intros id w [Hids Hcards].
    assert (roster_keys_ok (SQL.delete_student id (db w)).2) as Hd.
    { split; [unfold SQL.student_ids|]; simpl; by apply NoDup_fmap_filter. }
    destruct (_ =? _)%Z; [done|]. by rewrite clearStudentTimer_db.
  - intros id w Hk. by rewrite clearStudentTimer_db.
  - intros w Hk. by rewrite clearAllTimers_db.
  - intros s w Hk _. by rewrite startAbsenceTimer_db.
Qed.

(** X7.  Student ids and card ids stay distinct under every run of handlers
    (the primary key and the UNIQUE key of the students table, through
    roster-add, roster-update and roster-delete). *)
Theorem roster_keys_run w trace :
  roster_keys_ok (db w) → roster_keys_ok (db (run w trace)).
Proof.
  intros Hk.
  apply (run_preserved (I := λ _ w, roster_keys_ok (db w)) trace w); [|done].
  by apply Forall_forall.
Qed.

(** ** One report per date is kept by every handler *)

#[global] Instance report_dates_preserved :
  Preserved (λ _, True) (λ _ w, report_dates_ok (db w)).
Proof.
  split; try done.
  - intros _ a d w Hk _ Hins. by apply insert_attendance_Ok in Hins as (-> & _).
  - intros _ n d w Hk Hins. by apply insert_notification_Ok in Hins as (-> & _).
  - intros r d w Hk Hins. unfold SQL.insert_report in Hins.
    repeat case_bool_decide; simplify_eq.
    unfold report_dates_ok in *. simpl. rewrite fmap_app. apply NoDup_app.
    split; [done|]. split; [|apply NoDup_singleton].
    intros k Hk1 Hk2. apply list_elem_of_singleton in Hk2. by subst k.
  - intros s d w Hk _ Hins. by apply insert_student_Ok in Hins as (-> & _).
  - intros name card phone email class id d w Hk Hupd.
    apply update_student_Ok in Hupd as (_ & _ & _ & Hr).
    unfold report_dates_ok in *. simpl. by rewrite Hr.
  - intros id w Hk. destruct (_ =? _)%Z; [done|]. by rewrite clearStudentTimer_db.
  - intros id w Hk. by rewrite clearStudentTimer_db.
  - intros w Hk. by rewrite clearAllTimers_db.
  - intros s w Hk _. by rewrite startAbsenceTimer_db.
Qed.

(** X8.  There is at most one daily report per date after every run of
    handlers, whichever of the two report-writing routes is used and however
    often. *)
Theorem report_dates_run w trace :
  report_dates_ok (db w) → report_dates_ok (db (run w trace)).
Proof.
  intros Hk.
  apply (run_preserved (I := λ _ w, report_dates_ok (db w)) trace w); [|done].
  by apply Forall_forall.
Qed.

(** ** The entries of [timerManager.timers] point at their own timers *)

Lemma handles_own_timers w id h :
  handles_own w → timers w !! id = Some h →
  h < next_handle w ∧
  ∀ cb, timeouts w !! h = Some cb → ∃ s, cb = AbsenceExpiry s ∧ s_id s = id.
Proof. intros [Ht _] Hid. by apply (Ht id h). Qed.

Lemma handles_own_timeouts w h cb :
  handles_own w → timeouts w !! h = Some cb → h < next_handle w.
Proof. intros [_ Ha] Hh. by apply (Ha h cb). Qed.

(** Cancelling timeouts and forgetting entries keeps the property. *)
Lemma handles_own_shrink w t T :
  handles_own w →
  (∀ id h, t !! id = Some h → timers w !! id = Some h) →
  (∀ h cb, T !! h = Some cb → timeouts w !! h = Some cb) →
  handles_own (set_timers t (set_timeouts T w)).
Proof.
  intros Hown Ht HT. split.
  - intros id h Hid. simpl in *.
    destruct (handles_own_timers w id h Hown (Ht _ _ Hid)) as [Hlt Hcb].
    split; [done|]. intros cb Hh. by apply Hcb, HT.
  - intros h cb Hh. simpl in *. by eapply handles_own_timeouts, HT.
Qed.

Lemma handles_own_clearStudentTimer id w :
  handles_own w → handles_own (clearStudentTimer id w).2.
Proof.
  intros Hown. rewrite clearStudentTimer_run.
  destruct (timers w !! id) as [h|]; [|done].
  apply handles_own_shrink; [done|..].
  - intros id' h'. by intros [_ ?]%lookup_delete_Some.
  - intros h' cb. by intros [_ ?]%lookup_delete_Some.
Qed.

#[global] Instance handles_own_preserved : Preserved (λ _, True) (λ _, handles_own).
Proof.
  split; try done.
  - intros id w Hown. destruct (_ =? _)%Z; [done|].
    by apply (handles_own_clearStudentTimer id (set_db _ w)).
  - intros id w. apply handles_own_clearStudentTimer.
  - intros w Hown. rewrite clearAllTimers_run. split.
    + simpl. apply map_Forall_empty.
    + intros h cb Hh. simpl in *.
      assert (clear_handles (timers w) (timeouts w) !! h = Some cb) as Hh'.
      { destruct (dayTimer w); [|done]. by apply lookup_delete_Some in Hh as [_ ?]. }
      apply clear_handles_lookup in Hh' as [Hh' _].
      by eapply handles_own_timeouts.
  - intros s w Hown _. rewrite startAbsenceTimer_run. split.
    + intros id h Hid. simpl in *.
      destruct (decide (s_id s = id)) as [<-|Hne].
      * rewrite lookup_insert_eq in Hid. simplify_eq. split; [lia|].
        intros cb. rewrite lookup_insert_eq. intros [= <-]. eauto.
      * rewrite lookup_insert_ne in Hid by done.
        destruct (handles_own_timers w id h Hown Hid) as [Hlt Hcb].
        split; [lia|]. intros cb. rewrite lookup_insert_ne by lia.
        intros Hh. apply Hcb.
        destruct (timers w !! s_id s); [|done].
        by apply lookup_delete_Some in Hh as [_ ?].
    + intros h cb Hh. simpl in *.
      destruct (decide (h = next_handle w)) as [->|Hne]; [lia|].
      rewrite lookup_insert_ne in Hh by done.
      assert (timeouts w !! h = Some cb) as Hh'.
      { destruct (timers w !! s_id s); [|done].
        by apply lookup_delete_Some in Hh as [_ ?]. }
      apply (handles_own_timeouts w) in Hh'; [lia|done].
  - intros w Hown. split.
    + intros id h Hid. simpl in *.
      destruct (handles_own_timers w id h Hown Hid) as [Hlt Hcb].
      split; [lia|]. intros cb. rewrite lookup_insert_ne by lia. apply Hcb.
    + intros h cb Hh. simpl in *.
      destruct (decide (h = next_handle w)) as [->|Hne]; [lia|].
      rewrite lookup_insert_ne in Hh by done.
      apply (handles_own_timeouts w) in Hh; [lia|done].
  - intros h w Hown.
    apply (handles_own_shrink w (timers w) (delete h (timeouts w))); [done|done|].
    intros h' cb. by intros [_ ?]%lookup_delete_Some.
  - intros h s w Hown _.
    apply (handles_own_shrink w (timers w) (delete h (timeouts w))); [done|done|].
    intros h' cb. by intros [_ ?]%lookup_delete_Some.
  - intros id w Hown.
    apply (handles_own_shrink w (delete id (timers w)) (timeouts w)); [done| |done].
    intros id' h'. by intros [_ ?]%lookup_delete_Some.
Qed.

Lemma handles_own_boot d : handles_own (boot d).
Proof. split; apply map_Forall_empty. Qed.

Lemma handles_own_startDaySystem e d : handles_own (startDaySystem e d).
Proof.
  unfold startDaySystem.
  pose proof (wp_startNewDay (I := λ _, handles_own)
                (set_outages (faults e) (boot d))) as Hwp.
  unfold wp in Hwp.
  destruct (startNewDay _) as [[?|?] ?]; by apply Hwp, handles_own_boot.
Qed.

(** X1.  From start on, after any run of handlers that run one at a time
    (no handler starts while another waits at an [await]), under any
    outages, the state is well formed (student ids distinct, every mark and
    notification belongs to a student, every armed absence timer is the
    registered timer of a student of the roster) and every entry of
    [timerManager.timers] holds a handle that is either not armed or armed
    with that student's own expiry. *)
Theorem server_invariant e d trace :
  db_ok d →
  wf (run (startDaySystem e d) trace) ∧
  handles_own (run (startDaySystem e d) trace).
Proof.
  intros Hdb. split.
  - apply (run_preserved (I := wf_during)); [by apply Forall_forall|].
    by apply wf_startDaySystem.
  - apply (run_preserved (I := λ _, handles_own)); [by apply Forall_forall|].
    apply handles_own_startDaySystem.
Qed.

(** X3.  [clearStudentTimer id] cancels nothing but the timer of [id]: every
    other armed timeout, the day timer included, stays armed, and every other
    entry of [timerManager.timers] stays. *)
Theorem cancel_spares_others id w h cb :
  handles_own w → timeouts w !! h = Some cb →
  (∀ s, cb = AbsenceExpiry s → s_id s ≠ id) →
  timeouts (clearStudentTimer id w).2 !! h = Some cb ∧
  (∀ id', id' ≠ id →
     timers (clearStudentTimer id w).2 !! id' = timers w !! id').
Proof.
  intros Hown Hh Hother. rewrite clearStudentTimer_run.
  destruct (timers w !! id) as [h0|] eqn:Hid; [|done]. simpl. split.
  - rewrite lookup_delete_ne; [done|]. intros <-.
    destruct (handles_own_timers w id h0 Hown Hid) as [_ Hcb].
    destruct (Hcb cb Hh) as (s & -> & Hs). by apply (Hother s).
  - intros id' Hne. by rewrite lookup_delete_ne.
Qed.

(** X4.  [startAbsenceTimer] on a student who already has an entry replaces
    it: the old handle is no longer armed, the entry holds the new handle,
    which is armed with the student's expiry, the number of entries is
    unchanged and no other timeout is touched. *)
Theorem arm_replaces s w h0 :
  handles_own w → timers w !! s_id s = Some h0 →
  let w' := (startAbsenceTimer s w).2 in
  timeouts w' !! h0 = None ∧
  timers w' !! s_id s = Some (next_handle w) ∧
  timeouts w' !! next_handle w = Some (AbsenceExpiry s) ∧
  getActiveTimersCount w' = getActiveTimersCount w ∧
  (∀ h cb, h ≠ h0 → timeouts w !! h = Some cb → timeouts w' !! h = Some cb).
Proof.
  intros Hown Hid. cbn zeta. rewrite startAbsenceTimer_run. simpl. rewrite Hid.
  destruct (handles_own_timers w _ h0 Hown Hid) as [Hlt _].
  split; [|split; [|split; [|split]]].
  - rewrite lookup_insert_ne by lia. apply lookup_delete_eq.
  - apply lookup_insert_eq.
  - apply lookup_insert_eq.
  - unfold getActiveTimersCount. simpl.
    rewrite <- (insert_delete_id (timers w) (s_id s) h0) at 2 by done.
    rewrite <- insert_delete_eq.
    rewrite !map_size_insert_None by apply lookup_delete_eq. done.
  - intros h cb Hne Hh.
    pose proof (handles_own_timeouts w h cb Hown Hh).
    rewrite lookup_insert_ne by lia. by rewrite lookup_delete_ne.
Qed.

(** Arming a student who has no entry adds one. *)
Lemma arm_adds s w :
  handles_own w → timers w !! s_id s = None →
  let w' := (startAbsenceTimer s w).2 in
  timers w' !! s_id s = Some (next_handle w) ∧
  timeouts w' !! next_handle w = Some (AbsenceExpiry s) ∧
  getActiveTimersCount w' = S (getActiveTimersCount w) ∧
  (∀ h cb, timeouts w !! h = Some cb → timeouts w' !! h = Some cb).
Proof.
  intros Hown Hid. cbn zeta. rewrite startAbsenceTimer_run. simpl. rewrite Hid.
  split; [|split; [|split]].
  - apply lookup_insert_eq.
  - apply lookup_insert_eq.
  - unfold getActiveTimersCount. simpl. by apply map_size_insert_None.
  - intros h cb Hh.
    pose proof (handles_own_timeouts w h cb Hown Hh).
    rewrite lookup_insert_ne by lia. done.
Qed.

(** X5.  The shutdown handler, from a well-formed state: no entry is left in
    [timerManager.timers], no absence timer is armed, the day timer is
    cancelled and forgotten, and the store is not touched. *)
Theorem shutdown_cancels w :
  wf w →
  getActiveTimersCount (shutdown w) = 0 ∧
  absence_timeouts (shutdown w) = ∅ ∧
  dayTimer (shutdown w) = None ∧
  (∀ h, dayTimer w = Some h → timeouts (shutdown w) !! h = None) ∧
  db (shutdown w) = db w.
Proof.
  intros [Hdb Harm]. unfold shutdown.
  pose proof (clearAllTimers_lookup w) as Hlook.
  rewrite clearAllTimers_run in *. simpl in *.
  split; [apply map_size_empty|]. split; [|split; [done|split; [|done]]].
  - apply map_empty. intros h. apply map_lookup_filter_None.
    destruct (_ !! h) as [cb|] eqn:Hh; [right|by left].
    intros x [= <-]. simpl. apply Hlook in Hh as [Hh Hreg].
    destruct (armed_ok_lookup _ _ _ _ Harm Hh) as [_ Hcb].
    destruct cb as [s|]; [|done]. destruct Hcb as (Ht & _). by destruct (Hreg (s_id s)).
  - intros h ->. apply lookup_delete_eq.
Qed.

(** X6.  Starting the server on a store with distinct student ids, the
    roster query succeeding: one entry and one armed absence timer per
    student, each student's entry armed with that student's expiry, and the
    day timer armed; the store is not touched. *)
Theorem start_arms_everyone e d :
  db_ok d → faults e = [] →
  let w := startDaySystem e d in
  db w = d ∧
  getActiveTimersCount w = length (students d) ∧
  size (absence_timeouts w) = length (students d) ∧
  (∀ s, s ∈ students d →
        ∃ h, timers w !! s_id s = Some h ∧
             timeouts w !! h = Some (AbsenceExpiry s)) ∧
  (∃ h, dayTimer w = Some h ∧ timeouts w !! h = Some DayRollover).
Proof.
  intros Hdb Hf. cbn zeta. unfold startDaySystem. rewrite Hf.
  rewrite (startNewDay_unhandled (set_outages [] (boot d)) eq_refl).
  destruct (startNewDay_rearms (set_outages [] (boot d)))
    as (Hd & _ & Hn & Hna & Hall); [by apply wf_boot|done|].
  split; [done|]. split; [done|]. split; [done|]. split; [done|].
  rewrite startNewDay_run by done. cbn zeta. simpl.
  eexists. split; [done|]. apply lookup_insert_eq.
Qed.

(** ** Edges of the evaluator *)

Lemma walk_back_nonneg d sid day n : (0 ≤ walk_back d sid day n)%Z.
Proof.
  revert day. induction n as [|n IH]; intros day; simpl; [lia|].
  case_bool_decide; [|lia]. specialize (IH (day - 1)%Z). lia.
Qed.

Lemma walk_back_local d1 d2 sid day n :
  (∀ k : nat, k < n →
     statuses_on d1 sid (day - Z.of_nat k) = statuses_on d2 sid (day - Z.of_nat k)) →
  walk_back d1 sid day n = walk_back d2 sid day n.
Proof.
  revert day. induction n as [|n IH]; intros day Hsame; [done|]. simpl.
  pose proof (Hsame 0 ltac:(lia)) as H0. simpl in H0.
  rewrite Z.sub_0_r in H0. rewrite H0.
  case_bool_decide; [|done]. f_equal. apply IH.
  intros k Hk. specialize (Hsame (S k) ltac:(lia)).
  by replace (day - 1 - Z.of_nat k)%Z with (day - Z.of_nat (S k))%Z by lia.
Qed.

Lemma walk_back_S d sid day n :
  walk_back d sid day (S n) =
  if bool_decide (absent ∈ statuses_on d sid day ∨ statuses_on d sid day = [])
  then (1 + walk_back d sid (day - 1) n)%Z else 0%Z.
Proof. reflexivity. Qed.

(** X9.  With the process in UTC or at a fixed offset west of it and at
    most one mark per student and day, the evaluator returns 0 exactly when
    the student's mark of today is a present mark: any other situation of
    today (absent mark, no mark) gives a streak of at least 1. *)
Theorem streak_zero_iff_present_today e sid w :
  utc_or_west e →
  unique_marks (db w) → (curdate e ≤ today e + 1)%Z → outages w = [] →
  (checkConsecutiveAbsences e sid w).1 = Ok 0%Z ↔
  statuses_on (db w) sid (today e) = [present].
Proof.
  intros (c & Hb & Hc) Hu Hcd Ho.
  rewrite (checkConsecutiveAbsences_fixed e c) by (done || lia).
  rewrite Ho. cbn [fst].
  unfold read_early. rewrite (proj2 (Z.ltb_ge 0 c)) by lia. rewrite Z.add_0_r.
  unfold streak_spec. rewrite (walk_back_S _ _ _ 4).
  pose proof (unique_marks_statuses (db w) sid (today e) Hu) as Hlen.
  pose proof (walk_back_nonneg (db w) sid (today e - 1) 4) as Hnn.
  generalize dependent (walk_back (db w) sid (today e - 1) 4). intros x Hnn.
  destruct (statuses_on (db w) sid (today e)) as [|[|] [|? ?]] eqn:Hs;
    simpl in Hlen; try lia.
  - rewrite bool_decide_eq_true_2 by by right.
    split; [intros [= ?]; lia|done].
  - rewrite bool_decide_eq_false_2; [done|].
    intros [Habs|?]; [|done]. by apply list_elem_of_singleton in Habs.
  - rewrite bool_decide_eq_true_2 by (left; left).
    split; [intros [= ?]; lia|done].
Qed.

(** X10.  With the process at a fixed offset [c] from UTC, the evaluator
    looks at nothing but the student's own marks of five days in a row, the
    last of them today in UTC or west of it and tomorrow east of it: two
    stores that agree on them give the same streak, whatever older marks and
    other students' marks they hold. *)
Theorem streak_local e c sid w1 w2 :
  fixed_zone c e → (- JSDate.msPerDay < c < JSDate.msPerDay)%Z →
  unique_marks (db w1) → unique_marks (db w2) →
  (curdate e ≤ today e + 1)%Z → outages w1 = [] → outages w2 = [] →
  (∀ k : nat, k < 5 →
     statuses_on (db w1) sid (today e + read_early c - Z.of_nat k) =
     statuses_on (db w2) sid (today e + read_early c - Z.of_nat k)) →
  (checkConsecutiveAbsences e sid w1).1 = (checkConsecutiveAbsences e sid w2).1.
Proof.
  intros Hc Hb Hu1 Hu2 Hcd Ho1 Ho2 Hsame.
  rewrite !(checkConsecutiveAbsences_fixed e c) by done.
  rewrite Ho1, Ho2. cbn [fst]. unfold streak_spec.
  by rewrite (walk_back_local _ _ _ _ _ Hsame).
Qed.

(** ** Counting the marks of a day *)

Lemma count_status_split date d :
  (SQL.count_status present date d + SQL.count_status absent date d =
   SQL.count_attendance date d)%Z.
Proof.
  unfold SQL.count_status, SQL.count_attendance.
  induction (attendance d) as [|a l IH]; [done|].
  rewrite !filter_cons.
  destruct (decide (a_date a = date ∧ a_status a = present)) as [[? Hp]|Hp];
    destruct (decide (a_date a = date ∧ a_status a = absent)) as [[? Ha]|Ha];
    destruct (decide (a_date a = date)) as [Hd|Hd];
    simpl length; try lia; try congruence.
  exfalso. destruct (a_status a); [by apply Hp|by apply Ha].
Qed.

Lemma day_students_NoDup date (l : list AttendanceRow) :
  NoDup (mark_key <$> l) →
  NoDup (a_student_id <$> filter (λ a, a_date a = date) l).
Proof.
  induction l as [|a l IH]; intros Hu; [constructor|].
  rewrite fmap_cons in Hu. apply NoDup_cons in Hu as [Ha Hl].
  rewrite filter_cons. case_decide as Hd; [|by apply IH].
  rewrite fmap_cons. apply NoDup_cons. split; [|by apply IH].
  intros Hin. apply Ha. apply list_elem_of_fmap in Hin as (b & Hb & Hin).
  apply list_elem_of_filter in Hin as [Hbd Hin].
  apply list_elem_of_fmap. exists b. split; [|done].
  unfold mark_key. congruence.
Qed.

Lemma marks_of_day_bounded date d :
  db_ok d → unique_marks d →
  (SQL.count_attendance date d ≤ SQL.count_students d)%Z.
Proof.
  intros (Hids & Hfk & _) Hu. unfold SQL.count_attendance, SQL.count_students.
  apply inj_le.
  rewrite <- (length_fmap a_student_id), <- (length_fmap s_id (students d)).
  apply submseteq_length, NoDup_submseteq.
  - by apply day_students_NoDup.
  - intros sid Hin. apply list_elem_of_fmap in Hin as (a & -> & Hin).
    apply list_elem_of_filter in Hin as [_ Hin].
    by apply (proj1 (Forall_forall _ _) Hfk).
Qed.

Lemma tally_by_status date d :
  tally (SQL.attendance_by_status date d) =
  (SQL.count_status present date d, SQL.count_status absent date d).
Proof.
  unfold tally, SQL.attendance_by_status.
  assert (∀ st', (0 ≤ SQL.count_status st' date d)%Z) as Hnn
    by (intros; unfold SQL.count_status; lia).
  pose proof (Hnn present). pose proof (Hnn absent).
  rewrite !filter_cons, filter_nil. simpl.
  destruct (SQL.count_status present date d) eqn:Hp;
    destruct (SQL.count_status absent date d) eqn:Ha; simpl; try done; try lia.
Qed.

(** X11.  The dashboard, on a well-keyed store with at most one mark per
    student and day: the present and absent counts are those of today's
    marks, the timer count is the number of entries of
    [timerManager.timers], and present plus absent never exceeds the number
    of students.  The state is not changed. *)
Theorem dashboard_counts e w :
  db_ok (db w) → unique_marks (db w) → outages w = [] →
  ∃ st, get_dashboard_stats e w = (Ok st, w) ∧
        totalStudents st = Z.of_nat (length (students (db w))) ∧
        presentToday st = SQL.count_status present (today e) (db w) ∧
        absentToday st = SQL.count_status absent (today e) (db w) ∧
        pendingAbsenceTimers st = size (timers w) ∧
        (0 ≤ presentToday st)%Z ∧ (0 ≤ absentToday st)%Z ∧
        (presentToday st + absentToday st ≤ totalStudents st)%Z.
Proof.
  intros Hdb Hu Ho. unfold get_dashboard_stats, bind.
  repeat (rewrite select_up by done; cbn beta iota).
  unfold get, ret. eexists. split; [reflexivity|]. simpl.
  rewrite tally_by_status. simpl.
  pose proof (count_status_split (today e) (db w)).
  pose proof (marks_of_day_bounded (today e) (db w) Hdb Hu).
  unfold SQL.count_students in *. unfold SQL.count_status in *.
  repeat split; lia.
Qed.

(** X12.  The report that report generation appends, on such a store: its day
    number is one more than the largest so far (1 for the first), and its
    present and absent counts are non-negative and together never exceed its
    total of students. *)
Theorem report_counts e w :
  db_ok (db w) → unique_marks (db w) → outages w = [] →
  SQL.reports_of (today e) (db w) = [] →
  uuid1 e ∉ (r_id <$> daily_reports (db w)) →
  ∃ rep,
    daily_reports (db (post_reports_generate e w).2) =
      daily_reports (db w) ++ [rep] ∧
    r_day_number rep = (default 0 (SQL.max_day_number (db w)) + 1)%Z ∧
    r_absent_count rep = SQL.count_status absent (today e) (db w) ∧
    (0 ≤ r_present_count rep)%Z ∧ (0 ≤ r_absent_count rep)%Z ∧
    (r_present_count rep + r_absent_count rep ≤ r_total_students rep)%Z.
Proof.
  intros Hdb Hu Ho Hnone Hfresh. unfold post_reports_generate, route, bind.
  rewrite select_up by done. rewrite Hnone. cbn beta iota.
  rewrite select_up by done. cbn beta iota.
  rewrite select_up by done. cbn beta iota.
  rewrite select_up by done. cbn beta iota.
  rewrite insert_up by done.
  unfold SQL.insert_report. cbn [r_id r_date].
  rewrite bool_decide_eq_false_2 by done.
  rewrite bool_decide_eq_false_2 by by apply reports_of_nil_date.
  cbn beta iota. eexists. split; [reflexivity|].
  cbn [r_day_number r_absent_count r_present_count r_total_students].
  rewrite !count_or_zero_by_status.
  pose proof (count_status_split (today e) (db w)).
  pose proof (marks_of_day_bounded (today e) (db w) Hdb Hu).
  split; [by destruct (SQL.max_day_number (db w))|]. split; [done|].
  unfold SQL.count_status in *. repeat split; lia.
Qed.

(** ** The roster routes *)

Lemma students_by_id_in id d s l :
  SQL.students_by_id id d = s :: l → s_id s = id ∧ s ∈ students d.
Proof.
  intros Hsel.
  assert (s ∈ SQL.students_by_id id d) as Hs by (rewrite Hsel; left).
  by apply list_elem_of_filter in Hs.
Qed.




(** X14.  Roster-update never touches the timers, the marks, the
    notifications, the reports or the set of student ids, whatever the body
    and the outages: an armed absence timer keeps the row it was armed with. *)
Theorem update_person_frame id b w : same_but_roster w (put_students id b w).2.
Proof.
  assert (same_but_roster w w) as Hrefl by by repeat split.
  assert (∀ w' o, same_but_roster w w' → same_but_roster w (set_outages o w'))
    as Ko by done.
  unfold put_students. apply wp_route.
  apply wp_bind, wp_select; intros o; [by apply Ko|].
  destruct (SQL.students_by_id id (db w)) as [|s0 l]; [by apply wp_ret, Ko|].
  apply wp_bind.
  assert (∀ Q : list StudentRow → World → Prop,
            (∀ l' w', same_but_roster w w' → Q l' w') →
            wp (match b_cardId b with
                | text cardId =>
                    if negb (falsy_field (b_cardId b)) &&
                       negb (bool_decide (cardId = s_card_id s0))
                    then select (SQL.students_card_conflict cardId id)
                    else ret []
                | _ => ret []
                end) Q (same_but_roster w) (set_outages o w)) as Hconf.
  { intros Q HQ. destruct (b_cardId b); [by apply wp_ret, HQ, Ko..|].
    case_match; [|by apply wp_ret, HQ, Ko].
    apply wp_select; intros o'; [by apply Ko, Ko|]. by apply HQ, Ko, Ko. }
  apply Hconf. intros conflict w' Hsame.
  destruct conflict; [|by apply wp_ret].
  apply wp_bind, wp_insert; intros o'; [by apply Ko|].
  intros d Hupd. case_bool_decide; [done|]. apply wp_ret.
  apply update_student_Ok in Hupd as (Hids & Hatt & Hnot & Hrep).
  destruct Hsame as (? & ? & ? & ? & Hi & Ha & Hn & Hr).
  repeat split; simpl; congruence.
Qed.

(** X15.  Roster-update, the store being reachable: 404 for an id no student
    has; 400 when the body carries a non-empty card id that is not the
    student's own and that another student holds.  The state is unchanged in
    both cases. *)
Theorem update_person_refused id b w :
  outages w = [] →
  (id ∉ SQL.student_ids (db w) → put_students id b w = (NotFound, w)) ∧
  (∀ card s,
     id ∈ SQL.student_ids (db w) →
     b_cardId b = text card → card ≠ "" →
     (∀ s0, s0 ∈ students (db w) → s_id s0 = id → s_card_id s0 ≠ card) →
     s ∈ students (db w) → s_card_id s = card → s_id s ≠ id →
     put_students id b w = (BadRequest, w)).
Proof.
  intros Ho. unfold put_students, route, bind. rewrite select_up by done.
  cbn beta iota. split.
  - intros Hid. destruct (SQL.students_by_id id (db w)) as [|s0 l] eqn:Hsel;
      [reflexivity|].
    exfalso. apply Hid. apply students_by_id_in in Hsel as [<- Hs].
    apply list_elem_of_fmap. eauto.
  - intros card s Hid Hcard Hne Hown Hs Hsc Hsid.
    destruct (SQL.students_by_id id (db w)) as [|s0 l] eqn:Hsel.
    { exfalso. apply list_elem_of_fmap in Hid as (x & -> & Hx).
      assert (x ∈ SQL.students_by_id (s_id x) (db w)) as Hf
        by by apply list_elem_of_filter.
      rewrite Hsel in Hf. by apply elem_of_nil in Hf. }
    apply students_by_id_in in Hsel as [Hs0 Hs0in].
    rewrite Hcard. unfold falsy_field, sql_value, falsy.
    rewrite (bool_decide_eq_false_2 (card = "")) by done.
    rewrite (bool_decide_eq_false_2 (card = s_card_id s0))
      by (intros Heq; by apply (Hown s0)).
    cbn [negb andb]. rewrite select_up by done.
    assert (s ∈ SQL.students_card_conflict card id (db w)) as Hconf
      by by apply list_elem_of_filter.
    destruct (SQL.students_card_conflict card id (db w)); [|reflexivity].
    by apply elem_of_nil in Hconf.
Qed.

(** ** Manual absence *)

(** X16.  Manual absence, the store being reachable and the generated id
    unused: 404 for an unknown student; the already-recorded answer and no
    change when the student has a mark today; otherwise one mark is appended,
    absent and not auto-marked, and the student's timer is cancelled and its
    entry removed. *)
Theorem manual_absent e id w :
  outages w = [] → uuid1 e ∉ (a_id <$> attendance (db w)) →
  let r := post_manual_absent e id w in
  match SQL.students_by_id id (db w) with
  | [] => r = (NotFound, w)
  | student :: _ =>
    s_id student = id ∧
    match SQL.attendance_of id (today e) (db w) with
    | _ :: _ => r = (Rejected, w)
    | [] =>
      r.1 = Success ∧
      db r.2 = set_attendance
                 (attendance (db w) ++ [manual_absent_mark e student]) (db w) ∧
      a_status (manual_absent_mark e student) = absent ∧
      a_auto_marked (manual_absent_mark e student) = false ∧
      timers r.2 = delete id (timers w) ∧
      timeouts r.2 = match timers w !! id with
                     | Some h => delete h (timeouts w)
                     | None => timeouts w
                     end
    end
  end.
Proof.
  intros Ho Hu. cbn zeta. unfold post_manual_absent, route, bind.
  rewrite select_up by done. cbn beta iota.
  destruct (SQL.students_by_id id (db w)) as [|student l] eqn:Hsel;
    [reflexivity|].
  apply students_by_id_in in Hsel as [Hid Hin]. split; [done|].
  rewrite select_up by done. cbn beta iota. rewrite Hid.
  destruct (SQL.attendance_of id (today e) (db w)) eqn:Hex; [|reflexivity].
  rewrite insert_up by done.
  rewrite (insert_attendance_fresh (manual_absent_mark e student));
    [|done|simpl; apply list_elem_of_fmap; eauto].
  cbn beta iota.
  match goal with
  | |- context [clearStudentTimer ?i ?w0] =>
      pose proof (clearStudentTimer_total i w0) as Htot;
      pose proof (clearStudentTimer_run i w0) as Hrun;
      destruct (clearStudentTimer i w0) as [r0 w1]
  end.
  simpl in Htot, Hrun. subst r0 w1. unfold ret.
  destruct (timers w !! id) eqn:Ht; repeat split.
  simpl. by rewrite delete_id.
Qed.

(** ** Notifications *)

Lemma send_notification_missing id t d :
  id ∉ (n_id <$> notifications d) → SQL.send_notification id t d = (0%Z, d).
Proof.
  intros Hid. unfold SQL.send_notification.
  assert (filter (λ n, n_id n = id) (notifications d) = []) as ->.
  { destruct (filter _ _) as [|n l] eqn:Hf; [done|]. exfalso. apply Hid.
    assert (n ∈ filter (λ n, n_id n = id) (notifications d)) as Hn
      by (rewrite Hf; left).
    apply list_elem_of_filter in Hn as [<- ?]. apply list_elem_of_fmap. eauto. }
  f_equal. destruct d as [sts atts nots reps]. unfold set_notifications.
  simpl in *. f_equal. rewrite <- (list_fmap_id nots) at 2. apply list_fmap_ext.
  intros i n Hn. simpl. rewrite bool_decide_eq_false_2; [done|].
  intros Heq. apply Hid. apply list_elem_of_fmap. exists n. split; [done|].
  by eapply list_elem_of_lookup_2.
Qed.

(** X17.  Sending a notification, the store being reachable: 404 and no
    change when no notification has the id; otherwise the notifications with
    that id become sent with the current time as sent date, keeping message
    and day count, every other notification and each of the three other
    tables (students, attendance, daily reports) is left as it was, and no
    notification is added or removed. *)
Theorem notification_send e id w :
  outages w = [] →
  let r := post_notifications_send e id w in
  (id ∉ (n_id <$> notifications (db w)) → r = (NotFound, w)) ∧
  (id ∈ (n_id <$> notifications (db w)) →
   r.1 = Success ∧
   students (db r.2) = students (db w) ∧
   attendance (db r.2) = attendance (db w) ∧
   daily_reports (db r.2) = daily_reports (db w) ∧
   n_id <$> notifications (db r.2) = n_id <$> notifications (db w) ∧
   (∀ i n, notifications (db w) !! i = Some n →
      ∃ n', notifications (db r.2) !! i = Some n' ∧
            if bool_decide (n_id n = id)
            then n_status n' = sent ∧ n_sent_date n' = Some (now e) ∧
                 n_message n' = n_message n ∧
                 n_consecutive_absent_days n' = n_consecutive_absent_days n
            else n' = n)).
Proof.
  intros Ho. cbn zeta. unfold post_notifications_send, route, bind.
  rewrite update_up by done. split.
  - intros Hid. rewrite send_notification_missing by done. simpl.
    by rewrite set_db_db.
  - intros Hid.
    assert ((SQL.send_notification id (now e) (db w)).1 ≠ 0%Z) as Hz.
    { simpl. apply list_elem_of_fmap in Hid as (n & -> & Hn).
      assert (n ∈ filter (λ x, n_id x = n_id n) (notifications (db w))) as Hf
        by by apply list_elem_of_filter.
      destruct (filter _ _); [by apply elem_of_nil in Hf|]. simpl. lia. }
    apply Z.eqb_neq in Hz. cbn beta iota. rewrite Hz. unfold ret.
    split; [done|]. split; [done|]. split; [done|]. split; [done|]. split.
    + simpl. rewrite <- list_fmap_compose. apply list_fmap_ext.
      intros i n _. simpl. by case_bool_decide.
    + intros i n Hn. simpl. rewrite list_lookup_fmap, Hn. simpl.
      eexists. split; [done|]. by case_bool_decide.
Qed.

(** ** Reports *)

Lemma wp_route_response body (Q : Response → World → Prop) w :
  wp body Q (λ w', ∀ err, Q (ServerError err) w') w →
  Q (route body w).1 (route body w).2.
Proof.
  unfold wp, route. destruct (body w) as [[r|err] w']; simpl; [done|].
  intros H. apply H.
Qed.

Lemma post_reports_generate_success e w :
  (post_reports_generate e w).1 = Success →
  today e ∈ (r_date <$> daily_reports (db (post_reports_generate e w).2)).
Proof.
  unfold post_reports_generate.
  apply (wp_route_response _
           (λ r w', r = Success → today e ∈ (r_date <$> daily_reports (db w')))).
  apply wp_bind, wp_select; intros o; [done|].
  destruct (SQL.reports_of _ _); [|by apply wp_ret].
  apply wp_bind, wp_select; intros o1; [done|].
  apply wp_bind, wp_select; intros o2; [done|].
  apply wp_bind, wp_select; intros o3; [done|].
  apply wp_bind, wp_insert; intros o4; [done|].
  intros d Hins. apply wp_ret. intros _.
  apply insert_report_Ok in Hins as ->. simpl.
  rewrite fmap_app. apply elem_of_app. right. simpl. left.
Qed.

(** X18.  After a successful report generation, generating again for the same
    date is refused and changes nothing. *)
Theorem report_once e e' w :
  (post_reports_generate e w).1 = Success → today e' = today e →
  let w1 := set_outages [] (post_reports_generate e w).2 in
  post_reports_generate e' w1 = (Rejected, w1).
Proof.
  intros Hok Hdate. cbn zeta.
  apply post_reports_generate_success in Hok.
  set (w1 := set_outages [] (post_reports_generate e w).2).
  change (db (post_reports_generate e w).2) with (db w1) in Hok.
  unfold post_reports_generate, route, bind.
  rewrite select_up by done. cbn beta iota. rewrite Hdate.
  destruct (SQL.reports_of (today e) (db w1)) as [|rep l] eqn:Hsel; [|reflexivity].
  by apply reports_of_nil_date in Hsel.
Qed.

Lemma post_system_new_day_run e w :
  outages w = [] →
  post_system_new_day e w =
  (Success, (startNewDay (set_db (new_day_db e (db w)) w)).2).
Proof.
  intros Ho. unfold post_system_new_day, route, bind, new_day_db.
  rewrite select_up by done. cbn beta iota.
  destruct (0 <? SQL.count_attendance (today e) (db w))%Z.
  - rewrite pool_execute_up by done.
    assert (∃ d', insert_ignore_report e (db w) = Ok (tt, d')) as [d' Hd'].
    { unfold insert_ignore_report. destruct (SQL.insert_report _ _); eauto. }
    rewrite Hd'. cbn beta iota.
    rewrite (startNewDay_run (set_db d' w)) by exact Ho. reflexivity.
  - unfold ret at 1. cbn beta iota. rewrite set_db_db.
    rewrite (startNewDay_run w) by exact Ho. reflexivity.
Qed.

Lemma new_day_db_frame e d :
  students (new_day_db e d) = students d ∧
  attendance (new_day_db e d) = attendance d ∧
  notifications (new_day_db e d) = notifications d.
Proof.
  unfold new_day_db, insert_ignore_report.
  destruct (0 <? _)%Z; [|done].
  destruct (SQL.insert_report _ _) eqn:Hins; [|done].
  by apply insert_report_Ok in Hins as ->.
Qed.

(** X19.  The new-day route from a well-formed state, the store being
    reachable: it succeeds; every absence timer that was armed is cancelled;
    afterwards every student has an entry whose handle is armed with that
    student's expiry, and there are as many entries and as many armed absence
    timers as students; roster, marks and notifications are left alone; and a
    report for today is appended exactly when today has a mark, no report
    for today exists and the generated id is unused.  The report carries the
    next day number and today's counts. *)
Theorem new_day_route e w :
  wf w → outages w = [] →
  let r := post_system_new_day e w in
  r.1 = Success ∧
  (∀ h s, timeouts w !! h = Some (AbsenceExpiry s) → timeouts r.2 !! h = None) ∧
  (∀ s, s ∈ students (db w) →
        ∃ h, timers r.2 !! s_id s = Some h ∧
             timeouts r.2 !! h = Some (AbsenceExpiry s)) ∧
  getActiveTimersCount r.2 = length (students (db w)) ∧
  size (absence_timeouts r.2) = length (students (db w)) ∧
  students (db r.2) = students (db w) ∧
  attendance (db r.2) = attendance (db w) ∧
  notifications (db r.2) = notifications (db w) ∧
  if (0 <? SQL.count_attendance (today e) (db w))%Z &&
     bool_decide (uuid1 e ∉ (r_id <$> daily_reports (db w))) &&
     bool_decide (today e ∉ (r_date <$> daily_reports (db w)))
  then ∃ rep,
         daily_reports (db r.2) = daily_reports (db w) ++ [rep] ∧
         r_date rep = today e ∧
         r_day_number rep = (default 0 (SQL.max_day_number (db w)) + 1)%Z ∧
         r_total_students rep = SQL.count_students (db w) ∧
         r_present_count rep = SQL.count_status present (today e) (db w) ∧
         r_absent_count rep = SQL.count_status absent (today e) (db w)
  else daily_reports (db r.2) = daily_reports (db w).
Proof.
  intros Hwf Ho. cbn zeta. rewrite post_system_new_day_run by done. cbn [fst snd].
  destruct (new_day_db_frame e (db w)) as (Hs & Ha & Hn).
  set (d := new_day_db e (db w)) in *.
  assert (wf (set_db d w)) as Hwf2.
  { destruct Hwf as [(? & ? & ?) Harm]. split.
    - unfold db_ok, SQL.student_ids. simpl. by rewrite Hs, Ha, Hn.
    - intros h cb Hh. destruct (armed_ok_lookup _ _ _ _ Harm Hh) as [? Hcb].
      split; [done|]. destruct cb; [|done]. unfold SQL.student_ids. simpl.
      by rewrite Hs. }
  destruct (startNewDay_rearms (set_db d w) Hwf2 Ho)
    as (Hd & Hold & Hn1 & Hn2 & Hall).
  cbn [db set_db timeouts] in Hd, Hold, Hn1, Hn2, Hall.
  rewrite Hs in Hn1, Hn2, Hall. rewrite Hd.
  split; [done|]. split; [exact Hold|]. split; [exact Hall|].
  split; [done|]. split; [done|]. split; [done|]. split; [done|]. split; [done|].
  unfold d, new_day_db, insert_ignore_report, SQL.insert_report. cbn [r_id r_date].
  destruct (0 <? SQL.count_attendance (today e) (db w))%Z; cbn [andb]; [|done].
  destruct (decide (uuid1 e ∈ r_id <$> daily_reports (db w))) as [Hid|Hid].
  { rewrite (bool_decide_eq_true_2 _ Hid).
    rewrite (bool_decide_eq_false_2 (uuid1 e ∉ _)) by tauto. done. }
  rewrite (bool_decide_eq_false_2 _ Hid).
  rewrite (bool_decide_eq_true_2 (uuid1 e ∉ _)) by done. cbn [andb].
  destruct (decide (today e ∈ r_date <$> daily_reports (db w))) as [Hdt|Hdt].
  { rewrite (bool_decide_eq_true_2 _ Hdt).
    rewrite (bool_decide_eq_false_2 (today e ∉ _)) by tauto. done. }
  rewrite (bool_decide_eq_false_2 _ Hdt).
  rewrite (bool_decide_eq_true_2 (today e ∉ _)) by done.
  eexists. split; [reflexivity|]. done.
Qed.

(** ** The day callback while the store cannot be reached *)

Lemma run_exited w trace : exited w = true → run w trace = w.
Proof.
  intros Hex. revert w Hex. induction trace as [|ev trace IH]; intros w Hex; [done|].
  simpl. rewrite Hex. by apply IH.
Qed.

Lemma startNewDay_down w rest :
  outages w = true :: rest →
  startNewDay w = (Throw ECONNREFUSED, set_outages rest (clearAllTimers w).2).
Proof.
  intros Ho. unfold startNewDay, bind.
  pose proof (clearAllTimers_total w) as Htot.
  pose proof (clearAllTimers_outages w) as Hoa. rewrite Ho in Hoa.
  destruct (clearAllTimers w) as [r wa]. simpl in *. subst r.
  unfold select, pool_execute. by rewrite Hoa.
Qed.

Lemma clearAllTimers_no_absence w :
  wf w → absence_timeouts (clearAllTimers w).2 = ∅.
Proof.
  intros [_ Harm]. pose proof (clearAllTimers_lookup w) as Hlook.
  apply map_empty. intros h. apply map_lookup_filter_None.
  destruct (timeouts (clearAllTimers w).2 !! h) as [cb|] eqn:Hh; [right|by left].
  intros x [= <-]. simpl. apply Hlook in Hh as [Hh Hreg].
  destruct (armed_ok_lookup _ _ _ _ Harm Hh) as [_ Hcb].
  destruct cb as [s|]; [|done]. destruct Hcb as (Ht & _). by destruct (Hreg (s_id s)).
Qed.

(** X24.  The day timer fires in a well-formed state of the running process
    while the store cannot be reached.  The roster query of [startNewDay] is
    rejected after the timers have been cleared, nothing handles the
    rejection, and the process ends: no entry is left in
    [timerManager.timers], no absence timer is armed and none is re-armed,
    the store is not touched, and no later event is handled. *)
Theorem day_rollover_outage_ends_process e h w rest trace :
  wf w → exited w = false →
  timeouts w !! h = Some DayRollover → faults e = true :: rest →
  let w' := run w ((e, Fire h) :: trace) in
  exited w' = true ∧ w' = step w (e, Fire h) ∧
  getActiveTimersCount w' = 0 ∧ absence_timeouts w' = ∅ ∧
  dayTimer w' = None ∧ db w' = db w.
Proof.
  intros Hwf Hex Hh Hf. cbn zeta. unfold run. cbn [foldl]. rewrite Hex.
  fold (run (step w (e, Fire h)) trace).
  unfold step, fire. cbn [fst snd]. rewrite Hf. cbn [timeouts set_outages]. rewrite Hh.
  set (w0 := set_timeouts (delete h (timeouts w)) (set_outages (true :: rest) w)).
  assert (wf w0) as Hwf0.
  { unfold w0, wf. apply (pres_fire (I := wf_during) h (set_outages (true :: rest) w)).
    apply (pres_outages (I := wf_during)). exact Hwf. }
  rewrite (startNewDay_down w0 rest eq_refl). cbn [unhandled].
  rewrite run_exited by done.
  pose proof (clearAllTimers_no_absence w0 Hwf0) as Hna.
  rewrite clearAllTimers_run in *.
  split; [done|]. split; [done|]. split; [apply map_size_empty|].
  split; [exact Hna|]. done.
Qed.

(** ** The properties above at concrete inputs *)

Lemma handles_own_day10 : handles_own Ex.day10.
Proof. apply handles_own_startDaySystem. Qed.

Lemma server_invariant_witness :
  db_ok Ex.roster ∧
  wf (run (startDaySystem (Ex.env 10 "" "" []) Ex.roster) Ex2.busy_day) ∧
  handles_own (run (startDaySystem (Ex.env 10 "" "" []) Ex.roster) Ex2.busy_day).
Proof.
  exact (conj db_ok_roster
           (server_invariant (Ex.env 10 "" "" []) Ex.roster Ex2.busy_day
              db_ok_roster)).
Defined.

Lemma cancel_spares_others_witness :
  handles_own Ex.day10 ∧
  timeouts Ex.day10 !! 1 = Some (AbsenceExpiry Ex.bob) ∧
  timeouts (clearStudentTimer "s-alice" Ex.day10).2 !! 1 =
    Some (AbsenceExpiry Ex.bob).
Proof.
  assert (∀ s, AbsenceExpiry Ex.bob = AbsenceExpiry s → s_id s ≠ "s-alice") as H3.
  { intros s [= <-]. by vm_compute. }
  split; [exact handles_own_day10|]. split; [reflexivity|].
  exact (proj1 (cancel_spares_others "s-alice" Ex.day10 1 (AbsenceExpiry Ex.bob)
                  handles_own_day10 eq_refl H3)).
Defined.

Lemma arm_replaces_witness :
  handles_own Ex.day10 ∧ timers Ex.day10 !! "s-alice" = Some 0 ∧
  timeouts (startAbsenceTimer Ex.alice Ex.day10).2 !! 0 = None ∧
  timers (startAbsenceTimer Ex.alice Ex.day10).2 !! "s-alice" = Some 3 ∧
  getActiveTimersCount (startAbsenceTimer Ex.alice Ex.day10).2 = 2.
Proof.
  destruct (arm_replaces Ex.alice Ex.day10 0 handles_own_day10 eq_refl)
    as (H1 & H2 & _ & H4 & _).
  split; [exact handles_own_day10|]. split; [reflexivity|].
  split; [exact H1|]. split; [exact H2|exact H4].
Defined.

Lemma shutdown_cancels_witness :
  wf Ex.day10 ∧ getActiveTimersCount (shutdown Ex.day10) = 0 ∧
  timeouts (shutdown Ex.day10) !! 2 = None.
Proof.
  destruct (shutdown_cancels Ex.day10 wf_day10) as (H1 & _ & _ & H4 & _).
  split; [exact wf_day10|]. split; [exact H1|]. exact (H4 2 eq_refl).
Defined.

Lemma start_arms_everyone_witness :
  db_ok Ex.roster ∧
  getActiveTimersCount (startDaySystem (Ex.env 10 "" "" []) Ex.roster) = 2 ∧
  size (absence_timeouts (startDaySystem (Ex.env 10 "" "" []) Ex.roster)) = 2.
Proof.
  destruct (start_arms_everyone (Ex.env 10 "" "" []) Ex.roster db_ok_roster eq_refl)
    as (_ & H2 & H3 & _).
  split; [exact db_ok_roster|]. split; [exact H2|exact H3].
Defined.

Lemma roster_keys_run_witness :
  roster_keys_ok (db Ex.day10) ∧ roster_keys_ok (db (run Ex.day10 Ex2.busy_day)).
Proof.
  assert (roster_keys_ok (db Ex.day10)) as H1 by by_decide.
  exact (conj H1 (roster_keys_run Ex.day10 Ex2.busy_day H1)).
Defined.

Lemma report_dates_run_witness :
  report_dates_ok (db Ex.day10) ∧ report_dates_ok (db (run Ex.day10 Ex2.busy_day)).
Proof.
  assert (report_dates_ok (db Ex.day10)) as H1 by by_decide.
  exact (conj H1 (report_dates_run Ex.day10 Ex2.busy_day H1)).
Defined.

Lemma streak_zero_iff_present_today_witness :
  unique_marks (db (boot Ex.checked_in)) ∧
  statuses_on (db (boot Ex.checked_in)) "s-alice" 10 = [present] ∧
  (checkConsecutiveAbsences (Ex.env 10 "" "" []) "s-alice"
     (boot Ex.checked_in)).1 = Ok 0%Z.
Proof.
  assert (unique_marks (db (boot Ex.checked_in))) as H1 by by_decide.
  assert (curdate (Ex.env 10 "" "" []) ≤ today (Ex.env 10 "" "" []) + 1)%Z as H2
    by (simpl; lia).
  split; [exact H1|]. split; [reflexivity|].
  exact (proj2 (streak_zero_iff_present_today (Ex.env 10 "" "" []) "s-alice"
                  (boot Ex.checked_in) (utc_or_west_env 10 "" "" [])
                  H1 H2 eq_refl) eq_refl).
Defined.

Lemma streak_local_witness :
  unique_marks (db (boot Ex.three_absences)) ∧
  unique_marks (db (boot Ex2.three_absences_and_more)) ∧
  (checkConsecutiveAbsences (Ex.env 10 "" "" []) "s-alice"
     (boot Ex.three_absences)).1 =
  (checkConsecutiveAbsences (Ex.env 10 "" "" []) "s-alice"
     (boot Ex2.three_absences_and_more)).1.
Proof.
  assert (unique_marks (db (boot Ex.three_absences))) as H1 by by_decide.
  assert (unique_marks (db (boot Ex2.three_absences_and_more))) as H2 by by_decide.
  assert (curdate (Ex.env 10 "" "" []) ≤ today (Ex.env 10 "" "" []) + 1)%Z as H3
    by (simpl; lia).
  assert (fixed_zone 0 (Ex.env 10 "" "" [])) as H4 by (intros t isUTC; reflexivity).
  assert (- JSDate.msPerDay < 0 < JSDate.msPerDay)%Z as H5
    by (unfold JSDate.msPerDay; lia).
  assert (∀ k : nat, k < 5 →
            statuses_on (db (boot Ex.three_absences)) "s-alice"
              (today (Ex.env 10 "" "" []) + read_early 0 - Z.of_nat k) =
            statuses_on (db (boot Ex2.three_absences_and_more)) "s-alice"
              (today (Ex.env 10 "" "" []) + read_early 0 - Z.of_nat k)) as H6.
  { intros k Hk. do 5 (destruct k as [|k]; [reflexivity|]). lia. }
  split; [exact H1|]. split; [exact H2|].
  exact (streak_local (Ex.env 10 "" "" []) 0 "s-alice" (boot Ex.three_absences)
           (boot Ex2.three_absences_and_more) H4 H5 H1 H2 H3 eq_refl eq_refl H6).
Defined.

Lemma dashboard_counts_witness :
  db_ok (db (boot Ex.checked_in)) ∧ unique_marks (db (boot Ex.checked_in)) ∧
  ∃ st, get_dashboard_stats (Ex.env 10 "" "" []) (boot Ex.checked_in) =
          (Ok st, boot Ex.checked_in) ∧
        (presentToday st + absentToday st ≤ totalStudents st)%Z.
Proof.
  assert (db_ok (db (boot Ex.checked_in))) as H1 by by_decide.
  assert (unique_marks (db (boot Ex.checked_in))) as H2 by by_decide.
  destruct (dashboard_counts (Ex.env 10 "" "" []) (boot Ex.checked_in) H1 H2 eq_refl)
    as (st & Hst & _ & _ & _ & _ & _ & _ & Hle).
  split; [exact H1|]. split; [exact H2|]. exists st. split; [exact Hst|exact Hle].
Defined.

Lemma report_counts_witness :
  db_ok (db (boot Ex.checked_in)) ∧ unique_marks (db (boot Ex.checked_in)) ∧
  ∃ rep,
    daily_reports (db (post_reports_generate (Ex.env 10 "r1" "" [])
                         (boot Ex.checked_in)).2) = [rep] ∧
    r_day_number rep = 1%Z ∧
    (r_present_count rep + r_absent_count rep ≤ r_total_students rep)%Z.
Proof.
  assert (db_ok (db (boot Ex.checked_in))) as H1 by by_decide.
  assert (unique_marks (db (boot Ex.checked_in))) as H2 by by_decide.
  assert ("r1" ∉ r_id <$> daily_reports (db (boot Ex.checked_in))) as H5
    by exact (not_elem_of_nil "r1").
  destruct (report_counts (Ex.env 10 "r1" "" []) (boot Ex.checked_in)
              H1 H2 eq_refl eq_refl H5) as (rep & Hrep & Hday & _ & _ & _ & Hle).
  split; [exact H1|]. split; [exact H2|]. exists rep.
  split; [exact Hrep|]. split; [exact Hday|exact Hle].
Defined.


Lemma update_person_refused_witness :
  outages Ex.day10 = [] ∧
  put_students "s-alice" Ex2.take_bobs_card Ex.day10 = (BadRequest, Ex.day10).
Proof.
  assert ("s-alice" ∈ SQL.student_ids (db Ex.day10)) as H1 by by_decide.
  assert (("C2" : string) ≠ "") as H3 by done.
  assert (∀ s0, s0 ∈ students (db Ex.day10) → s_id s0 = "s-alice" →
                s_card_id s0 ≠ "C2") as H4.
  { intros s0 Hs0 Hid.
    change (students (db Ex.day10)) with [Ex.alice; Ex.bob] in Hs0.
    apply elem_of_cons in Hs0 as [->|Hs0]; [done|].
    apply list_elem_of_singleton in Hs0 as ->. done. }
  assert (Ex.bob ∈ students (db Ex.day10)) as H5
    by (change (students (db Ex.day10)) with [Ex.alice; Ex.bob]; right; left).
  assert (s_id Ex.bob ≠ "s-alice") as H7 by done.
  split; [reflexivity|].
  exact (proj2 (update_person_refused "s-alice" Ex2.take_bobs_card Ex.day10 eq_refl)
           "C2" Ex.bob H1 eq_refl H3 H4 H5 eq_refl H7).
Defined.

Lemma manual_absent_witness :
  outages Ex.day10 = [] ∧
  (post_manual_absent (Ex.env 10 "a1" "" []) "s-bob" Ex.day10).1 = Success ∧
  attendance (db (post_manual_absent (Ex.env 10 "a1" "" []) "s-bob" Ex.day10).2) =
    [manual_absent_mark (Ex.env 10 "a1" "" []) Ex.bob] ∧
  timers (post_manual_absent (Ex.env 10 "a1" "" []) "s-bob" Ex.day10).2
    !! "s-bob" = None.
Proof.
  assert ("a1" ∉ a_id <$> attendance (db Ex.day10)) as H2
    by exact (not_elem_of_nil "a1").
  pose proof (manual_absent (Ex.env 10 "a1" "" []) "s-bob" Ex.day10 eq_refl H2) as H.
  cbn zeta in H.
  change (SQL.students_by_id "s-bob" (db Ex.day10)) with [Ex.bob] in H.
  cbn iota in H.
  change (SQL.attendance_of "s-bob" (today (Ex.env 10 "a1" "" [])) (db Ex.day10))
    with (@nil AttendanceRow) in H.
  cbn iota in H. destruct H as (_ & Hr & Hdb & _ & _ & Ht & _).
  split; [reflexivity|]. split; [exact Hr|]. split.
  - rewrite Hdb. reflexivity.
  - rewrite Ht. apply lookup_delete_eq.
Defined.

Lemma notification_send_witness :
  outages Ex2.alerted = [] ∧
  n_status <$> notifications (db Ex2.alerted) = [pending] ∧
  (post_notifications_send (Ex.env 10 "" "" []) "n1" Ex2.alerted).1 = Success ∧
  (post_notifications_send (Ex.env 10 "" "" []) "n9" Ex2.alerted).1 = NotFound.
Proof.
  assert ("n1" ∈ n_id <$> notifications (db Ex2.alerted)) as H1 by by_decide.
  assert ("n9" ∉ n_id <$> notifications (db Ex2.alerted)) as H2 by by_decide.
  split; [reflexivity|]. split; [reflexivity|]. split.
  - exact (proj1 (proj2 (notification_send (Ex.env 10 "" "" []) "n1" Ex2.alerted
                           eq_refl) H1)).
  - exact (f_equal fst (proj1 (notification_send (Ex.env 10 "" "" []) "n9"
                                 Ex2.alerted eq_refl) H2)).
Defined.

Lemma report_once_witness :
  (post_reports_generate (Ex.env 10 "r1" "" []) (boot Ex.checked_in)).1 = Success ∧
  (post_reports_generate (Ex.env 10 "r2" "" [])
     (set_outages []
        (post_reports_generate (Ex.env 10 "r1" "" []) (boot Ex.checked_in)).2)).1 =
    Rejected.
Proof.
  assert ((post_reports_generate (Ex.env 10 "r1" "" []) (boot Ex.checked_in)).1 =
          Success) as H1 by (vm_compute; reflexivity).
  split; [exact H1|].
  exact (f_equal fst (report_once (Ex.env 10 "r1" "" []) (Ex.env 10 "r2" "" [])
                        (boot Ex.checked_in) H1 eq_refl)).
Defined.

Lemma new_day_route_witness :
  wf Ex2.alerted ∧
  (post_system_new_day (Ex.env 10 "r1" "" []) Ex2.alerted).1 = Success ∧
  timeouts (post_system_new_day (Ex.env 10 "r1" "" []) Ex2.alerted).2 !! 1 = None ∧
  (∃ h, timers (post_system_new_day (Ex.env 10 "r1" "" []) Ex2.alerted).2
          !! "s-bob" = Some h ∧
        timeouts (post_system_new_day (Ex.env 10 "r1" "" []) Ex2.alerted).2
          !! h = Some (AbsenceExpiry Ex.bob)) ∧
  getActiveTimersCount (post_system_new_day (Ex.env 10 "r1" "" []) Ex2.alerted).2 = 2 ∧
  length (daily_reports
            (db (post_system_new_day (Ex.env 10 "r1" "" []) Ex2.alerted).2)) = 1.
Proof.
  assert (wf Ex2.alerted) as Hwf
    by exact (wf_run Ex.day10 [(Ex.env 10 "a1" "n1" [], Fire 0)] wf_day10).
  assert (Ex.bob ∈ students (db Ex2.alerted)) as Hbob
    by (change (students (db Ex2.alerted)) with [Ex.alice; Ex.bob]; right; left).
  destruct (new_day_route (Ex.env 10 "r1" "" []) Ex2.alerted Hwf eq_refl)
    as (H1 & Hold & Hall & H2 & _ & _ & _ & _ & Hrep).
  split; [exact Hwf|]. split; [exact H1|].
  split; [exact (Hold 1 Ex.bob eq_refl)|].
  split; [exact (Hall Ex.bob Hbob)|]. split; [exact H2|].
  change ((0 <? SQL.count_attendance (today (Ex.env 10 "r1" "" []))
                  (db Ex2.alerted))%Z) with true in Hrep.
  rewrite (bool_decide_eq_true_2 _ (not_elem_of_nil "r1" : uuid1 (Ex.env 10 "r1" "" [])
             ∉ r_id <$> daily_reports (db Ex2.alerted))) in Hrep.
  rewrite (bool_decide_eq_true_2 _ (not_elem_of_nil 10%Z : today (Ex.env 10 "r1" "" [])
             ∉ r_date <$> daily_reports (db Ex2.alerted))) in Hrep.
  destruct Hrep as (rep & Hrep & _). rewrite Hrep. reflexivity.
Defined.

(** ** Today's marks with the class of their student *)

Lemma insert_by_desc_perm {A} (key : A → Z) r l :
  insert_by_desc key r l ≡ₚ r :: l.
Proof.
  induction l as [|x l IH]; simpl; [done|].
  destruct (_ <? _)%Z; [done|]. rewrite IH. apply Permutation_swap.
Qed.

Lemma order_by_desc_perm {A} (key : A → Z) l : order_by_desc key l ≡ₚ l.
Proof.
  induction l as [|x l IH]; simpl; [done|].
  rewrite insert_by_desc_perm. by rewrite IH.
Qed.

Lemma insert_by_desc_sorted {A} (key : A → Z) r l :
  StronglySorted (λ x y, (key y ≤ key x)%Z) l →
  StronglySorted (λ x y, (key y ≤ key x)%Z) (insert_by_desc key r l).
Proof.
  induction 1 as [|x l Hl IH Hx]; simpl.
  - repeat constructor.
  - destruct (Z.ltb_spec (key x) (key r)).
    + constructor; [by constructor|].
      constructor; [lia|].
      eapply Forall_impl; [exact Hx|]. simpl. intros. lia.
    + constructor; [done|].
      rewrite insert_by_desc_perm. constructor; [lia|done].
Qed.

Lemma order_by_desc_sorted {A} (key : A → Z) l :
  StronglySorted (λ x y, (key y ≤ key x)%Z) (order_by_desc key l).
Proof.
  induction l; simpl; [constructor|by apply insert_by_desc_sorted].
Qed.

Lemma students_by_id_one id (l : list StudentRow) :
  NoDup (s_id <$> l) → id ∈ (s_id <$> l) →
  ∃ s, filter (λ x, s_id x = id) l = [s] ∧ s ∈ l ∧ s_id s = id.
Proof.
  induction l as [|x l IH]; intros Hnd Hin; [by apply not_elem_of_nil in Hin|].
  rewrite fmap_cons in Hnd, Hin. apply NoDup_cons in Hnd as [Hx Hnd].
  rewrite filter_cons. destruct (decide (s_id x = id)) as [Hid|Hid].
  - exists x. split; [|split; [apply elem_of_cons; by left|done]].
    f_equal. clear IH Hnd Hin. subst id.
    induction l as [|y l IH]; [done|].
    rewrite fmap_cons in Hx. apply not_elem_of_cons in Hx as [? ?].
    rewrite filter_cons, decide_False by done. by apply IH.
  - apply elem_of_cons in Hin as [?|Hin]; [congruence|].
    destruct (IH Hnd Hin) as (s & ? & ? & ?).
    exists s. split; [done|]. split; [apply elem_of_cons; by right|done].
Qed.

(** The join before it is ordered: one row per mark. *)
Lemma join_rows (d : DB) (marks : list AttendanceRow) :
  NoDup (SQL.student_ids d) →
  Forall (λ a, a_student_id a ∈ SQL.student_ids d) marks →
  let rows := a ← marks; s ← SQL.students_by_id (a_student_id a) d;
              [(a, s_class s)] in
  rows.*1 = marks ∧
  Forall (λ row, ∃ s, s ∈ students d ∧ s_id s = a_student_id row.1 ∧
                      s_class s = row.2) rows.
Proof.
  intros Hnd. induction 1 as [|a marks Ha Hm IH]; cbn zeta; [by split|].
  destruct IH as [IH1 IH2].
  destruct (students_by_id_one _ _ Hnd Ha) as (s & Hs & Hin & Hid).
  change (SQL.students_by_id (a_student_id a) d = [s]) in Hs.
  rewrite bind_cons, Hs.
  change ([s] ≫= λ s0, [(a, s_class s0)]) with [(a, s_class s)]. split.
  - rewrite fmap_app. simpl. by f_equal.
  - apply Forall_app_2; [|done].
    constructor; [by exists s|constructor].
Qed.

(** X20.  Today's attendance list, on a store with distinct student ids
    whose marks belong to students, the store being reachable: the rows are
    exactly today's marks, each once, each with the class of its student,
    the latest first.  The state is not changed. *)
Theorem attendance_today_complete e w :
  db_ok (db w) → outages w = [] →
  ∃ rows, get_attendance_today e w = (Ok rows, w) ∧
    rows.*1 ≡ₚ filter (λ a, a_date a = today e) (attendance (db w)) ∧
    Forall (λ row, ∃ s, s ∈ students (db w) ∧ s_id s = a_student_id row.1 ∧
                        s_class s = row.2) rows ∧
    StronglySorted (λ x y, (a_timestamp y.1 ≤ a_timestamp x.1)%Z) rows.
Proof.
  intros (Hnd & Hfk & _) Ho. eexists. split.
  { unfold get_attendance_today. by rewrite select_up. }
  unfold attendance_join_class.
  destruct (join_rows (db w) (filter (λ a, a_date a = today e) (attendance (db w)))
              Hnd) as [H1 H2].
  { by apply Forall_filter_keep. }
  cbn zeta in H1, H2.
  split; [|split].
  - rewrite order_by_desc_perm. by rewrite H1.
  - rewrite order_by_desc_perm. done.
  - apply (order_by_desc_sorted (λ row : AttendanceRow * option string, a_timestamp row.1)).
Qed.

Lemma attendance_today_complete_witness :
  ∃ rows,
    get_attendance_today (Ex.env 10 "a1" "n1" []) (boot Ex2.three_absences_and_more)
      = (Ok rows, boot Ex2.three_absences_and_more) ∧
    length rows = 1.
Proof.
  destruct (attendance_today_complete (Ex.env 10 "a1" "n1" [])
              (boot Ex2.three_absences_and_more)) as (rows & Hrun & Hp & _).
  - by_decide.
  - reflexivity.
  - exists rows. split; [exact Hrun|].
    rewrite <- (length_fmap fst), Hp. reflexivity.
Defined.

(** X24 on the first day tick of the two-student roster, the store being
    unreachable: the check-in that follows is not handled. *)
Lemma day_rollover_outage_ends_process_witness :
  wf Ex.day10 ∧ timeouts Ex.day10 !! 2 = Some DayRollover ∧
  exited (run Ex.day10 [(Ex.env 11 "" "" [true], Fire 2);
                        (Ex.env 11 "a1" "" [], PostAttendanceRecord (Some "C1"))])
    = true ∧
  attendance (db (run Ex.day10
                    [(Ex.env 11 "" "" [true], Fire 2);
                     (Ex.env 11 "a1" "" [], PostAttendanceRecord (Some "C1"))]))
    = [].
Proof.
  assert (timeouts Ex.day10 !! 2 = Some DayRollover) as H2 by reflexivity.
  destruct (day_rollover_outage_ends_process (Ex.env 11 "" "" [true]) 2 Ex.day10 []
              [(Ex.env 11 "a1" "" [], PostAttendanceRecord (Some "C1"))]
              wf_day10 eq_refl H2 eq_refl) as (H3 & _ & _ & _ & _ & H4).
  split; [exact wf_day10|]. split; [exact H2|]. split; [exact H3|].
  rewrite H4. reflexivity.
Defined.
